(** * videobgremover-node: the composition engine, embedded and verified

    A shallow embedding of the media layer of the SDK
    ([src/media/video-source.ts], [foreground.ts], [backgrounds.ts],
    [encoders.ts], [composition.ts]) together with theorems about the
    argument list and filter graph that [Composition] compiles.

    Conventions of the embedding.
    - A JavaScript [number] is kept abstract behind the class [JSNumber]:
      the comparisons, arithmetic and the conversions from and to strings
      that the source uses are operations of the class, with the few order
      laws of IEEE-754 doubles that the proofs need.  Array indices and
      input indices, which the source only ever counts up from zero, are
      [nat] and print in decimal; the z-order of a layer is an integer.
    - A JavaScript string is a [string] of bytes.  On a string of ASCII
      characters [toLowerCase] maps the letters A to Z; on any other
      string it is the lowering of the engine, a field of the [World].
    - [undefined] is [None]; a [throw] is [Throw msg] in the [result] monad.
    - A [Record<string, number>] is a [gmap string nat].
    - External processes (ffprobe, unzip, the file system, URL parsing,
      the check of the ffmpeg binaries that creates the default context)
      are fields of an explicit [World].
    - Objects that the source shares and writes in place (the layers of
      a composition and of its copies) live in an object store, in the
      module [Heap]; the functions on [Composition] values are the view
      of one composition. *)

From Stdlib Require Import ZArith QArith Qround String Ascii List Sorted Permutation.
From stdpp Require Import gmap strings list pretty.

(* ===================================================================== *)
(** * JavaScript numbers *)
(* ===================================================================== *)

Class JSNumber : Type := {
  num : Type;
  (** numeric literals of the source: [0], [1.0], [100], [1000] *)
  num_of_Z : Z -> num;
  (** [a < b], [a <= b] and [a === b] on numbers *)
  num_ltb : num -> num -> bool;
  num_leb : num -> num -> bool;
  num_eqb : num -> num -> bool;
  (** [isNaN(a)] *)
  num_isNaN : num -> bool;
  (** [a - b], [a * b], [a / b] *)
  num_sub : num -> num -> num;
  num_mul : num -> num -> num;
  num_div : num -> num -> num;
  (** [Math.floor], [Math.max], [Math.min] *)
  num_floor : num -> num;
  num_max : num -> num -> num;
  num_min : num -> num -> num;
  (** [parseFloat(s)] and [String(a)] / [a.toString()] / [`${a}`] *)
  num_parseFloat : string -> num;
  num_toString : num -> string;
  (** order laws of doubles used below *)
  num_ltb_irrefl : forall x, num_ltb x x = false;
  num_ltb_trans : forall x y z,
      num_ltb x y = true -> num_ltb y z = true -> num_ltb x z = true;
  num_ltb_neq : forall x y, num_ltb x y = true -> num_eqb y x = false;
  num_ltb_notNaN : forall x y, num_ltb x y = true -> num_isNaN y = false;
  (** a number other than [NaN] is [===] to itself, and no literal is
      [NaN] *)
  num_eqb_refl : forall x, num_isNaN x = false -> num_eqb x x = true;
  num_of_Z_notNaN : forall n, num_isNaN (num_of_Z n) = false;
}.

Module JS.
Section Numbers.
Context `{JSNumber}.

Definition zero : num := num_of_Z 0.
Definition one : num := num_of_Z 1.

(** [a > b] *)
Definition gtb (a b : num) : bool := num_ltb b a.
(** [a >= b] *)
Definition geb (a b : num) : bool := num_leb b a.
(** [a !== b] *)
Definition neqb (a b : num) : bool := negb (num_eqb a b).

(** Truthiness of a number: every number but [0], [-0] and [NaN]. *)
Definition truthy (a : num) : bool :=
  negb (num_eqb a zero) && negb (num_isNaN a).

(** Truthiness of an optional number ([number | undefined]). *)
Definition truthy_opt (a : option num) : bool :=
  match a with Some x => truthy x | None => false end.

(** [Math.max(0.0, Math.min(1.0, v))] *)
Definition clamp01 (v : num) : num := num_max zero (num_min one v).
End Numbers.

(** Truthiness of an optional string: [undefined] and [""] are falsy. *)
Definition truthy_str (s : option string) : bool :=
  match s with
  | Some EmptyString => false
  | Some _ => true
  | None => false
  end.
End JS.

(* ===================================================================== *)
(** * Exceptions *)
(* ===================================================================== *)

Inductive result (A : Type) : Type :=
| Ok (a : A)
| Throw (msg : string).
Arguments Ok {A} a.
Arguments Throw {A} msg.

Definition rbind {A B} (r : result A) (k : A -> result B) : result B :=
  match r with
  | Ok a => k a
  | Throw m => Throw m
  end.

#[global] Instance result_ret : MRet result := @Ok.
#[global] Instance result_bind : MBind result :=
  fun A B k r => rbind r k.

Definition is_ok {A} (r : result A) : bool :=
  match r with Ok _ => true | Throw _ => false end.

(* ===================================================================== *)
(** * String primitives *)
(* ===================================================================== *)

Module Str.

(** [s.startsWith(p)] *)
Definition startsWith (p s : string) : bool := String.prefix p s.

(** [s.lastIndexOf(c)] for a one-character needle; [None] stands for -1. *)
Fixpoint lastIndexOf (c : ascii) (s : string) : option nat :=
  match s with
  | EmptyString => None
  | String a r =>
      match lastIndexOf c r with
      | Some i => Some (S i)
      | None => if Ascii.eqb a c then Some 0 else None
      end
  end.

(** [s.substring(n)] *)
Fixpoint substringFrom (n : nat) (s : string) : string :=
  match n, s with
  | O, _ => s
  | S k, String _ r => substringFrom k r
  | S _, EmptyString => EmptyString
  end.

Definition lower_ascii (a : ascii) : ascii :=
  let n := nat_of_ascii a in
  if (65 <=? n)%nat && (n <=? 90)%nat then ascii_of_nat (n + 32) else a.

(** Every character is an ASCII character. *)
Fixpoint is_ascii (s : string) : bool :=
  match s with
  | EmptyString => true
  | String a r => (nat_of_ascii a <? 128)%nat && is_ascii r
  end.

(** [s.toLowerCase()] for a string of ASCII characters: the letters A
    to Z are the only ones that change. *)
Fixpoint lower (s : string) : string :=
  match s with
  | EmptyString => EmptyString
  | String a r => String (lower_ascii a) (lower r)
  end.

(** [s.split(c)] for a one-character separator: never empty. *)
Fixpoint split (c : ascii) (s : string) : list string :=
  match s with
  | EmptyString => [EmptyString]
  | String a r =>
      if Ascii.eqb a c then EmptyString :: split c r
      else match split c r with
           | h :: t => String a h :: t
           | [] => [String a EmptyString]
           end
  end.

(** [s.includes(sub)] *)
Fixpoint includes (sub s : string) : bool :=
  String.prefix sub s ||
  match s with
  | EmptyString => false
  | String _ r => includes sub r
  end.

(** [s.endsWith(suf)] *)
Fixpoint endsWith (suf s : string) : bool :=
  String.eqb suf s ||
  match s with
  | EmptyString => false
  | String _ r => endsWith suf r
  end.

(** [parts.join(sep)] *)
Fixpoint join (sep : string) (parts : list string) : string :=
  match parts with
  | [] => EmptyString
  | [p] => p
  | p :: rest => p +:+ sep +:+ join sep rest
  end.

(** [`${a[i]}`] for an array of strings: a missing element prints as
    [undefined]. *)
Definition nth_or_undefined (l : list string) (i : nat) : string :=
  match l !! i with
  | Some s => s
  | None => "undefined"
  end.

(** [`${n}`] for an index. *)
Definition of_nat (n : nat) : string := pretty n.

(** [`${m[k]}`] for a [Record<string, number>]. *)
Definition of_lookup (m : gmap string nat) (k : string) : string :=
  match m !! k with
  | Some n => of_nat n
  | None => "undefined"
  end.

End Str.

(* ===================================================================== *)
(** * The regular expression of [Background.fromColor] *)
(* ===================================================================== *)

Module Regex.

(** The fragment of the regular-expression language that the source
    uses: literal characters, character classes given by ranges,
    sequencing and bounded repetition [{n}]. *)
Inductive regex : Type :=
| Chr (c : ascii)
| Class (ranges : list (ascii * ascii))
| Seq (r1 r2 : regex)
| Repeat (n : nat) (r : regex).

Definition in_range (a : ascii) (rg : ascii * ascii) : bool :=
  (nat_of_ascii (fst rg) <=? nat_of_ascii a)%nat &&
  (nat_of_ascii a <=? nat_of_ascii (snd rg))%nat.

Definition in_class (a : ascii) (ranges : list (ascii * ascii)) : bool :=
  existsb (in_range a) ranges.

(** [run r s] lists the remainders of [s] after each way of matching [r]
    at its start. *)
Fixpoint run (r : regex) (s : string) : list string :=
  match r with
  | Chr c =>
      match s with
      | String a t => if Ascii.eqb a c then [t] else []
      | EmptyString => []
      end
  | Class ranges =>
      match s with
      | String a t => if in_class a ranges then [t] else []
      | EmptyString => []
      end
  | Seq r1 r2 => flat_map (run r2) (run r1 s)
  | Repeat n r1 => Nat.iter n (flat_map (run r1)) [s]
  end.

(** [s.match(/^r$/)] is not [null]: without the [m] flag [^] and [$] are
    the two ends of the input. *)
Definition matches_anchored (r : regex) (s : string) : bool :=
  existsb (String.eqb EmptyString) (run r s).

(** [/^#[0-9A-Fa-f]{6}$/] *)
Definition hex_color : regex :=
  Seq (Chr "#")
      (Repeat 6 (Class [("0", "9"); ("A", "F"); ("a", "f")]%char)).

End Regex.

(* ===================================================================== *)
(** * [types.ts] *)
(* ===================================================================== *)

Inductive Anchor : Type :=
| CENTER | TOP_LEFT | TOP_CENTER | TOP_RIGHT | CENTER_LEFT | CENTER_RIGHT
| BOTTOM_LEFT | BOTTOM_CENTER | BOTTOM_RIGHT.

Inductive SizeMode : Type :=
| CONTAIN | COVER | PX | CANVAS_PERCENT | FIT_WIDTH | FIT_HEIGHT | SCALE.

Inductive TransparentFormat : Type :=
| webm_vp9 | mov_prores | png_sequence | pro_bundle | stacked_video.

#[global] Instance Anchor_eq_dec : EqDecision Anchor.
Proof. solve_decision. Defined.
#[global] Instance SizeMode_eq_dec : EqDecision SizeMode.
Proof. solve_decision. Defined.
#[global] Instance TransparentFormat_eq_dec : EqDecision TransparentFormat.
Proof. solve_decision. Defined.

(** The tag as it prints in a template string. *)
Definition format_name (f : TransparentFormat) : string :=
  match f with
  | webm_vp9 => "webm_vp9"
  | mov_prores => "mov_prores"
  | png_sequence => "png_sequence"
  | pro_bundle => "pro_bundle"
  | stacked_video => "stacked_video"
  end.

(** [MediaContext]: the two binaries, the temp root, and the answer of
    [checkWebmSupport()], which asks the ffmpeg binary for its codecs. *)
Record MediaContext : Type := {
  ffmpeg : string;
  ffprobe : string;
  tmp : string;
  checkWebmSupport : bool;
}.

Section ProbeTypes.
Context `{JSNumber}.

(* ===================================================================== *)
(** * [video-source.ts] *)
(* ===================================================================== *)

(** [duration?: string | number] *)
Inductive JSDuration : Type :=
| DurString (s : string)
| DurNumber (n : num).

Definition truthy_duration (d : option JSDuration) : bool :=
  match d with
  | Some (DurString s) => JS.truthy_str (Some s)
  | Some (DurNumber n) => JS.truthy n
  | None => false
  end.

(** One entry of ffprobe's [streams] array. *)
Record ProbeStream : Type := {
  ps_width : option num;
  ps_height : option num;
  ps_r_frame_rate : option string;
  ps_codec_name : option string;
  ps_codec_type : option string;
  ps_pix_fmt : option string;
  ps_duration : option JSDuration;
}.

(** The parsed JSON document that ffprobe prints. *)
Record ProbeData : Type := {
  pd_streams : option (list ProbeStream);
  pd_format : option (option string);   (* [format?: { duration?: string }] *)
}.

Inductive SourceType : Type := SrcFile | SrcUrl.

Record VideoInfo : Type := {
  codec_name : string;
  codec_type : option string;
  pix_fmt : option string;
  vi_width : option num;
  vi_height : option num;
  duration : option JSDuration;
  source_type : SourceType;
  original_source : string;
  streams : option (list ProbeStream);
}.

(** What lies outside the program: the ffprobe process ([None] when
    [execSync] or [JSON.parse] throws), the [URL] parser ([None] when the
    constructor throws, else the [pathname]), archive extraction into a
    fresh directory (the directory, or the thrown error as [`${error}`]
    prints it), the file system, the dimension probes and the image
    download of [backgrounds.ts], the lowering of strings with a
    character outside ASCII, and [defaultContext()] of [context.ts]: the
    process-wide context, or the message of the error that
    [new MediaContext()] throws when [_verifyFFmpeg] cannot run the
    binaries. *)
Record World : Type := {
  run_ffprobe : MediaContext -> string -> option ProbeData;
  url_pathname : string -> option string;
  extract_zip : MediaContext -> string -> result string;
  path_join : string -> string -> string;
  existsSync : string -> bool;
  _probeImageDimensions : string -> MediaContext -> result (num * num);
  _probeVideoDimensions : string -> MediaContext -> result (num * num * num);
  _downloadImageToTemp : string -> MediaContext -> result string;
  lower_unicode : string -> string;
  defaultContext : result MediaContext;
}.

(** [ctx || defaultContext()]: a context object is truthy, so the
    default is asked for only when no context is given, and then it can
    throw. *)
Definition ctx_or_default (W : World) (ctx : option MediaContext)
  : result MediaContext :=
  match ctx with Some c => Ok c | None => defaultContext W end.

(** [s.toLowerCase()] *)
Definition toLowerCase (W : World) (s : string) : string :=
  if Str.is_ascii s then Str.lower s else lower_unicode W s.

End ProbeTypes.

Module VideoSource.
Section Methods.
Context `{JSNumber} (W : World).

Definition _detectSourceType (path : string) : SourceType :=
  if Str.startsWith "http://" path || Str.startsWith "https://" path
  then SrcUrl else SrcFile.

Definition _fallbackInfo (path : string) : VideoInfo :=
  {| codec_name := "unknown";
     codec_type := None;
     pix_fmt := Some "unknown";
     vi_width := None;
     vi_height := None;
     duration := None;
     source_type := _detectSourceType path;
     original_source := path;
     streams := None |}.

Definition is_video_stream (s : ProbeStream) : bool :=
  match ps_codec_type s with
  | Some t => String.eqb t "video"
  | None => false
  end.

Definition is_audio_stream (s : ProbeStream) : bool :=
  match ps_codec_type s with
  | Some t => String.eqb t "audio"
  | None => false
  end.

Definition _probeVideoInfo (path : string) (ctx : MediaContext) : VideoInfo :=
  match run_ffprobe W ctx path with
  | None => _fallbackInfo path
  | Some data =>
      match pd_streams data with
      | None => _fallbackInfo path
      | Some ss =>
          match List.find is_video_stream ss with
          | None => _fallbackInfo path
          | Some videoStream =>
              let duration0 := ps_duration videoStream in
              let duration1 :=
                if negb (truthy_duration duration0)
                then match pd_format data with
                     | Some fd => DurString <$> fd
                     | None => duration0
                     end
                else duration0 in
              {| codec_name :=
                   (if JS.truthy_str (ps_codec_name videoStream)
                    then default "unknown" (ps_codec_name videoStream)
                    else "unknown");
                 codec_type := ps_codec_type videoStream;
                 pix_fmt := ps_pix_fmt videoStream;
                 vi_width := ps_width videoStream;
                 vi_height := ps_height videoStream;
                 duration := duration1;
                 source_type := _detectSourceType path;
                 original_source := path;
                 streams := Some ss |}
          end
      end
  end.

(** [probeAndStore]: the value stored in [_videoInfo]. *)
Definition probeAndStore (path : string) (ctx : MediaContext) : VideoInfo :=
  _probeVideoInfo path ctx.

Definition getDuration (info : option VideoInfo) : option num :=
  match info with
  | Some vi =>
      if truthy_duration (duration vi) then
        match duration vi with
        | Some (DurString s) =>
            let d := num_parseFloat s in
            if num_isNaN d then None else Some d
        | Some (DurNumber d) =>
            if num_isNaN d then None else Some d
        | None => None
        end
      else None
  | None => None
  end.

Definition getDecoderArgs (info : option VideoInfo) (ctx : MediaContext)
  : list string :=
  match info with
  | None => []
  | Some vi =>
      if String.eqb (codec_name vi) "vp9" && checkWebmSupport ctx
      then ["-c:v"; "libvpx-vp9"]
      else []
  end.

Definition hasAudioStreams (info : option VideoInfo) : bool :=
  match info with
  | Some vi =>
      match streams vi with
      | Some ss => existsb is_audio_stream ss
      | None => false
      end
  | None => false
  end.

End Methods.
End VideoSource.

(* ===================================================================== *)
(** * [foreground.ts] *)
(* ===================================================================== *)

Section ForegroundType.
Context `{JSNumber}.

(** The fields of a [Foreground] object; [_videoInfo] is the one inherited
    from [VideoSource]. *)
Record Foreground : Type := {
  format : TransparentFormat;
  primaryPath : string;
  maskPath : option string;
  audioPath : option string;
  sourceTrim : option (num * option num);
  _videoInfo : option VideoInfo;
}.

End ForegroundType.

Definition nl : string := String (ascii_of_nat 10) EmptyString.

Module Foreground.
Section Methods.
Context `{JSNumber} (W : World).

(** [new Foreground(format, primaryPath, options)] *)
Definition new (fmt : TransparentFormat) (primary : string)
    (mask audio : option string) (trim : option (num * option num))
  : Foreground :=
  {| format := fmt; primaryPath := primary; maskPath := mask;
     audioPath := audio; sourceTrim := trim; _videoInfo := None |}.

(** [fg.probeAndStore(path, ctx)] *)
Definition probeAndStore (fg : Foreground) (path : string)
    (ctx : MediaContext) : Foreground :=
  {| format := format fg; primaryPath := primaryPath fg;
     maskPath := maskPath fg; audioPath := audioPath fg;
     sourceTrim := sourceTrim fg;
     _videoInfo := Some (VideoSource.probeAndStore W path ctx) |}.

Definition getDuration (fg : Foreground) : option num :=
  VideoSource.getDuration (_videoInfo fg).

Definition fromWebmVp9 (path : string) (ctx : option MediaContext)
  : result Foreground :=
  context ← ctx_or_default W ctx;
  Ok (probeAndStore (new webm_vp9 path None None None) path context).

Definition fromMovProres (path : string) (ctx : option MediaContext)
  : result Foreground :=
  context ← ctx_or_default W ctx;
  Ok (probeAndStore (new mov_prores path None None None) path context).

Definition fromPngSequence (path : string) : Foreground :=
  new png_sequence path None None None.

Definition fromVideoAndMask (videoPath maskPath : string)
    (audioPath : option string) (ctx : option MediaContext)
  : result Foreground :=
  context ← ctx_or_default W ctx;
  Ok (probeAndStore (new pro_bundle videoPath (Some maskPath) audioPath None)
                    videoPath context).

Definition fromStackedVideo (path : string) (ctx : option MediaContext)
  : result Foreground :=
  context ← ctx_or_default W ctx;
  Ok (probeAndStore (new stacked_video path None None None) path context).

(** [Importer._handleZipBundle] of an importer whose context is [ctx]:
    every exception raised inside its [try] is caught and rethrown with
    the prefix; [`${error}`] of an [Error] prints as [Error: ] followed
    by its message.  [extract_zip] throws what [mkdtempSync] or the
    archive library throw, as [`${error}`] prints it.
    [fromVideoAndMask] is called without a context, so it asks for the
    default one, and the error of a failed check is rethrown as well. *)
Definition _handleZipBundle (ctx : MediaContext) (zipPath : string)
  : result Foreground :=
  let rethrow (e : string) : result Foreground :=
    Throw ("Failed to extract pro bundle ZIP: " +:+ e) in
  let rethrown (r : result Foreground) : result Foreground :=
    match r with
    | Ok f => Ok f
    | Throw msg => rethrow ("Error: " +:+ msg)
    end in
  match extract_zip W ctx zipPath with
  | Throw e => rethrow e
  | Ok extractDir =>
      let colorPath := path_join W extractDir "color.mp4" in
      let alphaPath := path_join W extractDir "alpha.mp4" in
      let audioPath := path_join W extractDir "audio.m4a" in
      if negb (existsSync W colorPath) then
        rethrow "Error: color.mp4 not found in pro bundle"
      else if negb (existsSync W alphaPath) then
        rethrow "Error: alpha.mp4 not found in pro bundle"
      else if existsSync W audioPath then
        rethrown (fromVideoAndMask colorPath alphaPath (Some audioPath) None)
      else
        rethrown (fromVideoAndMask colorPath alphaPath None None)
  end.

(** [new Importer(defaultContext())._handleZipBundle(path)] *)
Definition fromProBundleZip (path : string) : result Foreground :=
  context ← defaultContext W;
  _handleZipBundle context path.

(** [path.substring(path.lastIndexOf('.'))]: a start of -1 counts as 0. *)
Definition from_last_dot (path : string) : string :=
  match Str.lastIndexOf "." path with
  | Some i => Str.substringFrom i path
  | None => path
  end.

Definition _getFileExtension (path : string) : string :=
  if Str.startsWith "http://" path || Str.startsWith "https://" path then
    match url_pathname W path with
    | Some pathname => toLowerCase W (from_last_dot pathname)
    | None =>
        (* the [catch] branch *)
        let pathLower := toLowerCase W path in
        if Str.includes "." pathLower
        then "." +:+ default "" (last (Str.split "." pathLower))
        else ""
    end
  else toLowerCase W (from_last_dot path).

Definition unknown_format_message (path extension : string) : string :=
  "Unknown video format for file: " +:+ path +:+ nl +:+
  "Detected extension: " +:+
    (if JS.truthy_str (Some extension) then extension else "none") +:+ nl +:+
  "Supported formats:" +:+ nl +:+
  "  - .webm → use Foreground.fromWebmVp9()" +:+ nl +:+
  "  - .mov  → use Foreground.fromMovProres()" +:+ nl +:+
  "  - .mp4  → use Foreground.fromStackedVideo()" +:+ nl +:+
  "  - .zip  → use Foreground.fromProBundleZip()" +:+ nl +:+
  "Or use specific format methods if you know the exact format.".

Definition fromFile (path : string) (ctx : option MediaContext)
  : result Foreground :=
  context ← ctx_or_default W ctx;
  let extension := _getFileExtension path in
  if String.eqb extension ".webm" then
    fromWebmVp9 path (Some context)
  else if String.eqb extension ".mov" then
    fromMovProres path (Some context)
  else if String.eqb extension ".zip" then
    fromProBundleZip path
  else if String.eqb extension ".mp4" then
    fromStackedVideo path (Some context)
  else
    Throw (unknown_format_message path extension).

Definition fromUrl (url : string) (fmt : option TransparentFormat)
    (ctx : option MediaContext) : result Foreground :=
  context ← ctx_or_default W ctx;
  let format := default webm_vp9 fmt in
  if bool_decide (format = pro_bundle) || Str.endsWith ".zip" url then
    fromProBundleZip url
  else
    Ok (probeAndStore (new format url None None None) url context).

(** [subclip(start, end?)] builds a new object from the receiver's
    format and locators; the probed info is not carried over. *)
Definition subclip (this : Foreground) (start : num) (end_ : option num)
  : Foreground :=
  new (format this) (primaryPath this) (maskPath this) (audioPath this)
      (Some (start, end_)).

(** ** Objects with identity

    A store of [Foreground] objects is the list of them in the order
    of their allocation, an address an index of the list.  [new] in the source allocates; nothing in the class
    writes to an existing object. *)
Definition alloc (h : list Foreground) (fg : Foreground)
  : list Foreground * nat :=
  (h ++ [fg], length h).

(** [a.subclip(start, end)] on the object at address [a]: [None] when
    [a] is not an object of the store. *)
Definition subclip_at (h : list Foreground) (a : nat) (start : num)
    (end_ : option num) : option (list Foreground * nat) :=
  match h !! a with
  | Some this => Some (alloc h (subclip this start end_))
  | None => None
  end.

(** ** Input wiring *)

Definition layer_key (layerIdx : nat) : string :=
  "layer_" +:+ Str.of_nat layerIdx.

Definition InputWiring : Type :=
  list string * gmap string nat * option string.

Definition _getWebmInputs (this : Foreground) (inputIdx layerIdx : nat)
    (ctx : MediaContext) (sourceTrimArgs compositionTimingArgs : list string)
  : InputWiring :=
  let args :=
    if checkWebmSupport ctx then
      compositionTimingArgs ++ ["-c:v"; "libvpx-vp9"] ++ sourceTrimArgs
        ++ ["-i"; primaryPath this]
    else
      compositionTimingArgs ++ sourceTrimArgs ++ ["-i"; primaryPath this] in
  let layerKey := layer_key layerIdx in
  (args, {[ layerKey := inputIdx ]}, Some layerKey).

Definition _getMovInputs (this : Foreground) (inputIdx layerIdx : nat)
    (ctx : MediaContext) (sourceTrimArgs compositionTimingArgs : list string)
  : InputWiring :=
  let args :=
    compositionTimingArgs ++ sourceTrimArgs ++ ["-i"; primaryPath this] in
  let layerKey := layer_key layerIdx in
  (args, {[ layerKey := inputIdx ]}, Some layerKey).

Definition _getBundleInputs (this : Foreground) (inputIdx layerIdx : nat)
    (ctx : MediaContext) (sourceTrimArgs compositionTimingArgs : list string)
  : result InputWiring :=
  if negb (JS.truthy_str (maskPath this)) then
    Throw "maskPath is required for pro_bundle format"
  else
    let mask := default "" (maskPath this) in
    let rgbArgs :=
      if JS.truthy_str (Some (primaryPath this))
         && String.eqb (_getFileExtension (primaryPath this)) ".webm"
         && checkWebmSupport ctx
      then compositionTimingArgs ++ ["-c:v"; "libvpx-vp9"]
             ++ sourceTrimArgs ++ ["-i"; primaryPath this]
      else compositionTimingArgs ++ sourceTrimArgs
             ++ ["-i"; primaryPath this] in
    let maskArgs := compositionTimingArgs ++ sourceTrimArgs ++ ["-i"; mask] in
    let rgbKey := layer_key layerIdx +:+ "_rgb" in
    let maskKey := layer_key layerIdx +:+ "_mask" in
    let updates : gmap string nat :=
      <[ maskKey := inputIdx + 1 ]> {[ rgbKey := inputIdx ]} in
    if JS.truthy_str (audioPath this) then
      let audioArgs :=
        compositionTimingArgs ++ sourceTrimArgs
          ++ ["-i"; default "" (audioPath this)] in
      let audioKey := layer_key layerIdx +:+ "_audio" in
      Ok (rgbArgs ++ maskArgs ++ audioArgs,
          <[ audioKey := inputIdx + 2 ]> updates,
          Some audioKey)
    else
      Ok (rgbArgs ++ maskArgs, updates, Some rgbKey).

Definition _getStackedInputs (this : Foreground) (inputIdx layerIdx : nat)
    (ctx : MediaContext) (sourceTrimArgs compositionTimingArgs : list string)
  : InputWiring :=
  let args :=
    compositionTimingArgs ++ sourceTrimArgs ++ ["-i"; primaryPath this] in
  let layerKey := layer_key layerIdx +:+ "_stacked" in
  (args, {[ layerKey := inputIdx ]}, Some layerKey).

Definition getFFmpegInputs (this : Foreground) (inputIdx layerIdx : nat)
    (ctx : MediaContext) (sourceTrimArgs compositionTimingArgs : list string)
  : result InputWiring :=
  match format this with
  | webm_vp9 =>
      Ok (_getWebmInputs this inputIdx layerIdx ctx
                         sourceTrimArgs compositionTimingArgs)
  | mov_prores =>
      Ok (_getMovInputs this inputIdx layerIdx ctx
                        sourceTrimArgs compositionTimingArgs)
  | pro_bundle =>
      _getBundleInputs this inputIdx layerIdx ctx
                       sourceTrimArgs compositionTimingArgs
  | stacked_video =>
      Ok (_getStackedInputs this inputIdx layerIdx ctx
                            sourceTrimArgs compositionTimingArgs)
  | png_sequence =>
      Throw ("Unknown foreground format: " +:+ format_name (format this))
  end.

(** ** Normalisation filters *)

(** [`layer_${layerLabel.split('_')[1]}`] *)
Definition input_key_of_label (layerLabel : string) : string :=
  "layer_" +:+ Str.nth_or_undefined (Str.split "_" layerLabel) 1.

Definition _getWebmFilters (layerLabel : string)
    (inputMap : gmap string nat) (alphaEnabled : bool) : list string :=
  if negb alphaEnabled then
    let inputKey := input_key_of_label layerLabel in
    ["[" +:+ Str.of_lookup inputMap inputKey +:+ ":v]format=rgb24["
         +:+ layerLabel +:+ "_merged]"]
  else [].

Definition _getMovFilters (layerLabel : string)
    (inputMap : gmap string nat) (alphaEnabled : bool) : list string :=
  if negb alphaEnabled then
    let inputKey := input_key_of_label layerLabel in
    ["[" +:+ Str.of_lookup inputMap inputKey +:+ ":v]format=rgb24["
         +:+ layerLabel +:+ "_merged]"]
  else [].

Definition _getBundleFilters (layerLabel : string)
    (inputMap : gmap string nat) (alphaEnabled : bool) : list string :=
  let rgbInput :=
    "[" +:+ Str.of_lookup inputMap (layerLabel +:+ "_rgb") +:+ ":v]" in
  if alphaEnabled then
    let maskInput :=
      "[" +:+ Str.of_lookup inputMap (layerLabel +:+ "_mask") +:+ ":v]" in
    [ rgbInput +:+ "format=rgba[" +:+ layerLabel +:+ "_rgba]";
      maskInput +:+ "format=gray[" +:+ layerLabel +:+ "_mask_gray]";
      "[" +:+ layerLabel +:+ "_mask_gray]geq='if(gte(lum(X,Y),128),255,0)'["
          +:+ layerLabel +:+ "_binary_mask]";
      "[" +:+ layerLabel +:+ "_rgba][" +:+ layerLabel
          +:+ "_binary_mask]alphamerge[" +:+ layerLabel +:+ "_merged]" ]
  else
    [ rgbInput +:+ "format=rgb24[" +:+ layerLabel +:+ "_merged]" ].

Definition _getStackedFilters (layerLabel : string)
    (inputMap : gmap string nat) (alphaEnabled : bool) : list string :=
  let stackedInput :=
    "[" +:+ Str.of_lookup inputMap (layerLabel +:+ "_stacked") +:+ ":v]" in
  let top := stackedInput +:+ "crop=iw:ih/2:0:0[" +:+ layerLabel +:+ "_top]" in
  if alphaEnabled then
    [ top;
      "[" +:+ layerLabel +:+ "_top]format=rgba[" +:+ layerLabel
          +:+ "_top_rgba]";
      stackedInput +:+ "crop=iw:ih/2:0:ih/2[" +:+ layerLabel +:+ "_bottom]";
      "[" +:+ layerLabel +:+ "_bottom]format=gray[" +:+ layerLabel
          +:+ "_mask_gray]";
      "[" +:+ layerLabel +:+ "_mask_gray]geq='if(gte(lum(X,Y),128),255,0)'["
          +:+ layerLabel +:+ "_binary_mask]";
      "[" +:+ layerLabel +:+ "_top_rgba][" +:+ layerLabel
          +:+ "_binary_mask]alphamerge[" +:+ layerLabel +:+ "_merged]" ]
  else
    [ top;
      "[" +:+ layerLabel +:+ "_top]format=rgb24[" +:+ layerLabel
          +:+ "_merged]" ].

Definition getFFmpegFilters (this : Foreground) (layerLabel : string)
    (inputMap : gmap string nat) (alphaEnabled : bool)
  : result (list string) :=
  match format this with
  | webm_vp9 => Ok (_getWebmFilters layerLabel inputMap alphaEnabled)
  | mov_prores => Ok (_getMovFilters layerLabel inputMap alphaEnabled)
  | pro_bundle => Ok (_getBundleFilters layerLabel inputMap alphaEnabled)
  | stacked_video => Ok (_getStackedFilters layerLabel inputMap alphaEnabled)
  | png_sequence =>
      Throw ("Unknown foreground format: " +:+ format_name (format this))
  end.

Definition getCurrentInputLabel (this : Foreground) (layerLabel : string)
    (alphaEnabled : bool) : result string :=
  match format this with
  | webm_vp9 | mov_prores =>
      if alphaEnabled
      then Ok ("[" +:+ input_key_of_label layerLabel +:+ ":v]")
      else Ok ("[" +:+ layerLabel +:+ "_merged]")
  | pro_bundle | stacked_video =>
      Ok ("[" +:+ layerLabel +:+ "_merged]")
  | png_sequence =>
      Throw ("Unknown foreground format: " +:+ format_name (format this))
  end.

End Methods.
End Foreground.

(* ===================================================================== *)
(** * [backgrounds.ts] *)
(* ===================================================================== *)

Section BackgroundType.
Context `{JSNumber}.

(** The four subclasses of [BaseBackground] with their own fields.  A
    [VideoBackground] owns a private [VideoSource], of which only the
    probed info is state. *)
Inductive BackgroundVariant : Type :=
| ColorBackground (color : string)
| ImageBackground (source : string)
| VideoBackground (source : string) (sourceTrim : option (num * option num))
                  (videoSource : option VideoInfo)
| EmptyBackground.

Record BaseBackground : Type := {
  width : num;
  height : num;
  fps : num;
  audioEnabled : bool;
  audioVolume : num;
  variant : BackgroundVariant;
}.

End BackgroundType.

Module Background.
Section Methods.
Context `{JSNumber} (W : World).

(** The constructor of [BaseBackground], reached through [super(...)]. *)
Definition base (width height fps : num) (audioEnabled : bool)
    (audioVolume : num) (v : BackgroundVariant) : BaseBackground :=
  {| width := width; height := height; fps := fps;
     audioEnabled := audioEnabled;
     audioVolume := JS.clamp01 audioVolume;
     variant := v |}.

(** [new ColorBackground(color, width, height, fps, audioEnabled,
    audioVolume)]: stores the colour as given. *)
Definition newColorBackground (color : string) (width height fps : num)
    (audioEnabled : bool) (audioVolume : num) : BaseBackground :=
  base width height fps audioEnabled audioVolume (ColorBackground color).

Definition newImageBackground (source : string) (width height fps : num)
    (audioEnabled : bool) (audioVolume : num) : BaseBackground :=
  base width height fps audioEnabled audioVolume (ImageBackground source).

Definition newVideoBackground (source : string) (width height fps : num)
    (audioEnabled : bool) (audioVolume : num)
    (sourceTrim : option (num * option num)) : BaseBackground :=
  base width height fps audioEnabled audioVolume
       (VideoBackground source sourceTrim None).

Definition newEmptyBackground (width height fps : num)
    (audioEnabled : bool) (audioVolume : num) : BaseBackground :=
  base width height fps audioEnabled audioVolume EmptyBackground.

Definition controlsDuration (bg : BaseBackground) : bool :=
  match variant bg with
  | VideoBackground _ _ _ => true
  | _ => false
  end.

(** ['getDuration' in bg] and then [bg.getDuration()]: only the video
    variant has the method. *)
Definition getDuration (bg : BaseBackground) : option (option num) :=
  match variant bg with
  | VideoBackground _ _ info => Some (VideoSource.getDuration info)
  | _ => None
  end.

Definition hasAudio (bg : BaseBackground) : bool :=
  match variant bg with
  | VideoBackground _ _ info => VideoSource.hasAudioStreams info
  | _ => false
  end.

Definition generator_input (color : string) (canvasWidth canvasHeight
    canvasFps : num) : list string :=
  ["-f"; "lavfi"; "-i";
   "color=c=" +:+ color +:+ ":size=" +:+ num_toString canvasWidth +:+ "x"
     +:+ num_toString canvasHeight +:+ ":rate=" +:+ num_toString canvasFps].

(** [-ss start] and, when the end is given, [-t (end - start)]. *)
Definition trim_args (trim : num * option num) : list string :=
  let '(start, end_) := trim in
  ["-ss"; num_toString start] ++
  match end_ with
  | Some e => ["-t"; num_toString (num_sub e start)]
  | None => []
  end.

Definition getFFmpegInputArgs (bg : BaseBackground)
    (canvasWidth canvasHeight canvasFps : num) (ctx : MediaContext)
  : list string :=
  match variant bg with
  | ColorBackground color =>
      generator_input color canvasWidth canvasHeight canvasFps
  | ImageBackground source => ["-loop"; "1"; "-i"; source]
  | VideoBackground source sourceTrim info =>
      let decoderArgs := VideoSource.getDecoderArgs info ctx in
      match sourceTrim with
      | Some trim => decoderArgs ++ trim_args trim ++ ["-i"; source]
      | None => decoderArgs ++ ["-i"; source]
      end
  | EmptyBackground =>
      generator_input "black@0.0" canvasWidth canvasHeight canvasFps
  end.

(** [bg.audio(enabled, volume)].  The video branch looks for a
    [_videoInfo] property on the receiver, which a [VideoBackground]
    does not have, so the copy starts from an unprobed [VideoSource]. *)
Definition audio (bg : BaseBackground) (enabled : bool) (volume : num)
  : BaseBackground :=
  let clampedVolume := JS.clamp01 volume in
  match variant bg with
  | VideoBackground source sourceTrim _ =>
      newVideoBackground source (width bg) (height bg) (fps bg)
                         enabled clampedVolume sourceTrim
  | ImageBackground source =>
      newImageBackground source (width bg) (height bg) (fps bg)
                         enabled clampedVolume
  | ColorBackground color =>
      newColorBackground color (width bg) (height bg) (fps bg)
                         enabled clampedVolume
  | EmptyBackground =>
      newEmptyBackground (width bg) (height bg) (fps bg)
                         enabled clampedVolume
  end.

(** [VideoBackground.subclip(start, end?)] on a video background. *)
Definition subclip (bg : BaseBackground) (start : num) (end_ : option num)
  : BaseBackground :=
  match variant bg with
  | VideoBackground source _ info =>
      {| width := width bg; height := height bg; fps := fps bg;
         audioEnabled := audioEnabled bg;
         audioVolume := JS.clamp01 (audioVolume bg);
         variant := VideoBackground source (Some (start, end_)) info |}
  | _ => bg
  end.

(** ** The factory class [Background] *)

Definition fromColor (hexColor : string) (width height fps : num)
  : result BaseBackground :=
  if negb (Regex.matches_anchored Regex.hex_color hexColor) then
    Throw "Color must be in hex format (#RRGGBB)"
  else
    Ok (newColorBackground hexColor width height fps false JS.one).

Definition fromImage (pathOrUrl : string) (fps : num)
    (ctx : option MediaContext) : result BaseBackground :=
  context ← ctx_or_default W ctx;
  let isUrl := Str.startsWith "http://" pathOrUrl
               || Str.startsWith "https://" pathOrUrl in
  source ← (if isUrl then _downloadImageToTemp W pathOrUrl context
            else Ok pathOrUrl);
  dims ← _probeImageDimensions W source context;
  Ok (newImageBackground source dims.1 dims.2 fps false JS.one).

Definition fromVideo (pathOrUrl : string) (ctx : option MediaContext)
  : result BaseBackground :=
  context ← ctx_or_default W ctx;
  dims ← _probeVideoDimensions W pathOrUrl context;
  let '(width, height, fps) := dims in
  let videoInfo := VideoSource.probeAndStore W pathOrUrl context in
  Ok (base width height fps true JS.one
           (VideoBackground pathOrUrl None (Some videoInfo))).

Definition empty (width height fps : num) : BaseBackground :=
  newEmptyBackground width height fps false JS.one.

End Methods.
End Background.

(* ===================================================================== *)
(** * [encoders.ts] *)
(* ===================================================================== *)

Inductive EncoderKind : Type :=
| K_h264 | K_vp9 | K_transparent_webm | K_prores_4444 | K_png_sequence
| K_stacked_video.

Section EncoderType.
Context `{JSNumber}.

Record EncoderProfile : Type := {
  kind : EncoderKind;
  crf : option num;
  preset : option string;
  layout : option string;
  enc_fps : option num;
}.

End EncoderType.

Module EncoderProfile.
Section Methods.
Context `{JSNumber}.

Definition h264 (crf : option num) (preset : option string)
  : EncoderProfile :=
  {| kind := K_h264;
     crf := Some (default (num_of_Z 18) crf);
     preset := Some (default "medium" preset);
     layout := None; enc_fps := None |}.

(** [String(this.crf || d)] *)
Definition crf_or (e : EncoderProfile) (d : Z) : string :=
  if JS.truthy_opt (crf e)
  then num_toString (default (num_of_Z d) (crf e))
  else num_toString (num_of_Z d).

(** [this.preset || 'medium'] *)
Definition preset_or_medium (e : EncoderProfile) : string :=
  if JS.truthy_str (preset e) then default "medium" (preset e)
  else "medium".

Definition args (e : EncoderProfile) (outPath : string) : list string :=
  let args :=
    match kind e with
    | K_h264 | K_stacked_video =>
        ["-c:v"; "libx264"; "-crf"; crf_or e 18; "-preset";
         preset_or_medium e; "-pix_fmt"; "yuv420p"]
    | K_vp9 =>
        ["-c:v"; "libvpx-vp9"; "-crf"; crf_or e 32; "-b:v"; "0"]
    | K_transparent_webm =>
        ["-c:v"; "libvpx-vp9"; "-crf"; crf_or e 28; "-b:v"; "0";
         "-pix_fmt"; "yuva420p"; "-auto-alt-ref"; "0"]
    | K_prores_4444 =>
        ["-c:v"; "prores_ks"; "-profile:v"; "4"; "-pix_fmt"; "yuva444p10le"]
    | K_png_sequence =>
        ["-c:v"; "png"; "-pix_fmt"; "rgba"] ++
        (if JS.truthy_opt (enc_fps e)
         then ["-r"; num_toString (default JS.zero (enc_fps e))]
         else [])
    end in
  args ++ [outPath].

End Methods.
End EncoderProfile.

(* ===================================================================== *)
(** * [composition.ts] *)
(* ===================================================================== *)

(** [type: 'foreground' | 'background'] *)
Inductive AudioType : Type := type_foreground | type_background.

Section CompositionTypes.
Context `{JSNumber}.

(** [LayerDict] of [types.ts]; [size] is the tuple
    [[mode, width, height, percent, scale]]. *)
Record LayerDict : Type := {
  name : string;
  fg : Foreground;
  anchor : Anchor;
  dx : num;
  dy : num;
  x_expr : option string;
  y_expr : option string;
  size : SizeMode * option num * option num * option num * option num;
  opacity : num;
  rotate : num;
  crop : option (num * num * num * num);
  comp_start : option num;
  comp_end : option num;
  comp_duration : option num;
  source_trim : option (num * option num);
  audio_enabled : bool;
  audio_volume : num;
  alpha_enabled : bool;
  z : Z;
}.

Record AudioInput : Type := {
  input : string;
  volume : num;
  type : AudioType;
  layerIndex : option nat;
}.

Record Composition : Type := {
  ctx : MediaContext;
  _background : option BaseBackground;
  _layers : list LayerDict;
  _canvasHint : option (num * num * num);
  _explicitDuration : option num;
}.

End CompositionTypes.

(** The methods of [LayerHandle] as updates of one layer; each leaves the
    other fields as they are.  A handle is the index of its layer: a method
    applies its update at that index and does nothing when there is no
    such layer. *)
Module LayerHandle.
Section Methods.
Context `{JSNumber}.

Let f_size := size.
Let f_opacity := opacity.
Let f_rotate := rotate.
Let f_crop := crop.
Let f_z := z.

Definition at_ (a : Anchor) (x y : num) (l : LayerDict) : LayerDict :=
  Build_LayerDict (name l) (fg l) a x y (x_expr l) (y_expr l) (f_size l)
    (f_opacity l) (f_rotate l) (f_crop l) (comp_start l) (comp_end l)
    (comp_duration l) (source_trim l) (audio_enabled l) (audio_volume l)
    (alpha_enabled l) (f_z l).

Definition xy (xExpr yExpr : string) (l : LayerDict) : LayerDict :=
  Build_LayerDict (name l) (fg l) (anchor l) (dx l) (dy l) (Some xExpr)
    (Some yExpr) (f_size l) (f_opacity l) (f_rotate l) (f_crop l)
    (comp_start l) (comp_end l) (comp_duration l) (source_trim l)
    (audio_enabled l) (audio_volume l) (alpha_enabled l) (f_z l).

Definition size (mode : SizeMode) (width height percent scale : option num)
    (l : LayerDict) : LayerDict :=
  Build_LayerDict (name l) (fg l) (anchor l) (dx l) (dy l) (x_expr l)
    (y_expr l) (mode, width, height, percent, scale) (f_opacity l)
    (f_rotate l) (f_crop l) (comp_start l) (comp_end l) (comp_duration l)
    (source_trim l) (audio_enabled l) (audio_volume l) (alpha_enabled l)
    (f_z l).

Definition opacity (alpha : num) (l : LayerDict) : LayerDict :=
  Build_LayerDict (name l) (fg l) (anchor l) (dx l) (dy l) (x_expr l)
    (y_expr l) (f_size l) (JS.clamp01 alpha) (f_rotate l) (f_crop l)
    (comp_start l) (comp_end l) (comp_duration l) (source_trim l)
    (audio_enabled l) (audio_volume l) (alpha_enabled l) (f_z l).

Definition rotate (degrees : num) (l : LayerDict) : LayerDict :=
  Build_LayerDict (name l) (fg l) (anchor l) (dx l) (dy l) (x_expr l)
    (y_expr l) (f_size l) (f_opacity l) degrees (f_crop l)
    (comp_start l) (comp_end l) (comp_duration l) (source_trim l)
    (audio_enabled l) (audio_volume l) (alpha_enabled l) (f_z l).

Definition crop (x y w h : num) (l : LayerDict) : LayerDict :=
  Build_LayerDict (name l) (fg l) (anchor l) (dx l) (dy l) (x_expr l)
    (y_expr l) (f_size l) (f_opacity l) (f_rotate l) (Some (x, y, w, h))
    (comp_start l) (comp_end l) (comp_duration l) (source_trim l)
    (audio_enabled l) (audio_volume l) (alpha_enabled l) (f_z l).

Definition start (seconds : num) (l : LayerDict) : LayerDict :=
  Build_LayerDict (name l) (fg l) (anchor l) (dx l) (dy l) (x_expr l)
    (y_expr l) (f_size l) (f_opacity l) (f_rotate l) (f_crop l)
    (Some seconds) (comp_end l) (comp_duration l) (source_trim l)
    (audio_enabled l) (audio_volume l) (alpha_enabled l) (f_z l).

Definition end_ (seconds : num) (l : LayerDict) : LayerDict :=
  Build_LayerDict (name l) (fg l) (anchor l) (dx l) (dy l) (x_expr l)
    (y_expr l) (f_size l) (f_opacity l) (f_rotate l) (f_crop l)
    (comp_start l) (Some seconds) (comp_duration l) (source_trim l)
    (audio_enabled l) (audio_volume l) (alpha_enabled l) (f_z l).

Definition duration (seconds : num) (l : LayerDict) : LayerDict :=
  Build_LayerDict (name l) (fg l) (anchor l) (dx l) (dy l) (x_expr l)
    (y_expr l) (f_size l) (f_opacity l) (f_rotate l) (f_crop l)
    (comp_start l) (comp_end l) (Some seconds) (source_trim l)
    (audio_enabled l) (audio_volume l) (alpha_enabled l) (f_z l).

Definition subclip (start : num) (end_ : option num) (l : LayerDict)
  : LayerDict :=
  Build_LayerDict (name l) (fg l) (anchor l) (dx l) (dy l) (x_expr l)
    (y_expr l) (f_size l) (f_opacity l) (f_rotate l) (f_crop l)
    (comp_start l) (comp_end l) (comp_duration l) (Some (start, end_))
    (audio_enabled l) (audio_volume l) (alpha_enabled l) (f_z l).

Definition audio (enabled : bool) (volume : num) (l : LayerDict)
  : LayerDict :=
  Build_LayerDict (name l) (fg l) (anchor l) (dx l) (dy l) (x_expr l)
    (y_expr l) (f_size l) (f_opacity l) (f_rotate l) (f_crop l)
    (comp_start l) (comp_end l) (comp_duration l) (source_trim l)
    enabled (JS.clamp01 volume) (alpha_enabled l) (f_z l).

Definition z (index : Z) (l : LayerDict) : LayerDict :=
  Build_LayerDict (name l) (fg l) (anchor l) (dx l) (dy l) (x_expr l)
    (y_expr l) (f_size l) (f_opacity l) (f_rotate l) (f_crop l)
    (comp_start l) (comp_end l) (comp_duration l) (source_trim l)
    (audio_enabled l) (audio_volume l) (alpha_enabled l) index.

Definition alpha (enabled : bool) (l : LayerDict) : LayerDict :=
  Build_LayerDict (name l) (fg l) (anchor l) (dx l) (dy l) (x_expr l)
    (y_expr l) (f_size l) (f_opacity l) (f_rotate l) (f_crop l)
    (comp_start l) (comp_end l) (comp_duration l) (source_trim l)
    (audio_enabled l) (audio_volume l) enabled (f_z l).

(** [handle.m(...)] for the handle of index [idx], as seen from one
    composition whose layer of that index is the object written: the
    value of the composition after the write.  The write itself, in
    place and seen by every composition that holds the object, is
    [Heap.write]. *)
Definition apply (idx : nat) (m : LayerDict -> LayerDict)
    (comp : Composition) : Composition :=
  {| ctx := ctx comp; _background := _background comp;
     _layers := alter m idx (_layers comp);
     _canvasHint := _canvasHint comp;
     _explicitDuration := _explicitDuration comp |}.

End Methods.
End LayerHandle.

Module Composition.
Section Methods.
Context `{JSNumber} (W : World).

(** The object that the constructor builds once its context is known. *)
Definition construct (background : option BaseBackground)
    (context : MediaContext) : Composition :=
  {| ctx := context; _background := background;
     _layers := []; _canvasHint := None; _explicitDuration := None |}.

(** [new Composition(background?, ctx?)]: [this.ctx = ctx ||
    defaultContext()] comes first. *)
Definition new (background : option BaseBackground)
    (c : option MediaContext) : result Composition :=
  context ← ctx_or_default W c;
  Ok (construct background context).

(** [new Composition(bg, this.ctx)]: the context of the receiver is
    given, so the constructor does not ask for the default one. *)
Definition background (this : Composition) (bg : BaseBackground)
  : Composition :=
  construct (Some bg) (ctx this).

Definition canvas (width height fps : num) (c : option MediaContext)
  : result Composition :=
  new (Some (Background.newEmptyBackground width height fps false JS.one)) c.

(** [setCanvas] and [setDuration] build their copy with
    [new Composition(this._background, this.ctx)] and push the layers of
    the receiver into it. *)
Definition setCanvas (this : Composition) (width height fps : num)
  : Composition :=
  {| ctx := ctx this; _background := _background this;
     _layers := _layers this;
     _canvasHint := Some (width, height, fps);
     _explicitDuration := _explicitDuration this |}.

Definition setDuration (this : Composition) (seconds : num) : Composition :=
  {| ctx := ctx this; _background := _background this;
     _layers := _layers this;
     _canvasHint := _canvasHint this;
     _explicitDuration := Some seconds |}.

(** The layer that [add] builds for a composition holding [n] layers. *)
Definition default_layer (n : nat) (f : Foreground) (name : option string)
  : LayerDict :=
  {| name := (if JS.truthy_str name then default "" name
              else "layer" +:+ Str.of_nat n);
     fg := f;
     anchor := CENTER;
     dx := JS.zero;
     dy := JS.zero;
     x_expr := None;
     y_expr := None;
     size := (CONTAIN, None, None, None, None);
     opacity := JS.one;
     rotate := JS.zero;
     crop := None;
     comp_start := None;
     comp_end := None;
     comp_duration := None;
     source_trim := None;
     audio_enabled := true;
     audio_volume := JS.one;
     alpha_enabled := true;
     z := Z.of_nat n |}.

(** [add(fg, name?)]: the composition after the push, and the index that
    the returned handle holds. *)
Definition add (this : Composition) (f : Foreground) (name : option string)
  : Composition * nat :=
  let layer := default_layer (length (_layers this)) f name in
  let layers := _layers this ++ [layer] in
  ({| ctx := ctx this; _background := _background this;
      _layers := layers;
      _canvasHint := _canvasHint this;
      _explicitDuration := _explicitDuration this |},
   length layers - 1).

Definition _getCanvasSize (this : Composition) : result (num * num * num) :=
  match _background this with
  | Some bg =>
      if JS.truthy (width bg) && JS.truthy (height bg) && JS.truthy (fps bg)
      then Ok (width bg, height bg, fps bg)
      else match _canvasHint this with
           | Some hint => Ok hint
           | None => Throw ("Cannot determine canvas size. Please provide a background " +:+ "(Background.fromImage/fromVideo/fromColor) or set explicit canvas dimensions " +:+ "using Composition.canvas() or .setCanvas().")
           end
  | None =>
      match _canvasHint this with
      | Some hint => Ok hint
      | None => Throw ("Cannot determine canvas size. Please provide a background " +:+ "(Background.fromImage/fromVideo/fromColor) or set explicit canvas dimensions " +:+ "using Composition.canvas() or .setCanvas().")
      end
  end.

Definition _getForegroundDuration (f : Foreground) : option num :=
  Foreground.getDuration f.

(** One turn of the loop of [_getLongestForegroundDuration]. *)
Definition longest_step (maxDuration : num) (layer : LayerDict) : num :=
  match _getForegroundDuration (fg layer) with
  | Some fgDuration =>
      if JS.truthy fgDuration && JS.gtb fgDuration maxDuration
      then fgDuration else maxDuration
  | None => maxDuration
  end.

Definition _getLongestForegroundDuration (this : Composition) : option num :=
  let maxDuration := fold_left longest_step (_layers this) JS.zero in
  if JS.gtb maxDuration JS.zero then Some maxDuration else None.

(** The duration that a duration-controlling background supplies:
    [controlsDuration()], then ['getDuration' in bg], then a truthy and
    positive [getDuration()]. *)
Definition background_duration (this : Composition) : option num :=
  match _background this with
  | Some bg =>
      if Background.controlsDuration bg then
        match Background.getDuration bg with
        | Some (Some bgDuration) =>
            if JS.truthy bgDuration && JS.gtb bgDuration JS.zero
            then Some bgDuration else None
        | _ => None
        end
      else None
  | None => None
  end.

Definition _getCompositionDuration (this : Composition) : option num :=
  match _explicitDuration this with
  | Some d => Some d
  | None =>
      match background_duration this with
      | Some bgDuration => Some bgDuration
      | None => _getLongestForegroundDuration this
      end
  end.

Definition _getAspectRatioConstraint (sizeMode : SizeMode) : option string :=
  if bool_decide (sizeMode ∈
       [CANVAS_PERCENT; PX; CONTAIN; FIT_WIDTH; FIT_HEIGHT])
  then Some "decrease"
  else if bool_decide (sizeMode = COVER) then Some "increase"
  else if bool_decide (sizeMode = SCALE) then None
  else None.

(** [Math.floor((canvas * pct) / 100)] *)
Definition percent_of (canvas pct : num) : num :=
  num_floor (num_div (num_mul canvas pct) (num_of_Z 100)).

(** [percent || 100] *)
Definition percent_or_100 (percent : option num) : num :=
  if JS.truthy_opt percent then default (num_of_Z 100) percent
  else num_of_Z 100.

Definition _calculateTargetDimensions
    (sizeParams : SizeMode * option num * option num * option num
                  * option num)
    (canvasWidth canvasHeight : num) : num * num :=
  let '(sizeMode, width, height, percent, _) := sizeParams in
  if bool_decide (sizeMode ≠ CANVAS_PERCENT) then (canvasWidth, canvasHeight)
  else
    match width, height, percent with
    | Some w, Some h, _ =>
        (percent_of canvasWidth w, percent_of canvasHeight h)
    | Some w, None, _ =>
        (percent_of canvasWidth w,
         percent_of canvasHeight (percent_or_100 percent))
    | None, Some h, _ =>
        (percent_of canvasWidth (percent_or_100 percent),
         percent_of canvasHeight h)
    | None, None, Some p =>
        (percent_of canvasWidth p, percent_of canvasHeight p)
    | None, None, None => (canvasWidth, canvasHeight)
    end.

(** [d !== 0 ? `${base}${d >= 0 ? '+' : ''}${d}` : base] *)
Definition with_offset (base : string) (d : num) : string :=
  if JS.neqb d JS.zero
  then base +:+ (if JS.geb d JS.zero then "+" else "") +:+ num_toString d
  else base.

Inductive HAlign : Type := HLeft | HCenter | HRight.
Inductive VAlign : Type := VTop | VCenter | VBottom.

(** The column and the row of an anchor in the chain of comparisons of
    [_calculateOverlayPosition]. *)
Definition halign (a : Anchor) : HAlign :=
  match a with
  | TOP_LEFT | CENTER_LEFT | BOTTOM_LEFT => HLeft
  | TOP_CENTER | CENTER | BOTTOM_CENTER => HCenter
  | TOP_RIGHT | CENTER_RIGHT | BOTTOM_RIGHT => HRight
  end.

Definition valign (a : Anchor) : VAlign :=
  match a with
  | TOP_LEFT | TOP_CENTER | TOP_RIGHT => VTop
  | CENTER_LEFT | CENTER | CENTER_RIGHT => VCenter
  | BOTTOM_LEFT | BOTTOM_CENTER | BOTTOM_RIGHT => VBottom
  end.

Definition _calculateOverlayPosition (layer : LayerDict)
    (canvasWidth canvasHeight : num) : string :=
  if JS.truthy_str (x_expr layer) && JS.truthy_str (y_expr layer) then
    "x='" +:+ default "" (x_expr layer) +:+ "':y='"
          +:+ default "" (y_expr layer) +:+ "'"
  else
    let sizeMode := (size layer).1.1.1.1 in
    let useTargetBox := bool_decide (sizeMode = CANVAS_PERCENT) in
    if useTargetBox then
      let '(targetWidth, targetHeight) :=
        _calculateTargetDimensions (size layer) canvasWidth canvasHeight in
      let tw := num_toString targetWidth in
      let th := num_toString targetHeight in
      let xBase :=
        match halign (anchor layer) with
        | HLeft => with_offset "0" (dx layer)
        | HCenter => with_offset ("(W-" +:+ tw +:+ ")/2") (dx layer)
        | HRight => with_offset ("W-" +:+ tw) (dx layer)
        end in
      let yBase :=
        match valign (anchor layer) with
        | VTop => with_offset "0" (dy layer)
        | VCenter => with_offset ("(H-" +:+ th +:+ ")/2") (dy layer)
        | VBottom => with_offset ("H-" +:+ th) (dy layer)
        end in
      let xExpr :=
        match halign (anchor layer) with
        | HRight => "(" +:+ xBase +:+ ")+(" +:+ tw +:+ "-w)"
        | HCenter => "(" +:+ xBase +:+ ")+(" +:+ tw +:+ "-w)/2"
        | HLeft => xBase
        end in
      let yExpr :=
        match valign (anchor layer) with
        | VBottom => "(" +:+ yBase +:+ ")+(" +:+ th +:+ "-h)"
        | VCenter => "(" +:+ yBase +:+ ")+(" +:+ th +:+ "-h)/2"
        | VTop => yBase
        end in
      "x='" +:+ xExpr +:+ "':y='" +:+ yExpr +:+ "'"
    else
      let xExpr :=
        match halign (anchor layer) with
        | HLeft => with_offset "0" (dx layer)
        | HCenter => with_offset "(W-w)/2" (dx layer)
        | HRight => with_offset "W-w" (dx layer)
        end in
      let yExpr :=
        match valign (anchor layer) with
        | VTop => with_offset "0" (dy layer)
        | VCenter => with_offset "(H-h)/2" (dy layer)
        | VBottom => with_offset "H-h" (dy layer)
        end in
      "x='" +:+ xExpr +:+ "':y='" +:+ yExpr +:+ "'".

(** ** [_getLayerTransformationFilters]

    The method threads [filters] and [currentOutput] through its steps;
    [push] is one [filters.push(`${currentOutput}...${nextLabel}`)]
    followed by [currentOutput = nextLabel]. *)
Definition Chain : Type := list string * string.

Definition push (body nextLabel : string) (st : Chain) : Chain :=
  (st.1 ++ [st.2 +:+ body +:+ nextLabel], nextLabel).

Definition step_label (layerIdx : nat) (suffix : string) : string :=
  "[layer_" +:+ Str.of_nat layerIdx +:+ "_" +:+ suffix +:+ "]".

Definition timeline_step (layer : LayerDict) (layerIdx : nat) (st : Chain)
  : Chain :=
  match comp_start layer with
  | Some compStart =>
      if JS.truthy compStart && JS.gtb compStart JS.zero then
        push ("setpts=PTS-STARTPTS,setpts=PTS+" +:+ num_toString compStart
                +:+ "/TB")
             (step_label layerIdx "timed") st
      else st
  | None => st
  end.

Definition crop_step (layer : LayerDict) (layerIdx : nat) (st : Chain)
  : Chain :=
  match crop layer with
  | Some (x, y, w, h) =>
      push ("crop=" +:+ num_toString w +:+ ":" +:+ num_toString h +:+ ":"
              +:+ num_toString x +:+ ":" +:+ num_toString y)
           (step_label layerIdx "crop") st
  | None => st
  end.

(** [targetW] and [targetH] as they print, when [scaleApplied]. *)
Definition scale_target (layer : LayerDict) (canvasWidth canvasHeight : num)
  : option (string * string) :=
  let '(sizeMode, width, height, _, scale) := size layer in
  if bool_decide (sizeMode = PX) && JS.truthy_opt width
     && JS.truthy_opt height then
    Some (num_toString (default JS.zero width),
          num_toString (default JS.zero height))
  else if bool_decide (sizeMode = CANVAS_PERCENT) then
    let '(tw, th) :=
      _calculateTargetDimensions (size layer) canvasWidth canvasHeight in
    Some (num_toString tw, num_toString th)
  else if bool_decide (sizeMode = CONTAIN) || bool_decide (sizeMode = COVER)
  then Some (num_toString canvasWidth, num_toString canvasHeight)
  else if bool_decide (sizeMode = FIT_WIDTH) then
    Some (num_toString canvasWidth, "-1")
  else if bool_decide (sizeMode = FIT_HEIGHT) then
    Some ("-1", num_toString canvasHeight)
  else if bool_decide (sizeMode = SCALE) then
    match width, height, scale with
    | Some w, Some h, _ =>
        Some ("iw*" +:+ num_toString w, "ih*" +:+ num_toString h)
    | _, _, Some s =>
        Some ("iw*" +:+ num_toString s, "ih*" +:+ num_toString s)
    | Some w, None, None =>
        Some ("iw*" +:+ num_toString w, "ih*" +:+ num_toString w)
    | None, Some h, None =>
        Some ("iw*" +:+ num_toString h, "ih*" +:+ num_toString h)
    | None, None, None => Some ("iw", "ih")
    end
  else None.

Definition scale_step (layer : LayerDict) (layerIdx : nat)
    (canvasWidth canvasHeight : num) (st : Chain) : Chain :=
  let aspectConstraint := _getAspectRatioConstraint (size layer).1.1.1.1 in
  match scale_target layer canvasWidth canvasHeight with
  | Some (targetW, targetH) =>
      let scaleParams :=
        targetW +:+ ":" +:+ targetH +:+
        (if JS.truthy_str aspectConstraint
         then ":force_original_aspect_ratio=" +:+ default "" aspectConstraint
         else "") in
      push ("scale=" +:+ scaleParams) (step_label layerIdx "scale") st
  | None => st
  end.

Definition rotate_step (layer : LayerDict) (layerIdx : nat) (st : Chain)
  : Chain :=
  if JS.neqb (rotate layer) JS.zero then
    push ("rotate=" +:+ num_toString (rotate layer) +:+ "*PI/180")
         (step_label layerIdx "rotate") st
  else st.

Definition opacity_step (layer : LayerDict) (layerIdx : nat) (st : Chain)
  : Chain :=
  if JS.neqb (opacity layer) JS.one then
    push ("colorchannelmixer=aa=" +:+ num_toString (opacity layer))
         (step_label layerIdx "opacity") st
  else st.

Definition final_step (layerIdx : nat) (st : Chain) : Chain :=
  if bool_decide (0 < length st.1) then
    if negb (Str.endsWith (step_label layerIdx "final") st.2) then
      push "null" (step_label layerIdx "final") st
    else st
  else st.

Definition transformation_chain (layer : LayerDict) (layerIdx : nat)
    (currentInput : string) (canvasWidth canvasHeight : num) : Chain :=
  final_step layerIdx
    (opacity_step layer layerIdx
      (rotate_step layer layerIdx
        (scale_step layer layerIdx canvasWidth canvasHeight
          (crop_step layer layerIdx
            (timeline_step layer layerIdx ([], currentInput)))))).

Definition _getLayerTransformationFilters (layer : LayerDict)
    (layerIdx : nat) (currentInput : string)
    (canvasWidth canvasHeight : num) : list string :=
  (transformation_chain layer layerIdx currentInput
                        canvasWidth canvasHeight).1.

(** ** [_buildFFmpegArgv] *)

(** [getSourceTrimArgs] for the foreground of a layer. *)
Definition getSourceTrimArgs (f : Foreground) : list string :=
  match sourceTrim f with
  | Some (start, end_) =>
      ["-ss"; num_toString start] ++
      match end_ with
      | Some e => ["-t"; num_toString (num_sub e start)]
      | None => []
      end
  | None => []
  end.

(** The background's input arguments, or the transparent generator. *)
Definition background_input_args (this : Composition)
    (canvasWidth canvasHeight canvasFps : num) : list string :=
  match _background this with
  | Some bg =>
      Background.getFFmpegInputArgs bg canvasWidth canvasHeight canvasFps
                                    (ctx this)
  | None =>
      ["-f"; "lavfi"; "-i";
       "color=c=black@0.0:size=" +:+ num_toString canvasWidth +:+ "x"
         +:+ num_toString canvasHeight +:+ ":rate="
         +:+ num_toString canvasFps]
  end.

(** The variables of the input loop. *)
Record InputState : Type := {
  argv : list string;
  inputMap : gmap string nat;
  inputIdx : nat;
  audioInputs : list AudioInput;
}.

(** [Math.max(...Object.values(inputMap)) + 1] *)
Definition next_input_index (m : gmap string nat) : nat :=
  max_list (map_to_list m).*2 + 1.

(** The body of the input loop for the layer of index [i]. *)
Definition input_step (this : Composition) (i : nat) (layer : LayerDict)
    (st : InputState) : result InputState :=
  let f := fg layer in
  let sourceTrimArgs := getSourceTrimArgs f in
  let compositionTimingArgs : list string := [] in
  wiring ← Foreground.getFFmpegInputs W f (inputIdx st) i (ctx this)
                                      sourceTrimArgs compositionTimingArgs;
  let '(ffmpegArgs, inputMapUpdates, audioInputKey) := wiring in
  let inputMap' := inputMapUpdates ∪ inputMap st in
  let collected :=
    match audioInputKey with
    | Some key =>
        if audio_enabled layer && JS.truthy_str audioInputKey
           && bool_decide (is_Some (inputMap' !! key))
        then [ {| input := Str.of_lookup inputMap' key +:+ ":a";
                  volume := audio_volume layer;
                  type := type_foreground;
                  layerIndex := Some i |} ]
        else []
    | None => []
    end in
  Ok {| argv := argv st ++ ffmpegArgs;
        inputMap := inputMap';
        inputIdx := next_input_index inputMap';
        audioInputs := audioInputs st ++ collected |}.

Fixpoint input_loop (this : Composition) (i : nat) (layers : list LayerDict)
    (st : InputState) : result InputState :=
  match layers with
  | [] => Ok st
  | layer :: rest =>
      st' ← input_step this i layer st;
      input_loop this (S i) rest st'
  end.

(** [layers.map((layer, index) => ({ layer, originalIndex: index }))] *)
Definition with_original_index (layers : list LayerDict)
  : list (LayerDict * nat) :=
  imap (fun index layer => (layer, index)) layers.

(** [.sort((a, b) => a.layer.z - b.layer.z)]: the sort of an array is
    stable, so an entry goes before the first sorted entry whose [z] is
    not below its own. *)
Fixpoint insert_by_z (a : LayerDict * nat) (sorted : list (LayerDict * nat))
  : list (LayerDict * nat) :=
  match sorted with
  | [] => [a]
  | b :: rest =>
      if (z a.1 <=? z b.1)%Z then a :: b :: rest
      else b :: insert_by_z a rest
  end.

Fixpoint sort_by_z (l : list (LayerDict * nat)) : list (LayerDict * nat) :=
  match l with
  | [] => []
  | a :: rest => insert_by_z a (sort_by_z rest)
  end.

Definition sortedLayers (this : Composition) : list (LayerDict * nat) :=
  sort_by_z (with_original_index (_layers this)).

(** The overlay statement of a layer. *)
Definition overlay_filter (currentOutput layerOutput positionParams
    outLabel : string) : string :=
  currentOutput +:+ layerOutput +:+ "overlay" +:+
    ("=" +:+ positionParams +:+ ":eof_action=pass") +:+ outLabel.

(** The stream that the transformation chain of a layer starts from. *)
Definition format_output (f : Foreground) (originalIndex : nat)
    (inputMap : gmap string nat) (alphaEnabled : bool)
    (formatFilters : list string) : result string :=
  let layerLabel := "layer_" +:+ Str.of_nat originalIndex in
  if bool_decide (0 < length formatFilters)
  then Foreground.getCurrentInputLabel f layerLabel alphaEnabled
  else Ok ("[" +:+ Str.of_lookup inputMap
                     ("layer_" +:+ Str.of_nat originalIndex) +:+ ":v]").

(** The body of the compositing loop: [layerIdx] counts the sorted
    entries, [count] is [sortedLayers.length]; the state is
    [filterParts] and [currentOutput]. *)
Definition overlay_step (inputMap : gmap string nat)
    (canvasWidth canvasHeight : num) (count layerIdx : nat)
    (entry : LayerDict * nat) (st : Chain) : result Chain :=
  let '(layer, originalIndex) := entry in
  let f := fg layer in
  let layerLabel := "layer_" +:+ Str.of_nat originalIndex in
  let alphaEnabled := alpha_enabled layer in
  formatFilters ← Foreground.getFFmpegFilters f layerLabel inputMap
                                              alphaEnabled;
  layerOutput0 ← format_output f originalIndex inputMap alphaEnabled
                               formatFilters;
  let transformationFilters :=
    _getLayerTransformationFilters layer originalIndex layerOutput0
                                   canvasWidth canvasHeight in
  let layerOutput :=
    if bool_decide (0 < length transformationFilters)
    then "[layer_" +:+ Str.of_nat originalIndex +:+ "_final]"
    else layerOutput0 in
  let positionParams :=
    _calculateOverlayPosition layer canvasWidth canvasHeight in
  let parts := st.1 ++ formatFilters ++ transformationFilters in
  if bool_decide (layerIdx = count - 1) then
    Ok (parts ++ [overlay_filter st.2 layerOutput positionParams "[out]"],
        st.2)
  else
    let tempOutput := "[tmp" +:+ Str.of_nat layerIdx +:+ "]" in
    Ok (parts ++ [overlay_filter st.2 layerOutput positionParams tempOutput],
        tempOutput).

Fixpoint overlay_loop (inputMap : gmap string nat)
    (canvasWidth canvasHeight : num) (count layerIdx : nat)
    (entries : list (LayerDict * nat)) (st : Chain) : result Chain :=
  match entries with
  | [] => Ok st
  | entry :: rest =>
      st' ← overlay_step inputMap canvasWidth canvasHeight count layerIdx
                         entry st;
      overlay_loop inputMap canvasWidth canvasHeight count (S layerIdx)
                   rest st'
  end.

(** The video statements of the filter graph. *)
Definition video_filter_parts (this : Composition)
    (inputMap : gmap string nat) (canvasWidth canvasHeight : num)
  : result (list string) :=
  let sorted := sortedLayers this in
  st ← overlay_loop inputMap canvasWidth canvasHeight (length sorted) 0
                    sorted
                    ([], "[" +:+ Str.of_lookup inputMap "background"
                             +:+ ":v]");
  Ok st.1.

(** The audio source that an audio-enabled background with an audio
    stream adds after the layers. *)
Definition background_audio (this : Composition)
    (inputMap : gmap string nat) : list AudioInput :=
  match _background this with
  | Some bg =>
      if audioEnabled bg && Background.hasAudio bg
      then [ {| input := Str.of_lookup inputMap "background" +:+ ":a";
                volume := audioVolume bg;
                type := type_background;
                layerIndex := None |} ]
      else []
  | None => []
  end.

(** [layer.comp_start || 0] for the layer of index [layerIdx], and 0
    when the index is not below [this._layers.length]. *)
Definition comp_start_of (this : Composition) (layerIdx : nat) : num :=
  match _layers this !! layerIdx with
  | Some layer =>
      if JS.truthy_opt (comp_start layer)
      then default JS.zero (comp_start layer) else JS.zero
  | None => JS.zero
  end.

(** [Math.floor(compStart * 1000)] as it prints. *)
Definition delay_ms (compStart : num) : string :=
  num_toString (num_floor (num_mul compStart (num_of_Z 1000))).

(** The branch for exactly one audio source: the audio statements and
    the mapping arguments. *)
Definition single_audio (this : Composition) (audioInput : AudioInput)
  : list string * list string :=
  let compStart :=
    match type audioInput, layerIndex audioInput with
    | type_foreground, Some layerIdx => comp_start_of this layerIdx
    | _, _ => JS.zero
    end in
  let needsDelay := JS.gtb compStart JS.zero in
  if needsDelay || JS.neqb (volume audioInput) JS.one then
    let st0 : Chain := ([], "[" +:+ input audioInput +:+ "]") in
    let st1 : Chain :=
      if needsDelay then
        push ("adelay=" +:+ delay_ms compStart +:+ "|"
                +:+ delay_ms compStart)
             "[audio_delayed]" st0
      else st0 in
    let st2 : Chain :=
      if JS.neqb (volume audioInput) JS.one then
        push ("volume=" +:+ num_toString (volume audioInput))
             "[audio_out]" st1
      else if negb (String.eqb st1.2 "[audio_out]") then
        (st1.1 ++ [st1.2 +:+ "anull[audio_out]"], st1.2)
      else st1 in
    (st2.1, ["-map"; "[audio_out]"])
  else
    ([], ["-map"; input audioInput +:+ "?"]).

(** [audioInput.layerIndex || i] *)
Definition layer_index_or (audioInput : AudioInput) (i : nat) : nat :=
  match layerIndex audioInput with
  | Some 0 => i
  | Some n => n
  | None => i
  end.

(** The body of the loop of the branch for several sources, for the
    source of index [i] in [audioInputs]: the statements it pushes and
    the label it contributes to [processedAudio]. *)
Definition multi_audio_step (this : Composition) (i : nat)
    (audioInput : AudioInput) : Chain :=
  let layerIdx := layer_index_or audioInput i in
  let compStart := comp_start_of this layerIdx in
  let st0 : Chain := ([], "[" +:+ input audioInput +:+ "]") in
  let st1 : Chain :=
    if JS.gtb compStart JS.zero then
      push ("adelay=" +:+ delay_ms compStart +:+ "|" +:+ delay_ms compStart)
           ("[audio_delayed_" +:+ Str.of_nat i +:+ "]") st0
    else st0 in
  if JS.neqb (volume audioInput) JS.one then
    push ("volume=" +:+ num_toString (volume audioInput))
         ("[audio_vol_" +:+ Str.of_nat i +:+ "]") st1
  else st1.

Fixpoint multi_audio_loop (this : Composition) (i : nat)
    (inputs : list AudioInput) : list string * list string :=
  match inputs with
  | [] => ([], [])
  | audioInput :: rest =>
      let st := multi_audio_step this i audioInput in
      let r := multi_audio_loop this (S i) rest in
      (st.1 ++ r.1, st.2 :: r.2)
  end.

Definition multi_audio (this : Composition) (inputs : list AudioInput)
  : list string * list string :=
  let '(parts, processedAudio) := multi_audio_loop this 0 inputs in
  let amixFilter :=
    Str.join "" processedAudio +:+ "amix=inputs="
      +:+ Str.of_nat (length processedAudio)
      +:+ ":duration=longest[audio_out]" in
  (parts ++ [amixFilter], ["-map"; "[audio_out]"]).

(** The audio statements and the audio mapping arguments. *)
Definition audio_filters (this : Composition) (inputs : list AudioInput)
  : list string * list string :=
  match inputs with
  | [] => ([], ["-an"])
  | [audioInput] => single_audio this audioInput
  | _ => multi_audio this inputs
  end.

(** The duration block: [-t] and the resolved duration when it is
    truthy. *)
Definition duration_args (this : Composition) : list string :=
  match _getCompositionDuration this with
  | Some compDuration =>
      if JS.truthy compDuration
      then ["-t"; num_toString compDuration]
      else []
  | None => []
  end.

Definition stream_format_args (toPipe : bool) (streamFormat : option string)
  : list string :=
  match streamFormat with
  | Some fmt =>
      if toPipe && JS.truthy_str streamFormat then
        if String.eqb fmt "y4m" then ["-f"; "yuv4mpegpipe"]
        else if String.eqb fmt "webm" then ["-f"; "webm"]
        else if String.eqb fmt "matroska" then ["-f"; "matroska"]
        else if String.eqb fmt "mp4_fragmented"
             then ["-f"; "mp4"; "-movflags"; "frag_keyframe+empty_moov"]
        else []
      else []
  | None => []
  end.

(** Everything that [_buildFFmpegArgv] has pushed when it reaches the
    duration block, together with the audio sources it collected. *)
Definition argv_before_duration (this : Composition)
  : result (list string * list AudioInput) :=
  size3 ← _getCanvasSize this;
  let '(canvasWidth, canvasHeight, canvasFps) := size3 in
  let st0 :=
    {| argv := [ffmpeg (ctx this); "-y"]
                 ++ background_input_args this canvasWidth canvasHeight
                                          canvasFps;
       inputMap := {[ "background" := 0 ]};
       inputIdx := 1;
       audioInputs := [] |} in
  st ← input_loop this 0 (_layers this) st0;
  videoFilterParts ← video_filter_parts this (inputMap st)
                                        canvasWidth canvasHeight;
  let videoMapArgs :=
    if bool_decide (0 < length videoFilterParts)
    then ["-map"; "[out]"]
    else ["-map"; Str.of_lookup (inputMap st) "background" +:+ ":v"] in
  let allAudio := audioInputs st ++ background_audio this (inputMap st) in
  let '(audioFilterParts, audioMapArgs) := audio_filters this allAudio in
  let allFilterParts := videoFilterParts ++ audioFilterParts in
  let filterArgs :=
    if bool_decide (0 < length allFilterParts)
    then ["-filter_complex"; Str.join ";" allFilterParts]
    else [] in
  Ok (argv st ++ filterArgs ++ videoMapArgs ++ audioMapArgs, allAudio).

(** What follows the duration block: the encoder's arguments but the
    last, the stream format, and the output path when it is truthy. *)
Definition argv_after_duration (encoder : EncoderProfile) (outPath : string)
    (toPipe : bool) (streamFormat : option string) : list string :=
  let encoderArgs := EncoderProfile.args encoder outPath in
  let outputPath := last encoderArgs in
  take (length encoderArgs - 1) encoderArgs
    ++ stream_format_args toPipe streamFormat
    ++ (if JS.truthy_str outputPath then [default "" outputPath] else []).

Definition _buildFFmpegArgv (this : Composition) (outPath : string)
    (encoder : EncoderProfile) (toPipe : bool)
    (streamFormat : option string) : result (list string) :=
  before ← argv_before_duration this;
  Ok (before.1 ++ duration_args this
        ++ argv_after_duration encoder outPath toPipe streamFormat).

Definition dryRun (this : Composition) : result string :=
  argv ← _buildFFmpegArgv this "OUT.mp4" (EncoderProfile.h264 None None)
                          false None;
  Ok (Str.join " " argv).

End Methods.
End Composition.

(* ===================================================================== *)
(** * Objects with identity: layers shared between compositions

    [setCanvas] and [setDuration] push the layers of the receiver into
    their copy: the copy has an array of its own that holds the same
    layer objects, and a handle writes to a layer object in place.  The
    store below keeps the layer objects and the composition objects by
    address (the index of their allocation); the [_layers] array of a
    composition object is a list of addresses of layer objects.  *)
(* ===================================================================== *)

Module Heap.
Section Store.
Context `{JSNumber}.

(** A [Composition] object; [o_layers] is its [_layers] array. *)
Record CompositionObject : Type := {
  o_ctx : MediaContext;
  o_background : option BaseBackground;
  o_layers : list nat;
  o_canvasHint : option (num * num * num);
  o_explicitDuration : option num;
}.

Record Store : Type := {
  layer_objects : list LayerDict;
  compositions : list CompositionObject;
}.

Definition empty : Store := {| layer_objects := []; compositions := [] |}.

(** [new Composition(background, context)], the context given. *)
Definition construct (s : Store) (background : option BaseBackground)
    (context : MediaContext) : Store * nat :=
  ({| layer_objects := layer_objects s;
      compositions :=
        compositions s
          ++ [ {| o_ctx := context; o_background := background;
                  o_layers := []; o_canvasHint := None;
                  o_explicitDuration := None |} ] |},
   length (compositions s)).

(** [this.setCanvas(width, height, fps)]: the copy is a new object whose
    array holds the addresses that the array of [this] holds. *)
Definition setCanvas (s : Store) (this : nat) (width height fps : num)
  : option (Store * nat) :=
  match compositions s !! this with
  | Some o =>
      Some ({| layer_objects := layer_objects s;
               compositions :=
                 compositions s
                   ++ [ {| o_ctx := o_ctx o;
                           o_background := o_background o;
                           o_layers := [] ++ o_layers o;
                           o_canvasHint := Some (width, height, fps);
                           o_explicitDuration := o_explicitDuration o |} ] |},
            length (compositions s))
  | None => None
  end.

(** [this.setDuration(seconds)] *)
Definition setDuration (s : Store) (this : nat) (seconds : num)
  : option (Store * nat) :=
  match compositions s !! this with
  | Some o =>
      Some ({| layer_objects := layer_objects s;
               compositions :=
                 compositions s
                   ++ [ {| o_ctx := o_ctx o;
                           o_background := o_background o;
                           o_layers := [] ++ o_layers o;
                           o_canvasHint := o_canvasHint o;
                           o_explicitDuration := Some seconds |} ] |},
            length (compositions s))
  | None => None
  end.

(** [this.add(fg, name?)]: a new layer object is pushed onto the array of
    [this]; the handle holds [this] and the index of the layer. *)
Definition add (s : Store) (this : nat) (f : Foreground)
    (name : option string) : option (Store * (nat * nat)) :=
  match compositions s !! this with
  | Some o =>
      let layer := Composition.default_layer (length (o_layers o)) f name in
      let layers := o_layers o ++ [length (layer_objects s)] in
      Some ({| layer_objects := layer_objects s ++ [layer];
               compositions :=
                 <[ this := {| o_ctx := o_ctx o;
                               o_background := o_background o;
                               o_layers := layers;
                               o_canvasHint := o_canvasHint o;
                               o_explicitDuration := o_explicitDuration o |} ]>
                   (compositions s) |},
            (this, length layers - 1))
  | None => None
  end.

(** A method of the handle [(comp, idx)] whose assignments are the update
    [m]: [const layer = this.comp._layers[this.idx]; if (layer) { ... }]
    writes to the layer object in place. *)
Definition write (s : Store) (handle : nat * nat)
    (m : LayerDict -> LayerDict) : Store :=
  match compositions s !! handle.1 with
  | Some o =>
      match o_layers o !! handle.2 with
      | Some a =>
          {| layer_objects := alter m a (layer_objects s);
             compositions := compositions s |}
      | None => s
      end
  | None => s
  end.

(** The layers at the addresses of an array. *)
Fixpoint layers_of (objects : list LayerDict) (addresses : list nat)
  : option (list LayerDict) :=
  match addresses with
  | [] => Some []
  | a :: rest =>
      match objects !! a, layers_of objects rest with
      | Some layer, Some layers => Some (layer :: layers)
      | _, _ => None
      end
  end.

(** The value of the composition at address [c]: what its methods
    read. *)
Definition read (s : Store) (c : nat) : option Composition :=
  match compositions s !! c with
  | Some o =>
      match layers_of (layer_objects s) (o_layers o) with
      | Some layers =>
          Some {| ctx := o_ctx o; _background := o_background o;
                  _layers := layers; _canvasHint := o_canvasHint o;
                  _explicitDuration := o_explicitDuration o |}
      | None => None
      end
  | None => None
  end.

(** What the operations keep: an array holds addresses of allocated
    layer objects, each at most once. *)
Definition wf (s : Store) : Prop :=
  Forall (fun o => NoDup (o_layers o)
                   /\ Forall (fun a => a < length (layer_objects s))
                             (o_layers o))
         (compositions s).

End Store.
End Heap.

(* ===================================================================== *)
(** * A model of the numbers: exact rationals and [NaN]

    The examples below run the embedding on this instance: a number is a
    rational or [NaN]; arithmetic is exact; a number prints as JavaScript
    prints a double that has the same short decimal expansion. *)
(* ===================================================================== *)

Module Rational.

Definition t : Type := option Q.

Definition lift2 (f : Q -> Q -> Q) (a b : t) : t :=
  match a, b with
  | Some x, Some y => Some (f x y)
  | _, _ => None
  end.

Definition ltb (a b : t) : bool :=
  match a, b with
  | Some x, Some y => negb (Qle_bool y x)
  | _, _ => false
  end.

Definition leb (a b : t) : bool :=
  match a, b with
  | Some x, Some y => Qle_bool x y
  | _, _ => false
  end.

Definition eqb (a b : t) : bool :=
  match a, b with
  | Some x, Some y => Qeq_bool x y
  | _, _ => false
  end.

Definition isNaN (a : t) : bool :=
  match a with Some _ => false | None => true end.

Definition floor (a : t) : t :=
  match a with
  | Some x => Some (inject_Z (Qfloor x))
  | None => None
  end.

Definition max (a b : t) : t :=
  lift2 (fun x y => if Qle_bool x y then y else x) a b.

Definition min (a b : t) : t :=
  lift2 (fun x y => if Qle_bool x y then x else y) a b.

(** The digits of [r / d] after the decimal point, for [0 <= r < d]. *)
Fixpoint fraction_digits (fuel : nat) (r d : Z) : string :=
  match fuel with
  | O => ""
  | S fuel' =>
      if (r =? 0)%Z then ""
      else pretty ((r * 10) / d)%Z
             +:+ fraction_digits fuel' ((r * 10) mod d)%Z d
  end.

Definition toString (a : t) : string :=
  match a with
  | None => "NaN"
  | Some x =>
      let n := Qnum x in
      let d := Zpos (Qden x) in
      let m := Z.abs n in
      let whole := (m / d)%Z in
      let r := (m mod d)%Z in
      (if (n <? 0)%Z then "-" else "") +:+ pretty whole +:+
      (if (r =? 0)%Z then "" else "." +:+ fraction_digits 17 r d)
  end.

Definition digit_of (a : ascii) : option Z :=
  let n := nat_of_ascii a in
  if (48 <=? n)%nat && (n <=? 57)%nat then Some (Z.of_nat (n - 48))
  else None.

(** Reads digits: the value so far, the number of digits read, and
    what is left. *)
Fixpoint read_digits (s : string) (acc : Z) (count : nat)
  : Z * nat * string :=
  match s with
  | String a r =>
      match digit_of a with
      | Some v => read_digits r (acc * 10 + v)%Z (S count)
      | None => (acc, count, s)
      end
  | EmptyString => (acc, count, s)
  end.

(** A decimal numeral with an optional sign and fraction; [NaN] when
    the string does not start with one. *)
Definition parseFloat (s : string) : t :=
  let '(neg, body) :=
    match s with
    | String "-" r => (true, r)
    | String "+" r => (false, r)
    | _ => (false, s)
    end in
  let '(whole, nw, rest) := read_digits body 0 0 in
  let '(frac, nf, _) :=
    match rest with
    | String "." r => read_digits r 0 0
    | _ => (0%Z, 0%nat, rest)
    end in
  if (nw + nf =? 0)%nat then None
  else
    let v := (inject_Z whole + Qmake frac (Pos.of_nat (10 ^ nf)))%Q in
    Some (Qred (if neg then Qopp v else v)).

Lemma ltb_iff (x y : Q) : negb (Qle_bool y x) = true <-> (x < y)%Q.
Proof.
  rewrite negb_true_iff. split.
  - intros Hn. apply Qnot_le_lt. intros Hle.
    apply Qle_bool_iff in Hle. congruence.
  - intros Hlt. destruct (Qle_bool y x) eqn:E; [|reflexivity].
    apply Qle_bool_iff in E. exfalso. exact (Qlt_not_le _ _ Hlt E).
Qed.

Lemma ltb_irrefl (a : t) : ltb a a = false.
Proof.
  destruct a as [x|]; simpl; [|reflexivity].
  apply negb_false_iff, Qle_bool_iff, Qle_refl.
Qed.

Lemma ltb_trans (a b c : t) : ltb a b = true -> ltb b c = true -> ltb a c = true.
Proof.
  destruct a as [x|], b as [y|], c as [z|]; simpl; try discriminate.
  rewrite !ltb_iff. apply Qlt_trans.
Qed.

Lemma ltb_neq (a b : t) : ltb a b = true -> eqb b a = false.
Proof.
  destruct a as [x|], b as [y|]; simpl; try discriminate.
  rewrite ltb_iff. intros Hlt.
  destruct (Qeq_bool y x) eqn:E; [|reflexivity].
  apply Qeq_bool_iff in E. rewrite E in Hlt.
  exfalso. exact (Qlt_irrefl _ Hlt).
Qed.

Lemma ltb_notNaN (a b : t) : ltb a b = true -> isNaN b = false.
Proof. destruct a as [x|], b as [y|]; simpl; try discriminate. reflexivity. Qed.

Lemma eqb_refl (a : t) : isNaN a = false -> eqb a a = true.
Proof.
  destruct a as [x|]; simpl; try discriminate.
  intros _. apply Qeq_bool_iff. reflexivity.
Qed.

Lemma of_Z_notNaN (n : Z) : isNaN (Some (inject_Z n)) = false.
Proof. reflexivity. Qed.

#[global] Instance numbers : JSNumber :=
  {| num := t;
     num_of_Z := fun n => Some (inject_Z n);
     num_ltb := ltb;
     num_leb := leb;
     num_eqb := eqb;
     num_isNaN := isNaN;
     num_sub := lift2 Qminus;
     num_mul := lift2 Qmult;
     num_div := lift2 Qdiv;
     num_floor := floor;
     num_max := max;
     num_min := min;
     num_parseFloat := parseFloat;
     num_toString := toString;
     num_ltb_irrefl := ltb_irrefl;
     num_ltb_trans := ltb_trans;
     num_ltb_neq := ltb_neq;
     num_ltb_notNaN := ltb_notNaN;
     num_eqb_refl := eqb_refl;
     num_of_Z_notNaN := of_Z_notNaN |}.

(** The number with the decimal numeral [s]. *)
Definition dec (s : string) : num := parseFloat s.

(** A world with working ffmpeg binaries but no reachable ffprobe
    output, where every URL parses to the path after its host, no
    archive can be extracted and no file exists; its lowering of a
    string with a character outside ASCII changes the ASCII letters only
    (no sample has such a character). *)
Definition path_of_url (url : string) : string :=
  let after_scheme :=
    if String.prefix "https://" url then Str.substringFrom 8 url
    else Str.substringFrom 7 url in
  let until_query :=
    match Str.split "#" after_scheme with
    | h :: _ => match Str.split "?" h with p :: _ => p | [] => h end
    | [] => after_scheme
    end in
  match String.index 0 "/" until_query with
  | Some i => Str.substringFrom i until_query
  | None => "/"
  end.

Definition context : MediaContext :=
  {| ffmpeg := "ffmpeg"; ffprobe := "ffprobe"; tmp := "/tmp";
     checkWebmSupport := true |}.

Definition world : World :=
  {| run_ffprobe := fun _ _ => None;
     url_pathname := fun url => Some (path_of_url url);
     extract_zip := fun _ _ => Throw "Error: Invalid filename";
     path_join := fun dir file => dir +:+ "/" +:+ file;
     existsSync := fun _ => false;
     _probeImageDimensions := fun _ _ => Throw "Error: ffprobe failed";
     _probeVideoDimensions := fun _ _ => Throw "Error: ffprobe failed";
     _downloadImageToTemp := fun _ _ => Throw "Error: curl failed";
     lower_unicode := Str.lower;
     defaultContext := Ok context |}.

(** The same world on a machine without ffmpeg: the check of the
    binaries fails, so there is no default context. *)
Definition world_without_ffmpeg : World :=
  {| run_ffprobe := run_ffprobe world;
     url_pathname := url_pathname world;
     extract_zip := extract_zip world;
     path_join := path_join world;
     existsSync := existsSync world;
     _probeImageDimensions := _probeImageDimensions world;
     _probeVideoDimensions := _probeVideoDimensions world;
     _downloadImageToTemp := _downloadImageToTemp world;
     lower_unicode := lower_unicode world;
     defaultContext :=
       Throw ("FFmpeg not found. Please install FFmpeg: "
              +:+ "Command failed: ffmpeg -version" +:+ nl
              +:+ "/bin/sh: 1: ffmpeg: not found" +:+ nl) |}.

(** The info that a probe of a clip of [seconds] seconds stores, with
    an audio stream when [withAudio]. *)
Definition probed (path seconds : string) (withAudio : bool) : VideoInfo :=
  let video :=
    {| ps_width := Some (dec "1280"); ps_height := Some (dec "720");
       ps_r_frame_rate := Some "30/1"; ps_codec_name := Some "h264";
       ps_codec_type := Some "video"; ps_pix_fmt := Some "yuv420p";
       ps_duration := Some (DurString seconds) |} in
  let audio :=
    {| ps_width := None; ps_height := None; ps_r_frame_rate := None;
       ps_codec_name := Some "aac"; ps_codec_type := Some "audio";
       ps_pix_fmt := None; ps_duration := Some (DurString seconds) |} in
  {| codec_name := "h264"; codec_type := Some "video";
     pix_fmt := Some "yuv420p";
     vi_width := Some (dec "1280"); vi_height := Some (dec "720");
     duration := Some (DurString seconds);
     source_type := SrcFile; original_source := path;
     streams := Some (if withAudio then [video; audio] else [video]) |}.

End Rational.

(* ===================================================================== *)
(** * Sample objects *)
(* ===================================================================== *)

Module Samples.
Import Rational.

(** A probed RGB+mask clip, already trimmed to [[1, 10]]. *)
Definition clip : Foreground :=
  {| format := pro_bundle; primaryPath := "color.mp4";
     maskPath := Some "alpha.mp4"; audioPath := Some "audio.m4a";
     sourceTrim := Some (dec "1", Some (dec "10"));
     _videoInfo := Some (probed "color.mp4" "12.5" true) |}.

(** A WebM foreground whose probe reported [seconds] seconds. *)
Definition webm (path seconds : string) : Foreground :=
  {| format := webm_vp9; primaryPath := path; maskPath := None;
     audioPath := None; sourceTrim := None;
     _videoInfo := Some (probed path seconds true) |}.

(** The foreground of the unit test of the matte feature: what
    [Foreground.fromVideoAndMask] returns for the two paths of the test
    in the sample world. *)
Definition matte_foreground : Foreground :=
  Foreground.probeAndStore world
    (Foreground.new pro_bundle "test_assets/matte/video_preprocessed.mp4"
       (Some "test_assets/matte/video_matte.mp4") None None)
    "test_assets/matte/video_preprocessed.mp4" context.

Definition red_background : BaseBackground :=
  Background.newColorBackground "#FF0000" (dec "1920") (dec "1080")
                                (dec "30") false (dec "1").

(** A video background of 20 seconds with an audio stream, as
    [Background.fromVideo] builds it. *)
Definition video_background : BaseBackground :=
  Background.base (dec "1920") (dec "1080") (dec "30") true (dec "1")
    (VideoBackground "bg.mp4" None (Some (probed "bg.mp4" "20" true))).

(** The composition of the unit test of the matte feature. *)
Definition matte_composition : Composition :=
  (Composition.add (Composition.construct (Some red_background) context)
                   matte_foreground None).1.

(** Two layers of 3 and 5 seconds over the video background. *)
Definition two_layers (bg : BaseBackground) : Composition :=
  let c0 := Composition.construct (Some bg) context in
  let c1 := (Composition.add c0 (webm "a.webm" "3") None).1 in
  (Composition.add c1 (webm "b.webm" "5") None).1.

(** Over the video background with its audio: layer 0 with its audio
    disabled, layer 1 starting at second 5. *)
Definition delayed_mix : Composition :=
  LayerHandle.apply 1 (LayerHandle.start (dec "5"))
    (LayerHandle.apply 0 (LayerHandle.audio false (dec "1"))
       (two_layers video_background)).


(** The store after [new Composition(red, ctx)], two calls of [add] and
    [setDuration(7)]: the composition at address 0 and its copy at
    address 1 hold the same two layer objects. *)
Definition shared : Heap.Store :=
  {| Heap.layer_objects := _layers (two_layers red_background);
     Heap.compositions :=
       [ {| Heap.o_ctx := context;
            Heap.o_background := Some red_background;
            Heap.o_layers := [0; 1];
            Heap.o_canvasHint := None;
            Heap.o_explicitDuration := None |};
         {| Heap.o_ctx := context;
            Heap.o_background := Some red_background;
            Heap.o_layers := [0; 1];
            Heap.o_canvasHint := None;
            Heap.o_explicitDuration := Some (dec "7") |} ] |}.

End Samples.

(* ===================================================================== *)
(** * The specification's own wording, for comparison *)
(* ===================================================================== *)

Module Spec.

Definition is_hex_digit (a : ascii) : bool :=
  let n := nat_of_ascii a in
  ((48 <=? n)%nat && (n <=? 57)%nat)      (* 0-9 *)
  || ((65 <=? n)%nat && (n <=? 70)%nat)   (* A-F *)
  || ((97 <=? n)%nat && (n <=? 102)%nat). (* a-f *)

(** Exactly [n] characters, each a hexadecimal digit. *)
Fixpoint hex_digits (n : nat) (s : string) : bool :=
  match n, s with
  | O, EmptyString => true
  | S k, String a r => is_hex_digit a && hex_digits k r
  | _, _ => false
  end.

(** A 6-hex-digit [#RRGGBB] colour. *)
Definition is_RRGGBB (s : string) : bool :=
  match s with
  | String a r => Ascii.eqb a "#" && hex_digits 6 r
  | EmptyString => false
  end.

(** The extensions that [fromFile] recognises. *)
Definition supported_extensions : list string :=
  [".webm"; ".mov"; ".zip"; ".mp4"].

(** No character of [s] is a dot. *)
Fixpoint dot_free (s : string) : bool :=
  match s with
  | EmptyString => true
  | String a r => negb (Ascii.eqb a ".") && dot_free r
  end.

(** [path] starts with [http://] or [https://]. *)
Definition is_url (path : string) : bool :=
  String.prefix "http://" path || String.prefix "https://" path.



(** The label of the intermediate that the step [step] of the layer of
    index [layerIdx] writes: [[layer_<index>_<step>]]. *)
Definition label (layerIdx : nat) (step : string) : string :=
  "[layer_" +:+ Str.of_nat layerIdx +:+ "_" +:+ step +:+ "]".

Section LayerSteps.
Context `{JSNumber}.




(** [pct] percent of [canvas], rounded down. *)
Definition percent (canvas pct : num) : num :=
  num_floor (num_div (num_mul canvas pct) (num_of_Z 100)).








End LayerSteps.

Section DurationRule.
Context `{JSNumber}.








End DurationRule.

Section CompositingOrder.
Context `{JSNumber}.


End CompositingOrder.

End Spec.

(* ===================================================================== *)
(** * Definitions used by the proofs *)
(* ===================================================================== *)

Module Invariants.

(** [n] characters of the class, then the end of the input. *)
Fixpoint class_run (ranges : list (ascii * ascii)) (n : nat) (s : string)
  : bool :=
  match n with
  | O => String.eqb EmptyString s
  | S k =>
      match s with
      | String a r => Regex.in_class a ranges && class_run ranges k r
      | EmptyString => false
      end
  end.


Section WithNumbers.
Context `{JSNumber}.



End WithNumbers.

End Invariants.

(* ===================================================================== *)
(** * Strings: lemmas *)
(* ===================================================================== *)

Module StrFacts.

Lemma app_cons (x : ascii) (a b : string) :
  String x a +:+ b = String x (a +:+ b).
Proof. reflexivity. Qed.

Lemma app_assoc (a b c : string) : (a +:+ b) +:+ c = a +:+ (b +:+ c).
Proof.
  induction a as [|x a IH]; [reflexivity|].
  by rewrite !app_cons, IH.
Qed.

Lemma app_empty_r (a : string) : a +:+ "" = a.
Proof.
  induction a as [|x a IH]; [reflexivity|].
  by rewrite app_cons, IH.
Qed.

Lemma length_app (a b : string) :
  String.length (a +:+ b) = String.length a + String.length b.
Proof.
  induction a as [|x a IH]; [reflexivity|].
  rewrite app_cons. simpl. by rewrite IH.
Qed.

Lemma includes_app_r (sub a b : string) :
  Str.includes sub b = true -> Str.includes sub (a +:+ b) = true.
Proof.
  intros Hb. induction a as [|x a IH]; [exact Hb|].
  rewrite app_cons. simpl. rewrite IH. apply orb_true_r.
Qed.

Lemma lastIndexOf_app_dot (stem e : string) :
  Str.lastIndexOf "." e = None ->
  Str.lastIndexOf "." (stem +:+ "." +:+ e) = Some (String.length stem).
Proof.
  intros He. induction stem as [|x stem IH].
  - change ("" +:+ "." +:+ e) with (String "." e). simpl. by rewrite He.
  - rewrite app_cons. simpl. by rewrite IH.
Qed.

Lemma substringFrom_app (a b : string) :
  Str.substringFrom (String.length a) (a +:+ b) = b.
Proof.
  induction a as [|x a IH]; [by destruct b|].
  rewrite app_cons. simpl. exact IH.
Qed.

Lemma toLowerCase_app (a b : string) :
  Str.lower (a +:+ b) = Str.lower a +:+ Str.lower b.
Proof.
  induction a as [|x a IH]; [reflexivity|].
  rewrite app_cons. simpl. by rewrite IH.
Qed.



End StrFacts.

(* ===================================================================== *)
(** * Colour validation *)
(* ===================================================================== *)

Module ColorFacts.

Lemma existsb_flat_map {A B} (p : B -> bool) (f : A -> list B) (l : list A) :
  existsb p (flat_map f l) = existsb (fun a => existsb p (f a)) l.
Proof.
  induction l as [|a l IH]; simpl; [reflexivity|].
  by rewrite existsb_app, IH.
Qed.


Lemma existsb_pointwise {A} (p q : A -> bool) (l : list A) :
  (forall a, p a = q a) -> existsb p l = existsb q l.
Proof.
  intros E. induction l as [|a l IH]; simpl; [reflexivity|].
  by rewrite E, IH.
Qed.

Lemma repeat_class ranges n (l : list string) :
  existsb (String.eqb EmptyString)
          (Nat.iter n (flat_map (Regex.run (Regex.Class ranges))) l)
  = existsb (Invariants.class_run ranges n) l.
Proof.
  revert l. induction n as [|n IH]; intros l; [reflexivity|].
  rewrite Nat.iter_succ_r, IH, existsb_flat_map.
  apply existsb_pointwise. intros [|a r]; simpl; [reflexivity|].
  destruct (Regex.in_class a ranges); simpl; [apply orb_false_r|reflexivity].
Qed.

Lemma in_hex_class (a : ascii) :
  Regex.in_class a [("0", "9"); ("A", "F"); ("a", "f")]%char
  = Spec.is_hex_digit a.
Proof.
  unfold Regex.in_class, Regex.in_range, Spec.is_hex_digit. simpl.
  by rewrite orb_false_r, orb_assoc.
Qed.

Lemma class_run_hex n s :
  Invariants.class_run [("0", "9"); ("A", "F"); ("a", "f")]%char n s
  = Spec.hex_digits n s.
Proof.
  revert s. induction n as [|n IH]; intros [|a r]; try reflexivity.
  change (Regex.in_class a [("0", "9"); ("A", "F"); ("a", "f")]%char
          && Invariants.class_run [("0", "9"); ("A", "F"); ("a", "f")]%char n r
          = Spec.is_hex_digit a && Spec.hex_digits n r).
  by rewrite in_hex_class, IH.
Qed.

Lemma flat_map_one {A B} (f : A -> list B) (x : A) : flat_map f [x] = f x.
Proof. simpl. apply app_nil_r. Qed.

Lemma existsb_one {A} (p : A -> bool) (x : A) : existsb p [x] = p x.
Proof. simpl. apply orb_false_r. Qed.

Lemma run_seq r1 r2 s :
  Regex.run (Regex.Seq r1 r2) s = flat_map (Regex.run r2) (Regex.run r1 s).
Proof. reflexivity. Qed.

Lemma run_repeat n r1 s :
  Regex.run (Regex.Repeat n r1) s
  = Nat.iter n (flat_map (Regex.run r1)) [s].
Proof. reflexivity. Qed.

Lemma run_chr c a t :
  Regex.run (Regex.Chr c) (String a t)
  = if Ascii.eqb a c then [t] else [].
Proof. reflexivity. Qed.

(** The regular expression of the source accepts exactly the colours of
    the form [#RRGGBB]. *)
Lemma hex_color_matches (s : string) :
  Regex.matches_anchored Regex.hex_color s = Spec.is_RRGGBB s.
Proof.
  unfold Regex.matches_anchored, Regex.hex_color, Spec.is_RRGGBB.
  destruct s as [|a r]; [reflexivity|].
  rewrite run_seq, run_chr.
  destruct (Ascii.eqb a "#"); [|reflexivity].
  rewrite flat_map_one, run_repeat, repeat_class, existsb_one.
  apply class_run_hex.
Qed.

End ColorFacts.

Module ColorValidation.
Import Rational.

(** C8, counterexample.  The claim places the rejection in the constructor
    of the Color variant.  The constructor stores any string: given
    ["red"], which the regular expression does not match, it returns a
    Color background holding ["red"]. *)
Lemma ColorBackground_constructor_accepts_red :
  Regex.matches_anchored Regex.hex_color "red" = false /\
  exists bg : BaseBackground,
    Background.newColorBackground "red" (dec "1920") (dec "1080") (dec "30")
                                  false (dec "1") = bg /\
    variant bg = ColorBackground "red".
Proof.
  split; [reflexivity|]. eexists. split; reflexivity.
Qed.

(** C8, as amended.  [Background.fromColor] throws for every string that
    is not a [#] followed by exactly six hexadecimal digits, which is what
    [/^#[0-9A-Fa-f]{6}$/] matches, and for a string of that form returns
    the Color background that the constructor builds from it; ["red"],
    ["#FFF"] and ["#GGGGGG"] are rejected and ["#FF0000"] is accepted.
    The validation is the factory's: the constructor of the Color variant
    keeps whatever string it is given. *)
Theorem fromColor_validates `{JSNumber} (hexColor : string)
    (width height fps : num) :
  Background.fromColor hexColor width height fps
  = (if Spec.is_RRGGBB hexColor
     then Ok (Background.newColorBackground hexColor width height fps
                                            false JS.one)
     else Throw "Color must be in hex format (#RRGGBB)")
  /\ Regex.matches_anchored Regex.hex_color hexColor = Spec.is_RRGGBB hexColor
  /\ (Spec.is_RRGGBB "red" = false /\ Spec.is_RRGGBB "#FFF" = false
      /\ Spec.is_RRGGBB "#GGGGGG" = false /\ Spec.is_RRGGBB "#FF0000" = true)
  /\ forall (color : string) (audioEnabled : bool) (audioVolume : num),
       variant (Background.newColorBackground color width height fps
                                              audioEnabled audioVolume)
       = ColorBackground color.
Proof.
  split; [|split; [|split]].
  - unfold Background.fromColor.
    rewrite ColorFacts.hex_color_matches.
    by destruct (Spec.is_RRGGBB hexColor).
  - apply ColorFacts.hex_color_matches.
  - repeat split; reflexivity.
  - reflexivity.
Qed.

End ColorValidation.

(* ===================================================================== *)
(** * Format inference and trimming of a [Foreground] *)
(* ===================================================================== *)

Module ForegroundFacts.
Section Facts.
Context `{JSNumber} (W : World).

Lemma probeAndStore_fields (fg : Foreground) path c :
  format (Foreground.probeAndStore W fg path c) = format fg /\
  primaryPath (Foreground.probeAndStore W fg path c) = primaryPath fg.
Proof. split; reflexivity. Qed.

Lemma fromVideoAndMask_format videoPath maskPath audioPath c fg :
  Foreground.fromVideoAndMask W videoPath maskPath audioPath c = Ok fg ->
  format fg = pro_bundle.
Proof.
  unfold Foreground.fromVideoAndMask.
  destruct (ctx_or_default W c); [|discriminate].
  by intros [= <-].
Qed.

Lemma handleZipBundle_format c zipPath fg :
  Foreground._handleZipBundle W c zipPath = Ok fg -> format fg = pro_bundle.
Proof.
  unfold Foreground._handleZipBundle.
  destruct (extract_zip W c zipPath) as [dir|e]; [|discriminate].
  repeat match goal with
         | |- context [if ?b then _ else _] => destruct b
         end; try discriminate;
    match goal with
    | |- context [Foreground.fromVideoAndMask W ?v ?m ?a ?x] =>
        destruct (Foreground.fromVideoAndMask W v m a x) as [f|msg] eqn:E
    end; try discriminate; intros [= <-];
    exact (fromVideoAndMask_format _ _ _ _ _ E).
Qed.

Lemma fromProBundleZip_format path fg :
  Foreground.fromProBundleZip W path = Ok fg -> format fg = pro_bundle.
Proof.
  unfold Foreground.fromProBundleZip.
  destruct (defaultContext W) as [context|msg]; [|discriminate].
  apply handleZipBundle_format.
Qed.

Lemma dot_free_lastIndexOf (s : string) :
  Spec.dot_free s = true -> Str.lastIndexOf "." s = None.
Proof.
  induction s as [|a r IH]; simpl; [done|].
  intros Hd. apply andb_true_iff in Hd as [Ha Hr].
  rewrite (IH Hr). apply negb_true_iff in Ha. by rewrite Ha.
Qed.

(** On ASCII strings [toLowerCase] is the ASCII lowering. *)
Lemma toLowerCase_ascii (s : string) :
  Str.is_ascii s = true -> toLowerCase W s = Str.lower s.
Proof. intros Hs. unfold toLowerCase. by rewrite Hs. Qed.

(** The extension of a path that is not a URL: what follows its last
    dot, with the dot, in lower case. *)
Lemma getFileExtension_of_file (stem e : string) :
  Spec.is_url (stem +:+ "." +:+ e) = false ->
  Spec.dot_free e = true ->
  Foreground._getFileExtension W (stem +:+ "." +:+ e)
  = toLowerCase W ("." +:+ e).
Proof.
  intros Hu He. unfold Foreground._getFileExtension, Str.startsWith.
  unfold Spec.is_url in Hu. rewrite Hu.
  unfold Foreground.from_last_dot.
  rewrite (StrFacts.lastIndexOf_app_dot stem e (dot_free_lastIndexOf e He)).
  by rewrite StrFacts.substringFrom_app.
Qed.

(** The extension of a URL that parses: what follows the last dot of
    its path, in lower case. *)
Lemma getFileExtension_of_url (url stem e : string) :
  Spec.is_url url = true ->
  url_pathname W url = Some (stem +:+ "." +:+ e) ->
  Spec.dot_free e = true ->
  Foreground._getFileExtension W url = toLowerCase W ("." +:+ e).
Proof.
  intros Hu Hp He. unfold Foreground._getFileExtension, Str.startsWith.
  unfold Spec.is_url in Hu. rewrite Hu, Hp.
  unfold Foreground.from_last_dot.
  rewrite (StrFacts.lastIndexOf_app_dot stem e (dot_free_lastIndexOf e He)).
  by rewrite StrFacts.substringFrom_app.
Qed.

Lemma message_names_supported (path extension : string) :
  Forall (fun e => Str.includes e
                     (Foreground.unknown_format_message path extension)
                   = true)
         Spec.supported_extensions.
Proof.
  unfold Foreground.unknown_format_message, Spec.supported_extensions.
  repeat constructor;
    do 5 apply StrFacts.includes_app_r; reflexivity.
Qed.

Lemma unsupported (ext : string) :
  String.eqb ext ".webm" = false -> String.eqb ext ".mov" = false ->
  String.eqb ext ".zip" = false -> String.eqb ext ".mp4" = false ->
  bool_decide (ext ∈ Spec.supported_extensions) = false.
Proof.
  intros E1 E2 E3 E4. apply bool_decide_eq_false.
  apply String.eqb_neq in E1, E2, E3, E4.
  unfold Spec.supported_extensions. intros Hin.
  repeat (apply elem_of_cons in Hin as [Hin|Hin]; [done|]).
  by apply elem_of_nil in Hin.
Qed.

(** What [fromFile] does once its context is known and the extension
    of its path is [ext]. *)
Lemma fromFile_by_extension (path ext : string) (c : option MediaContext)
    (context : MediaContext) :
  ctx_or_default W c = Ok context ->
  Foreground._getFileExtension W path = ext ->
  (ext = ".webm" ->
   Foreground.fromFile W path c
   = Ok (Foreground.probeAndStore W
           (Foreground.new webm_vp9 path None None None) path context))
  /\ (ext = ".mov" ->
      Foreground.fromFile W path c
      = Ok (Foreground.probeAndStore W
              (Foreground.new mov_prores path None None None) path context))
  /\ (ext = ".zip" ->
      Foreground.fromFile W path c = Foreground.fromProBundleZip W path)
  /\ (ext = ".mp4" ->
      Foreground.fromFile W path c
      = Ok (Foreground.probeAndStore W
              (Foreground.new stacked_video path None None None) path
              context))
  /\ (ext ∉ Spec.supported_extensions ->
      Foreground.fromFile W path c
      = Throw (Foreground.unknown_format_message path ext)).
Proof.
  intros Hc He. unfold Foreground.fromFile. rewrite Hc, He.
  cbn [mbind result_bind rbind].
  repeat split; intros Hx.
  - by rewrite Hx.
  - by rewrite Hx.
  - by rewrite Hx.
  - by rewrite Hx.
  - unfold Spec.supported_extensions in Hx.
    destruct (String.eqb_spec ext ".webm") as [->|_];
      [exfalso; apply Hx; repeat constructor|].
    destruct (String.eqb_spec ext ".mov") as [->|_];
      [exfalso; apply Hx; repeat constructor|].
    destruct (String.eqb_spec ext ".zip") as [->|_];
      [exfalso; apply Hx; repeat constructor|].
    destruct (String.eqb_spec ext ".mp4") as [->|_];
      [exfalso; apply Hx; repeat constructor|].
    reflexivity.
Qed.

End Facts.

Import Rational Samples.

(** C9, counterexample.  The claim promises a format for [.webm] and,
    for any other extension, an error that names the supported set.
    [fromFile] asks for its context before it looks at the path: called
    without a context on a machine where the binaries cannot be
    verified, it throws the error of [defaultContext()], for [clip.webm]
    as for [clip.avi], and that message names none of the extensions. *)
Lemma fromFile_without_context_needs_ffmpeg :
  Foreground.fromFile world_without_ffmpeg "clip.avi" None
  = Throw ("FFmpeg not found. Please install FFmpeg: "
           +:+ "Command failed: ffmpeg -version" +:+ nl
           +:+ "/bin/sh: 1: ffmpeg: not found" +:+ nl)
  /\ Foreground.fromFile world_without_ffmpeg "clip.webm" None
     = Foreground.fromFile world_without_ffmpeg "clip.avi" None
  /\ Forall (fun e =>
               Str.includes e
                 ("FFmpeg not found. Please install FFmpeg: "
                  +:+ "Command failed: ffmpeg -version" +:+ nl
                  +:+ "/bin/sh: 1: ffmpeg: not found" +:+ nl)
               = false)
            Spec.supported_extensions.
Proof. split; [reflexivity|]. split; [reflexivity|]. by repeat constructor. Qed.

(** C9, as amended.  [Foreground.fromFile] first takes the context it is
    given or, without one, the default context, and throws the error of
    [defaultContext()] when that cannot be created.  With a context it
    decides by the extension of the file: for a path [stem.suffix], or a
    URL whose path is [stem.suffix], where [suffix] has no dot, the
    extension is [.suffix] in lower case.  [.webm] gives a foreground of
    format [webm_vp9] for the path, probed with the context, [.mov] one
    of format [mov_prores], [.mp4] one of format [stacked_video]; for
    [.zip] the result is that of the archive extraction of
    [fromProBundleZip], whose foreground has the format [pro_bundle];
    and for every other extension it throws the unknown-format error,
    whose message contains each of [.webm], [.mov], [.zip] and [.mp4].
    For a suffix of ASCII characters the lower case is that of the
    letters A to Z. *)
Theorem fromFile_infers_format `{JSNumber} (W : World)
    (path stem suffix : string) (c : option MediaContext) :
  (Spec.is_url path = false /\ path = stem +:+ "." +:+ suffix)
  \/ (Spec.is_url path = true
      /\ url_pathname W path = Some (stem +:+ "." +:+ suffix)) ->
  Spec.dot_free suffix = true ->
  let ext := toLowerCase W ("." +:+ suffix) in
  match ctx_or_default W c with
  | Throw msg => Foreground.fromFile W path c = Throw msg
  | Ok context =>
      (ext = ".webm" ->
       exists fg, Foreground.fromFile W path c = Ok fg
                  /\ Foreground.fromWebmVp9 W path (Some context) = Ok fg
                  /\ format fg = webm_vp9 /\ primaryPath fg = path
                  /\ _videoInfo fg
                     = Some (VideoSource.probeAndStore W path context))
      /\ (ext = ".mov" ->
          exists fg, Foreground.fromFile W path c = Ok fg
                     /\ Foreground.fromMovProres W path (Some context) = Ok fg
                     /\ format fg = mov_prores /\ primaryPath fg = path
                     /\ _videoInfo fg
                        = Some (VideoSource.probeAndStore W path context))
      /\ (ext = ".zip" ->
          Foreground.fromFile W path c = Foreground.fromProBundleZip W path
          /\ forall fg, Foreground.fromFile W path c = Ok fg ->
                        format fg = pro_bundle)
      /\ (ext = ".mp4" ->
          exists fg, Foreground.fromFile W path c = Ok fg
                     /\ Foreground.fromStackedVideo W path (Some context)
                        = Ok fg
                     /\ format fg = stacked_video /\ primaryPath fg = path
                     /\ _videoInfo fg
                        = Some (VideoSource.probeAndStore W path context))
      /\ (ext ∉ Spec.supported_extensions ->
          exists msg, Foreground.fromFile W path c = Throw msg
                      /\ msg = Foreground.unknown_format_message path ext
                      /\ Forall (fun e => Str.includes e msg = true)
                                Spec.supported_extensions)
  end
  /\ (Str.is_ascii suffix = true -> ext = "." +:+ Str.lower suffix).
Proof.
  intros Hpath Hdot ext.
  assert (Hext : Foreground._getFileExtension W path = ext).
  { destruct Hpath as [[Hu ->]|[Hu Hp]].
    - by apply getFileExtension_of_file.
    - by apply getFileExtension_of_url with stem. }
  split.
  - destruct (ctx_or_default W c) as [context|msg] eqn:Hc.
    + destruct (fromFile_by_extension W path ext c context Hc Hext)
        as (Hwebm & Hmov & Hzip & Hmp4 & Hother).
      repeat split.
      * intros Hx. eexists. split; [exact (Hwebm Hx)|]. by repeat split.
      * intros Hx. eexists. split; [exact (Hmov Hx)|]. by repeat split.
      * by apply Hzip.
      * intros fg Hfg. rewrite Hzip in Hfg by assumption.
        exact (fromProBundleZip_format W _ _ Hfg).
      * intros Hx. eexists. split; [exact (Hmp4 Hx)|]. by repeat split.
      * intros Hx. eexists. split; [exact (Hother Hx)|].
        split; [reflexivity|]. apply message_names_supported.
    + unfold Foreground.fromFile. by rewrite Hc.
  - intros Ha. unfold ext.
    rewrite toLowerCase_ascii by (simpl; exact Ha). reflexivity.
Qed.

Lemma fromFile_infers_format_witness :
  (exists fg, Foreground.fromFile world "Clip.WebM" None = Ok fg
              /\ format fg = webm_vp9 /\ primaryPath fg = "Clip.WebM")
  /\ (exists fg,
        Foreground.fromFile world
          "https://cdn.example.com/v/take.mov?sig=a.mp4" None = Ok fg
        /\ format fg = mov_prores)
  /\ (exists msg, Foreground.fromFile world "clip.avi" None = Throw msg
                  /\ Str.includes "Detected extension: .avi" msg = true
                  /\ Forall (fun e => Str.includes e msg = true)
                            Spec.supported_extensions).
Proof.
  split; [|split].
  - destruct (fromFile_infers_format world "Clip.WebM" "Clip" "WebM" None
                (or_introl (conj eq_refl eq_refl)) eq_refl)
      as [(Hwebm & _) _].
    destruct (Hwebm eq_refl) as (fg & Hfg & _ & Hformat & Hpath & _).
    by exists fg.
  - destruct (fromFile_infers_format world
                "https://cdn.example.com/v/take.mov?sig=a.mp4"
                "/v/take" "mov" None
                (or_intror (conj eq_refl eq_refl)) eq_refl)
      as [(_ & Hmov & _) _].
    destruct (Hmov eq_refl) as (fg & Hfg & _ & Hformat & _).
    by exists fg.
  - destruct (fromFile_infers_format world "clip.avi" "clip" "avi" None
                (or_introl (conj eq_refl eq_refl)) eq_refl)
      as [(_ & _ & _ & _ & Hother) _].
    destruct Hother as (msg & Hmsg & -> & Hall).
    { unfold Spec.supported_extensions. intros Hin.
      repeat (apply elem_of_cons in Hin as [Hin|Hin]; [discriminate|]).
      by apply elem_of_nil in Hin. }
    exists (Foreground.unknown_format_message "clip.avi" ".avi").
    by repeat split.
Defined.

(** C7.  On an object store, [a.subclip(start, end)] allocates a new
    [Foreground], at an address other than the receiver's, whose format,
    primary, mask and audio locators are the receiver's and whose
    [sourceTrim] is [[start, end]]; every object that was in the store,
    the receiver included, is the same after the call; and a second
    [subclip] on the result yields an object whose trim is the second
    pair alone, again leaving the earlier objects as they were. *)
Theorem subclip_returns_new_foreground `{JSNumber} (h : list Foreground)
    (a : nat) (this : Foreground) (start end_ : num) :
  h !! a = Some this ->
  exists (h' : list Foreground) (b : nat) (new : Foreground),
    Foreground.subclip_at h a start (Some end_) = Some (h', b)
    /\ b <> a
    /\ (forall c x, h !! c = Some x -> h' !! c = Some x)
    /\ h' !! b = Some new
    /\ format new = format this
    /\ primaryPath new = primaryPath this
    /\ maskPath new = maskPath this
    /\ audioPath new = audioPath this
    /\ sourceTrim new = Some (start, Some end_)
    /\ forall start2 end2 : num,
         exists (h'' : list Foreground) (c : nat) (again : Foreground),
           Foreground.subclip_at h' b start2 (Some end2) = Some (h'', c)
           /\ h'' !! c = Some again
           /\ sourceTrim again = Some (start2, Some end2)
           /\ primaryPath again = primaryPath this
           /\ maskPath again = maskPath this
           /\ audioPath again = audioPath this
           /\ h'' !! a = Some this
           /\ h'' !! b = Some new.
Proof.
  intros Ha.
  pose proof (lookup_lt_Some _ _ _ Ha) as Hlt.
  set (new := Foreground.subclip this start (Some end_)).
  exists (h ++ [new]), (length h), new.
  assert (Hb : (h ++ [new]) !! length h = Some new).
  { rewrite lookup_app_r by lia. by rewrite Nat.sub_diag. }
  repeat split; try reflexivity.
  - unfold Foreground.subclip_at, Foreground.alloc. by rewrite Ha.
  - lia.
  - intros c x Hc. by apply lookup_app_l_Some.
  - exact Hb.
  - intros start2 end2.
    set (again := Foreground.subclip new start2 (Some end2)).
    exists ((h ++ [new]) ++ [again]), (length (h ++ [new])), again.
    repeat split; try reflexivity.
    + unfold Foreground.subclip_at, Foreground.alloc. by rewrite Hb.
    + rewrite lookup_app_r by lia. by rewrite Nat.sub_diag.
    + by do 2 apply lookup_app_l_Some.
    + by apply lookup_app_l_Some.
Qed.

Import Rational Samples.

Lemma subclip_returns_new_foreground_witness :
  [clip] !! 0 = Some clip /\
  exists (h' : list Foreground) (b : nat) (new : Foreground),
    Foreground.subclip_at [clip] 0 (dec "2") (Some (dec "5")) = Some (h', b)
    /\ b <> 0
    /\ (forall c x, [clip] !! c = Some x -> h' !! c = Some x)
    /\ h' !! b = Some new
    /\ format new = format clip
    /\ primaryPath new = primaryPath clip
    /\ maskPath new = maskPath clip
    /\ audioPath new = audioPath clip
    /\ sourceTrim new = Some (dec "2", Some (dec "5"))
    /\ forall start2 end2 : num,
         exists (h'' : list Foreground) (c : nat) (again : Foreground),
           Foreground.subclip_at h' b start2 (Some end2) = Some (h'', c)
           /\ h'' !! c = Some again
           /\ sourceTrim again = Some (start2, Some end2)
           /\ primaryPath again = primaryPath clip
           /\ maskPath again = maskPath clip
           /\ audioPath again = audioPath clip
           /\ h'' !! 0 = Some clip
           /\ h'' !! b = Some new.
Proof.
  split; [reflexivity|].
  apply (subclip_returns_new_foreground [clip] 0 clip (dec "2") (dec "5")).
  reflexivity.
Defined.

(** [fromFile] on sample paths: the extension counts in any case, a URL
    is judged by its path, and an unknown extension is an error. *)
Example fromFile_samples :
  match Foreground.fromFile world "clip.WEBM" None with
  | Ok fg => format fg = webm_vp9
  | Throw _ => False
  end
  /\ match Foreground.fromFile world "https://cdn.example.com/v/take.mov?sig=a.mp4" None with
     | Ok fg => format fg = mov_prores
     | Throw _ => False
     end
  /\ match Foreground.fromFile world "clip.avi" None with
     | Ok _ => False
     | Throw msg => Str.includes "Detected extension: .avi" msg = true
     end
  /\ match Foreground.fromFile world "bundle.zip" None with
     | Ok _ => False
     | Throw msg =>
         msg = "Failed to extract pro bundle ZIP: Error: Invalid filename"
     end.
Proof. vm_compute. repeat split. Qed.

End ForegroundFacts.

(* ===================================================================== *)
(** * The transformation chain of a layer *)
(* ===================================================================== *)

Module ChainFacts.

Lemma app_inj_r (a b c : string) : a +:+ c = b +:+ c -> a = b.
Proof.
  revert b. induction a as [|x a IH]; intros [|y b] E.
  - reflexivity.
  - apply (f_equal String.length) in E.
    rewrite !StrFacts.length_app in E. simpl in E. lia.
  - apply (f_equal String.length) in E.
    rewrite !StrFacts.length_app in E. simpl in E. lia.
  - rewrite !StrFacts.app_cons in E. injection E as -> E.
    f_equal. by apply IH.
Qed.

#[global] Instance step_label_inj layerIdx :
  Inj (=) (=) (Composition.step_label layerIdx).
Proof.
  intros a b E. unfold Composition.step_label in E.
  do 3 apply String.app_inj in E. by apply app_inj_r in E.
Qed.






End ChainFacts.

Module TransformFacts.
Section Facts.
Context `{JSNumber}.




















End Facts.

Import Rational.



End TransformFacts.

(* ===================================================================== *)
(** * The aspect-ratio constraint of the scale step *)
(* ===================================================================== *)

Module SizeFacts.
Import Rational.

(** C3, counterexample.  The claim has [FIT_WIDTH] and [FIT_HEIGHT] emit
    no constraint flag.  Both are in the list of modes that map to
    ["decrease"], and the scale step of a [FIT_WIDTH] layer carries
    [force_original_aspect_ratio=decrease] after its [-1] height. *)
Lemma fit_width_carries_constraint :
  Composition._getAspectRatioConstraint FIT_WIDTH = Some "decrease"
  /\ Composition._getAspectRatioConstraint FIT_HEIGHT = Some "decrease"
  /\ Composition._getLayerTransformationFilters
       (LayerHandle.size FIT_WIDTH None None None None
          (Composition.default_layer 0 Samples.clip None))
       0 "[1:v]" (dec "1920") (dec "1080")
     = ["[1:v]scale=1920:-1:force_original_aspect_ratio=decrease[layer_0_scale]";
        "[layer_0_scale]null[layer_0_final]"].
Proof.
  split; [reflexivity|]. split; [reflexivity|]. by vm_compute.
Qed.

(** C3, as amended.  The aspect-ratio constraint is a function of the
    size mode alone: [PX], [CANVAS_PERCENT], [CONTAIN], [FIT_WIDTH] and
    [FIT_HEIGHT] map to ["decrease"], [COVER] maps to ["increase"], and
    [SCALE] maps to no constraint.  So the scale step of a [FIT_WIDTH]
    layer is [scale=W:-1] followed by the flag
    [force_original_aspect_ratio=decrease], and that of a [FIT_HEIGHT]
    layer is [scale=-1:H] followed by the same flag. *)
Theorem aspect_ratio_constraint_by_mode `{JSNumber} (mode : SizeMode)
    (width height percent scale : option num) (layer : LayerDict)
    (layerIdx : nat) (canvasWidth canvasHeight : num)
    (st : Composition.Chain) :
  Composition._getAspectRatioConstraint mode
  = match mode with
    | PX | CANVAS_PERCENT | CONTAIN | FIT_WIDTH | FIT_HEIGHT =>
        Some "decrease"
    | COVER => Some "increase"
    | SCALE => None
    end
  /\ Composition.scale_step
       (LayerHandle.size FIT_WIDTH width height percent scale layer)
       layerIdx canvasWidth canvasHeight st
     = Composition.push
         ("scale=" +:+ num_toString canvasWidth +:+ ":" +:+ "-1" +:+
            ":force_original_aspect_ratio=decrease")
         (Composition.step_label layerIdx "scale") st
  /\ Composition.scale_step
       (LayerHandle.size FIT_HEIGHT width height percent scale layer)
       layerIdx canvasWidth canvasHeight st
     = Composition.push
         ("scale=" +:+ "-1" +:+ ":" +:+ num_toString canvasHeight +:+
            ":force_original_aspect_ratio=decrease")
         (Composition.step_label layerIdx "scale") st.
Proof.
  split; [by destruct mode|]. split; reflexivity.
Qed.

End SizeFacts.

(* ===================================================================== *)
(** * Duration resolution *)
(* ===================================================================== *)

Module DurationFacts.
Section Facts.
Context `{JSNumber}.


Lemma zero_falsy : JS.truthy JS.zero = false.
Proof.
  unfold JS.truthy, JS.zero.
  by rewrite (num_eqb_refl _ (num_of_Z_notNaN 0)).
Qed.















End Facts.

Import Rational Samples.







(** The argument lists of the scenario with an explicit 0 and an
    explicit 7: the first has no [-t], the second has [-t 7] after the
    mapping. *)
Example duration_priority_scenario :
  Composition._buildFFmpegArgv world
    (Composition.setDuration (two_layers video_background) (dec "0"))
    "OUT.mp4" (EncoderProfile.h264 None None) false None
  = Ok ["ffmpeg"; "-y"; "-i"; "bg.mp4"; "-c:v"; "libvpx-vp9"; "-i";
        "a.webm"; "-c:v"; "libvpx-vp9"; "-i"; "b.webm"; "-filter_complex";
        "[1:v]scale=1920:1080:force_original_aspect_ratio=decrease[layer_0_scale];[layer_0_scale]null[layer_0_final];[0:v][layer_0_final]overlay=x='(W-w)/2':y='(H-h)/2':eof_action=pass[tmp0];[2:v]scale=1920:1080:force_original_aspect_ratio=decrease[layer_1_scale];[layer_1_scale]null[layer_1_final];[tmp0][layer_1_final]overlay=x='(W-w)/2':y='(H-h)/2':eof_action=pass[out];[1:a][2:a][0:a]amix=inputs=3:duration=longest[audio_out]";
        "-map"; "[out]"; "-map"; "[audio_out]"; "-c:v"; "libx264"; "-crf";
        "18"; "-preset"; "medium"; "-pix_fmt"; "yuv420p"; "OUT.mp4"]
  /\ Composition._buildFFmpegArgv world
       (Composition.setDuration (two_layers video_background) (dec "7"))
       "OUT.mp4" (EncoderProfile.h264 None None) false None
     = Ok ["ffmpeg"; "-y"; "-i"; "bg.mp4"; "-c:v"; "libvpx-vp9"; "-i";
           "a.webm"; "-c:v"; "libvpx-vp9"; "-i"; "b.webm"; "-filter_complex";
           "[1:v]scale=1920:1080:force_original_aspect_ratio=decrease[layer_0_scale];[layer_0_scale]null[layer_0_final];[0:v][layer_0_final]overlay=x='(W-w)/2':y='(H-h)/2':eof_action=pass[tmp0];[2:v]scale=1920:1080:force_original_aspect_ratio=decrease[layer_1_scale];[layer_1_scale]null[layer_1_final];[tmp0][layer_1_final]overlay=x='(W-w)/2':y='(H-h)/2':eof_action=pass[out];[1:a][2:a][0:a]amix=inputs=3:duration=longest[audio_out]";
           "-map"; "[out]"; "-map"; "[audio_out]"; "-t"; "7"; "-c:v";
           "libx264"; "-crf"; "18"; "-preset"; "medium"; "-pix_fmt";
           "yuv420p"; "OUT.mp4"].
Proof. split; by vm_compute. Qed.

End DurationFacts.

(* ===================================================================== *)
(** * Adding layers and the compositing order *)
(* ===================================================================== *)

Module OrderFacts.
Section Facts.
Context `{JSNumber}.

Lemma insert_by_z_perm (a : LayerDict * nat) (l : list (LayerDict * nat)) :
  Composition.insert_by_z a l ≡ₚ a :: l.
Proof.
  induction l as [|b l IH]; simpl; [reflexivity|].
  destruct (z a.1 <=? z b.1)%Z; [reflexivity|].
  rewrite IH. apply Permutation_swap.
Qed.

Lemma sort_by_z_perm (l : list (LayerDict * nat)) :
  Composition.sort_by_z l ≡ₚ l.
Proof.
  induction l as [|a l IH]; simpl; [reflexivity|].
  by rewrite insert_by_z_perm, IH.
Qed.









End Facts.


Import Rational Samples.


End OrderFacts.

(* ===================================================================== *)
(** * The mask of an RGB+mask pair *)
(* ===================================================================== *)

Module MatteFacts.
Import Rational Samples.

(** C2.  In this source a [Foreground] has no soft-mode field and
    [fromVideoAndMask] takes the two paths, the audio path and the
    context.  The factory returns once it has its context (the given one,
    or the default one, whose creation can throw), and for every RGB+mask
    foreground it returns, with alpha enabled, the normalisation filters
    are the RGBA conversion, the grayscale conversion of the mask, the
    threshold [geq='if(gte(lum(X,Y),128),255,0)'] and the alpha merge of
    the thresholded mask.  The alpha merge is always there, and so is the
    threshold; the composition of the unit test for a soft matte, whose
    foreground is what the factory returns for the two test files,
    compiles to a command that contains [geq=]. *)
Theorem bundle_filters_always_threshold `{JSNumber} (W : World)
    (videoPath maskPath : string) (audioPath : option string)
    (c : option MediaContext) (layerLabel : string)
    (inputMap : gmap string nat) :
  (f ← Foreground.fromVideoAndMask W videoPath maskPath audioPath c;
   Foreground.getFFmpegFilters f layerLabel inputMap true)
  = (context ← ctx_or_default W c;
     Ok [ "[" +:+ Str.of_lookup inputMap (layerLabel +:+ "_rgb")
              +:+ ":v]format=rgba[" +:+ layerLabel +:+ "_rgba]";
          "[" +:+ Str.of_lookup inputMap (layerLabel +:+ "_mask")
              +:+ ":v]format=gray[" +:+ layerLabel +:+ "_mask_gray]";
          "[" +:+ layerLabel
              +:+ "_mask_gray]geq='if(gte(lum(X,Y),128),255,0)'["
              +:+ layerLabel +:+ "_binary_mask]";
          "[" +:+ layerLabel +:+ "_rgba][" +:+ layerLabel
              +:+ "_binary_mask]alphamerge[" +:+ layerLabel +:+ "_merged]" ])
  /\ is_ok (Foreground.fromVideoAndMask W videoPath maskPath audioPath c)
     = is_ok (ctx_or_default W c)
  /\ Foreground.fromVideoAndMask world
       "test_assets/matte/video_preprocessed.mp4"
       "test_assets/matte/video_matte.mp4" None None
     = Ok matte_foreground
  /\ match Composition.dryRun world matte_composition with
     | Ok cmd => Str.includes "geq=" cmd = true
                 /\ Str.includes "alphamerge" cmd = true
     | Throw _ => False
     end.
Proof.
  split; [|split; [|split]].
  - unfold Foreground.fromVideoAndMask.
    destruct (ctx_or_default W c) as [context|msg]; [|reflexivity].
    cbn [mbind result_bind rbind].
    unfold Foreground.getFFmpegFilters, Foreground._getBundleFilters.
    simpl. by rewrite !StrFacts.app_assoc.
  - unfold Foreground.fromVideoAndMask.
    by destruct (ctx_or_default W c).
  - reflexivity.
  - by vm_compute.
Qed.

End MatteFacts.

(* ===================================================================== *)
(** * Mixing several audio sources *)
(* ===================================================================== *)

Module AudioFacts.
Section Facts.
Context `{JSNumber}.

(** In the branch for several sources, a foreground source is delayed
    by the start of its own layer: its [layerIndex] is used unless it is
    0, and the source of layer 0 is the first of the list. *)
Lemma multi_audio_step_foreground (comp : Composition) (i j : nat)
    (source : string) (vol : num) :
  (j = 0 -> i = 0) ->
  Composition.multi_audio_step comp i
    {| input := source; volume := vol; type := type_foreground;
       layerIndex := Some j |}
  = let compStart := Composition.comp_start_of comp j in
    let st0 : Composition.Chain := ([], "[" +:+ source +:+ "]") in
    let st1 :=
      if JS.gtb compStart JS.zero then
        Composition.push
          ("adelay=" +:+ Composition.delay_ms compStart +:+ "|"
             +:+ Composition.delay_ms compStart)
          ("[audio_delayed_" +:+ Str.of_nat i +:+ "]") st0
      else st0 in
    if JS.neqb vol JS.one then
      Composition.push ("volume=" +:+ num_toString vol)
                       ("[audio_vol_" +:+ Str.of_nat i +:+ "]") st1
    else st1.
Proof.
  intros Hj. unfold Composition.multi_audio_step, Composition.layer_index_or.
  simpl. destruct j as [|j]; [by rewrite (Hj eq_refl)|reflexivity].
Qed.

(** The background source has no [layerIndex]: the branch takes its
    position [i] in the list of sources for a layer index, and delays it
    by the start of the layer of that index when there is one. *)
Lemma multi_audio_step_background (comp : Composition) (i : nat)
    (source : string) (vol : num) :
  Composition.multi_audio_step comp i
    {| input := source; volume := vol; type := type_background;
       layerIndex := None |}
  = let compStart := Composition.comp_start_of comp i in
    let st0 : Composition.Chain := ([], "[" +:+ source +:+ "]") in
    let st1 :=
      if JS.gtb compStart JS.zero then
        Composition.push
          ("adelay=" +:+ Composition.delay_ms compStart +:+ "|"
             +:+ Composition.delay_ms compStart)
          ("[audio_delayed_" +:+ Str.of_nat i +:+ "]") st0
      else st0 in
    if JS.neqb vol JS.one then
      Composition.push ("volume=" +:+ num_toString vol)
                       ("[audio_vol_" +:+ Str.of_nat i +:+ "]") st1
    else st1.
Proof. reflexivity. Qed.

End Facts.

Import Rational Samples.

(** C4.  Two layers over a video background that has audio: layer 0 with
    its audio disabled, layer 1 starting at second 5.  The sources are the
    audio of layer 1 and the audio of the background.  The foreground
    source is delayed by 5000 ms on both channels and the two are mixed by
    [amix=inputs=2:duration=longest]; but the background source, second
    in the list, is delayed by 5000 ms as well, the start of layer 1. *)
Theorem background_audio_is_delayed :
  match Composition.argv_before_duration world delayed_mix with
  | Ok (_, sources) =>
      input <$> sources = ["2:a"; "0:a"]
      /\ type <$> sources = [type_foreground; type_background]
      /\ layerIndex <$> sources = [Some 1; None]
      /\ num_toString <$> (volume <$> sources) = ["1"; "1"]
      /\ Composition.audio_filters delayed_mix sources
         = (["[2:a]adelay=5000|5000[audio_delayed_0]";
             "[0:a]adelay=5000|5000[audio_delayed_1]";
             "[audio_delayed_0][audio_delayed_1]amix=inputs=2:duration=longest[audio_out]"],
            ["-map"; "[audio_out]"])
  | Throw _ => False
  end.
Proof. vm_compute. repeat split. Qed.

End AudioFacts.

(* ===================================================================== *)
(** * Further parts of the source *)
(* ===================================================================== *)

(** The other factories of [EncoderProfile] and [toFFmpegArgs]. *)
Module Encoders.
Section Methods.
Context `{JSNumber}.

Definition vp9 (crf : option num) : EncoderProfile :=
  {| kind := K_vp9; crf := Some (default (num_of_Z 32) crf);
     preset := None; layout := None; enc_fps := None |}.

Definition transparentWebm (crf : option num) : EncoderProfile :=
  {| kind := K_transparent_webm; crf := Some (default (num_of_Z 28) crf);
     preset := None; layout := None; enc_fps := None |}.

Definition prores4444 : EncoderProfile :=
  {| kind := K_prores_4444; crf := None; preset := None; layout := None;
     enc_fps := None |}.

Definition pngSequence (fps : option num) : EncoderProfile :=
  {| kind := K_png_sequence; crf := None; preset := None; layout := None;
     enc_fps := fps |}.

Definition stackedVideo (layout : option string) : EncoderProfile :=
  {| kind := K_stacked_video; crf := None; preset := None;
     layout := Some (default "vertical" layout); enc_fps := None |}.

(** [this.args('TEMP_OUTPUT').slice(0, -1)] *)
Definition toFFmpegArgs (e : EncoderProfile) : list string :=
  let argsWithPath := EncoderProfile.args e "TEMP_OUTPUT" in
  take (length argsWithPath - 1) argsWithPath.

End Methods.
End Encoders.

(** Notions that the statements below use. *)
Module Notions.
Section WithNumbers.
Context `{JSNumber}.

(** The number of inputs that a foreground of a wirable format adds. *)
Definition input_count (f : Foreground) : nat :=
  match format f with
  | pro_bundle => if JS.truthy_str (audioPath f) then 3 else 2
  | _ => 1
  end.


(** The foreground has a format that [getFFmpegInputs] wires: every
    format but [png_sequence], and a [pro_bundle] only with a mask
    path. *)
Definition wirable (f : Foreground) : bool :=
  match format f with
  | png_sequence => false
  | pro_bundle => JS.truthy_str (maskPath f)
  | _ => true
  end.

(** Every index of the input map is below [n]. *)
Definition indices_below (n : nat) (m : gmap string nat) : Prop :=
  map_Forall (fun (_ : string) (v : nat) => v < n) m.

(** The background supplies no audio source. *)
Definition silent_background (comp : Composition) : Prop :=
  forall bg, _background comp = Some bg ->
    audioEnabled bg && Background.hasAudio bg = false.

End WithNumbers.

(** Every character is a decimal digit. *)
Fixpoint all_digits (s : string) : bool :=
  match s with
  | EmptyString => true
  | String a r =>
      (48 <=? nat_of_ascii a)%nat && (nat_of_ascii a <=? 57)%nat
      && all_digits r
  end.

End Notions.

(* ===================================================================== *)
(** * Canvas resolution *)
(* ===================================================================== *)

Module CanvasFacts.

(** X1.  When the canvas cannot be determined, nothing is built:
    [_buildFFmpegArgv] and [dryRun] throw the error of [_getCanvasSize]. *)
Theorem canvas_failure_aborts_build `{JSNumber} (W : World)
    (comp : Composition) (msg outPath : string) (encoder : EncoderProfile)
    (toPipe : bool) (streamFormat : option string) :
  Composition._getCanvasSize comp = Throw msg ->
  Composition._buildFFmpegArgv W comp outPath encoder toPipe streamFormat
  = Throw msg
  /\ Composition.dryRun W comp = Throw msg.
Proof.
  intros E.
  assert (Hb : forall o e p sf,
             Composition._buildFFmpegArgv W comp o e p sf = Throw msg).
  { intros. unfold Composition._buildFFmpegArgv,
      Composition.argv_before_duration. by rewrite E. }
  split; [apply Hb|]. unfold Composition.dryRun. by rewrite Hb.
Qed.

(** X2.  A background whose width, height and frame rate are all truthy
    decides the canvas: a hint set by [setCanvas] is ignored.  Without a
    background the hint is the canvas. *)
Theorem background_dimensions_win `{JSNumber} (comp : Composition)
    (bg : BaseBackground) (w h f : num) :
  _background comp = Some bg ->
  JS.truthy (width bg) = true -> JS.truthy (height bg) = true ->
  JS.truthy (fps bg) = true ->
  Composition._getCanvasSize (Composition.setCanvas comp w h f)
  = Ok (width bg, height bg, fps bg)
  /\ Composition._getCanvasSize
       (Composition.setCanvas
          {| ctx := ctx comp; _background := None; _layers := _layers comp;
             _canvasHint := _canvasHint comp;
             _explicitDuration := _explicitDuration comp |} w h f)
     = Ok (w, h, f).
Proof.
  intros Hbg Hw Hh Hf. split; [|reflexivity].
  unfold Composition._getCanvasSize. simpl. by rewrite Hbg, Hw, Hh, Hf.
Qed.

Import Rational Samples.

Lemma canvas_failure_aborts_build_witness :
  Composition._getCanvasSize (Composition.construct None context)
  = Throw ("Cannot determine canvas size. Please provide a background "
           +:+ "(Background.fromImage/fromVideo/fromColor) or set explicit canvas dimensions "
           +:+ "using Composition.canvas() or .setCanvas().")
  /\ is_ok (Composition.dryRun world (Composition.construct None context))
     = false.
Proof.
  split; [reflexivity|].
  destruct (canvas_failure_aborts_build world
              (Composition.construct None context) _ "OUT.mp4"
              (EncoderProfile.h264 None None) false None eq_refl)
    as [_ Hd].
  by rewrite Hd.
Defined.

Lemma background_dimensions_win_witness :
  Composition._getCanvasSize
    (Composition.setCanvas (two_layers red_background)
                           (dec "640") (dec "360") (dec "24"))
  = Ok (dec "1920", dec "1080", dec "30").
Proof.
  apply (background_dimensions_win (two_layers red_background)
           red_background (dec "640") (dec "360") (dec "24"));
    reflexivity.
Defined.

End CanvasFacts.

(* ===================================================================== *)
(** * Handles *)
(* ===================================================================== *)

Module HandleFacts.

Lemma alter_out_of_range {A} (f : A -> A) (l : list A) (i : nat) :
  length l <= i -> alter f i l = l.
Proof.
  revert i. induction l as [|x l IH]; intros i Hi; [reflexivity|].
  destruct i as [|i]; simpl in *; [lia|].
  f_equal. apply IH. lia.
Qed.

(** X3.  The handle that [add] returns addresses the layer just added:
    a method applied through it updates that layer and leaves the layers
    before it as they were.  A handle whose index is not below the number
    of layers changes nothing. *)
Theorem handle_addresses_added_layer `{JSNumber} (comp : Composition)
    (f : Foreground) (given : option string) (m : LayerDict -> LayerDict) :
  _layers (LayerHandle.apply (Composition.add comp f given).2 m
                             (Composition.add comp f given).1)
  = _layers comp
      ++ [m (Composition.default_layer (length (_layers comp)) f given)]
  /\ (forall idx, length (_layers comp) <= idx ->
        LayerHandle.apply idx m comp = comp).
Proof.
  split.
  - unfold Composition.add, LayerHandle.apply. simpl.
    rewrite length_app. simpl.
    replace (length (_layers comp) + 1 - 1) with (length (_layers comp) + 0)
      by lia.
    by rewrite alter_app_r.
  - intros idx Hidx. unfold LayerHandle.apply.
    rewrite (alter_out_of_range _ _ _ Hidx). by destruct comp.
Qed.

Import Rational Samples.

Lemma handle_addresses_added_layer_witness :
  length (_layers (two_layers red_background)) <= 2
  /\ LayerHandle.apply 2 (LayerHandle.start (dec "5"))
                       (two_layers red_background)
     = two_layers red_background.
Proof.
  split; [simpl; lia|].
  apply (handle_addresses_added_layer (two_layers red_background)
           (webm "c.webm" "1") None (LayerHandle.start (dec "5"))).
  simpl. lia.
Defined.

End HandleFacts.

(* ===================================================================== *)
(** * Stacking order of layers that were only added *)
(* ===================================================================== *)

Module StackingFacts.
Section Facts.
Context `{JSNumber}.




End Facts.


Import Rational Samples.


End StackingFacts.

(* ===================================================================== *)
(** * Formats that cannot be composed *)
(* ===================================================================== *)

Module FormatFacts.
Section Facts.
Context `{JSNumber} (W : World).

Lemma png_inputs_throw (f : Foreground) inputIdx layerIdx c trim timing :
  format f = png_sequence ->
  Foreground.getFFmpegInputs W f inputIdx layerIdx c trim timing
  = Throw "Unknown foreground format: png_sequence".
Proof. intros E. unfold Foreground.getFFmpegInputs. by rewrite E. Qed.

Lemma input_loop_png (comp : Composition) (layers : list LayerDict) :
  Exists (fun l : LayerDict => format (fg l) = png_sequence) layers ->
  forall i st, is_ok (Composition.input_loop W comp i layers st) = false.
Proof.
  induction 1 as [l rest Hl | l rest Hex IH]; intros i st; simpl.
  - unfold Composition.input_step. by rewrite png_inputs_throw.
  - destruct (Composition.input_step W comp i l st) as [st'|m]; [|done].
    apply IH.
Qed.

End Facts.

(** X5.  A composition with a layer whose foreground has the format
    [png_sequence], which [Foreground.fromPngSequence] builds, cannot be
    built: [_buildFFmpegArgv] and [dryRun] throw. *)
Theorem png_sequence_layer_is_not_composable `{JSNumber} (W : World)
    (comp : Composition) (outPath : string) (encoder : EncoderProfile)
    (toPipe : bool) (streamFormat : option string) :
  Exists (fun l : LayerDict => format (fg l) = png_sequence)
         (_layers comp) ->
  is_ok (Composition._buildFFmpegArgv W comp outPath encoder toPipe
                                      streamFormat) = false
  /\ is_ok (Composition.dryRun W comp) = false.
Proof.
  intros Hex.
  assert (Hb : forall o e p sf,
             is_ok (Composition._buildFFmpegArgv W comp o e p sf) = false).
  { intros. unfold Composition._buildFFmpegArgv,
      Composition.argv_before_duration.
    destruct (Composition._getCanvasSize comp) as [[[cw ch] cf]|m];
      [|done].
    cbn [mbind result_bind rbind].
    pose proof (input_loop_png W comp (_layers comp) Hex 0) as Hl.
    match goal with
    | |- context [Composition.input_loop W comp 0 (_layers comp) ?s] =>
        specialize (Hl s);
        destruct (Composition.input_loop W comp 0 (_layers comp) s)
    end; [discriminate|done]. }
  split; [apply Hb|]. unfold Composition.dryRun.
  specialize (Hb "OUT.mp4" (EncoderProfile.h264 None None) false None).
  by destruct (Composition._buildFFmpegArgv W comp "OUT.mp4" _ false None).
Qed.

Import Rational Samples.

Lemma png_sequence_layer_is_not_composable_witness :
  is_ok (Composition.dryRun world
           (Composition.add (two_layers red_background)
              (Foreground.fromPngSequence "frames/%04d.png") None).1)
  = false.
Proof.
  apply (png_sequence_layer_is_not_composable world
    (Composition.add (two_layers red_background)
                     (Foreground.fromPngSequence "frames/%04d.png") None).1
    "OUT.mp4" (EncoderProfile.h264 None None) false None).
  simpl. do 2 apply Exists_cons_tl. by apply Exists_cons_hd.
Defined.

End FormatFacts.

(* ===================================================================== *)
(** * Numbering of the inputs *)
(* ===================================================================== *)

Module InputFacts.
Section Facts.
Context `{JSNumber} (W : World).

Lemma next_index_union (u m : gmap string nat) (top : nat) (K : string) :
  u !! K = Some top ->
  map_Forall (fun (_ : string) (v : nat) => v <= top) u ->
  map_Forall (fun (_ : string) (v : nat) => v <= top) m ->
  Composition.next_input_index (u ∪ m) = top + 1.
Proof.
  intros HK Hu Hm. unfold Composition.next_input_index. f_equal.
  assert (Hin : top ∈ (map_to_list (u ∪ m)).*2).
  { apply list_elem_of_fmap. exists (K, top). split; [done|].
    apply elem_of_map_to_list. by apply lookup_union_Some_l. }
  apply Nat.le_antisymm; [|by apply max_list_elem_of_le].
  assert (Hne : (map_to_list (u ∪ m)).*2 ≠ []).
  { intros E. rewrite E in Hin. by apply elem_of_nil in Hin. }
  pose proof (max_list_elem_of _ Hne) as Hmax.
  apply list_elem_of_fmap in Hmax as ([k v] & -> & Hkv).
  apply elem_of_map_to_list in Hkv.
  apply lookup_union_Some_raw in Hkv as [Hk | [_ Hk]].
  - by apply Hu in Hk.
  - by apply Hm in Hk.
Qed.

Lemma wiring_indices (f : Foreground) (idx layerIdx : nat)
    (c : MediaContext) (trim timing : list string) :
  Notions.wirable f = true ->
  exists args u key K,
    Foreground.getFFmpegInputs W f idx layerIdx c trim timing
    = Ok (args, u, key)
    /\ u !! K = Some (idx + Notions.input_count f - 1)
    /\ map_Forall (fun (_ : string) (v : nat) =>
                     idx <= v <= idx + Notions.input_count f - 1) u.
Proof.
  unfold Notions.wirable, Notions.input_count, Foreground.getFFmpegInputs.
  destruct (format f) eqn:Ef; intros Hw; try discriminate.
  - do 3 eexists. exists (Foreground.layer_key layerIdx).
    split; [reflexivity|]. split.
    + replace (idx + 1 - 1) with idx by lia. apply lookup_singleton_eq.
    + apply map_Forall_singleton. lia.
  - do 3 eexists. exists (Foreground.layer_key layerIdx).
    split; [reflexivity|]. split.
    + replace (idx + 1 - 1) with idx by lia. apply lookup_singleton_eq.
    + apply map_Forall_singleton. lia.
  - unfold Foreground._getBundleInputs. rewrite Hw. simpl.
    destruct (JS.truthy_str (audioPath f)).
    + do 3 eexists. exists (Foreground.layer_key layerIdx +:+ "_audio").
      split; [reflexivity|]. split.
      * replace (idx + 3 - 1) with (idx + 2) by lia. apply lookup_insert_eq.
      * apply map_Forall_insert_2; [lia|].
        apply map_Forall_insert_2; [lia|].
        apply map_Forall_singleton. lia.
    + do 3 eexists. exists (Foreground.layer_key layerIdx +:+ "_mask").
      split; [reflexivity|]. split.
      * replace (idx + 2 - 1) with (idx + 1) by lia. apply lookup_insert_eq.
      * apply map_Forall_insert_2; [lia|].
        apply map_Forall_singleton. lia.
  - do 3 eexists. exists (Foreground.layer_key layerIdx +:+ "_stacked").
    split; [reflexivity|]. split.
    + replace (idx + 1 - 1) with idx by lia. apply lookup_singleton_eq.
    + apply map_Forall_singleton. lia.
Qed.

Lemma input_count_positive (f : Foreground) : 0 < Notions.input_count f.
Proof.
  unfold Notions.input_count.
  destruct (format f); try lia. destruct (JS.truthy_str _); lia.
Qed.

Lemma input_step_indices (comp : Composition) (i : nat) (layer : LayerDict)
    (st : Composition.InputState) :
  Notions.wirable (fg layer) = true ->
  Notions.indices_below (Composition.inputIdx st) (Composition.inputMap st) ->
  exists st',
    Composition.input_step W comp i layer st = Ok st'
    /\ Composition.inputIdx st'
       = Composition.inputIdx st + Notions.input_count (fg layer)
    /\ Notions.indices_below (Composition.inputIdx st')
                             (Composition.inputMap st').
Proof.
  intros Hw Hb.
  destruct (wiring_indices (fg layer) (Composition.inputIdx st) i (ctx comp)
              (Composition.getSourceTrimArgs (fg layer)) [] Hw)
    as (args & u & key & K & E & HK & Hu).
  pose proof (input_count_positive (fg layer)) as Hp.
  unfold Composition.input_step. rewrite E. cbn [mbind result_bind rbind].
  eexists. split; [reflexivity|]. cbn [Composition.inputIdx Composition.inputMap].
  assert (Hn : Composition.next_input_index (u ∪ Composition.inputMap st)
               = Composition.inputIdx st + Notions.input_count (fg layer)).
  { rewrite (next_index_union u _ _ K HK); [lia| |].
    - eapply map_Forall_impl; [exact Hu|]. simpl. intros; lia.
    - eapply map_Forall_impl; [exact Hb|]. simpl. intros; lia. }
  split; [exact Hn|]. rewrite Hn. unfold Notions.indices_below.
  apply map_Forall_union_2.
  - eapply map_Forall_impl; [exact Hu|]. simpl. intros; lia.
  - eapply map_Forall_impl; [exact Hb|]. simpl. intros; lia.
Qed.

End Facts.

(** X6.  Inputs are numbered consecutively.  When every layer has a
    format that can be wired, the input loop succeeds, the next free
    index has advanced by the number of inputs of the layers (one for
    WebM, MOV and stacked video, two for an RGB+mask pair, three when the
    pair has an audio file), and every index of the input map is below
    it. *)
Theorem inputs_are_numbered_consecutively `{JSNumber} (W : World)
    (comp : Composition) (layers : list LayerDict) (i : nat)
    (st : Composition.InputState) :
  Forall (fun l : LayerDict => Notions.wirable (fg l) = true) layers ->
  Notions.indices_below (Composition.inputIdx st) (Composition.inputMap st) ->
  exists st',
    Composition.input_loop W comp i layers st = Ok st'
    /\ Composition.inputIdx st'
       = Composition.inputIdx st
         + sum_list ((fun l : LayerDict => Notions.input_count (fg l))
                       <$> layers)
    /\ Notions.indices_below (Composition.inputIdx st')
                             (Composition.inputMap st').
Proof.
  intros Hall. revert i st.
  induction Hall as [|l rest Hl Hrest IH]; intros i st Hb; simpl.
  - exists st. split; [done|]. split; [|done].
    lia.
  - destruct (input_step_indices W comp i l st Hl Hb)
      as (st1 & E1 & Hi1 & Hb1).
    destruct (IH (S i) st1 Hb1) as (st2 & E2 & Hi2 & Hb2).
    exists st2. rewrite E1. cbn [mbind result_bind rbind].
    split; [done|]. split; [|done].
    rewrite Hi2, Hi1. symmetry. apply Nat.add_assoc.
Qed.

Import Rational Samples.

Lemma inputs_are_numbered_consecutively_witness :
  exists st',
    Composition.input_loop world (two_layers red_background) 0
      (_layers (Composition.add (two_layers red_background) clip None).1)
      {| Composition.argv := []; Composition.inputMap := {[ "background" := 0 ]};
         Composition.inputIdx := 1; Composition.audioInputs := [] |}
    = Ok st'
    /\ Composition.inputIdx st' = 1 + (1 + (1 + (3 + 0)))
    /\ Notions.indices_below (Composition.inputIdx st')
                             (Composition.inputMap st').
Proof.
  apply (inputs_are_numbered_consecutively world (two_layers red_background)
           (_layers (Composition.add (two_layers red_background) clip None).1)
           0).
  - simpl. repeat constructor.
  - simpl. apply map_Forall_singleton. lia.
Defined.

End InputFacts.

(* ===================================================================== *)
(** * When a build succeeds, and the shape of what it builds *)
(* ===================================================================== *)

Module BuildFacts.
Section Facts.
Context `{JSNumber} (W : World).

Lemma inputs_ok (f : Foreground) (idx layerIdx : nat) (c : MediaContext)
    (trim timing : list string) :
  is_ok (Foreground.getFFmpegInputs W f idx layerIdx c trim timing)
  = Notions.wirable f.
Proof.
  unfold Foreground.getFFmpegInputs, Notions.wirable.
  destruct (format f); try reflexivity.
  unfold Foreground._getBundleInputs.
  destruct (JS.truthy_str (maskPath f)); simpl; [|reflexivity].
  by destruct (JS.truthy_str (audioPath f)).
Qed.

Lemma input_step_ok (comp : Composition) (i : nat) (layer : LayerDict)
    (st : Composition.InputState) :
  is_ok (Composition.input_step W comp i layer st)
  = Notions.wirable (fg layer).
Proof.
  unfold Composition.input_step.
  rewrite <- (inputs_ok (fg layer) (Composition.inputIdx st) i (ctx comp)
                (Composition.getSourceTrimArgs (fg layer)) []).
  by destruct (Foreground.getFFmpegInputs _ _ _ _ _ _ _) as [[[a u] k]|].
Qed.

Lemma input_loop_ok (comp : Composition) (layers : list LayerDict) :
  forall i st,
    is_ok (Composition.input_loop W comp i layers st)
    = forallb (fun l : LayerDict => Notions.wirable (fg l)) layers.
Proof.
  induction layers as [|l rest IH]; intros i st; simpl; [done|].
  pose proof (input_step_ok comp i l st) as Hs.
  destruct (Composition.input_step W comp i l st) as [st'|m];
    simpl in Hs; rewrite <- Hs; simpl; [apply IH|done].
Qed.

Lemma input_step_argv (comp : Composition) (i : nat) (layer : LayerDict)
    (st st' : Composition.InputState) :
  Composition.input_step W comp i layer st = Ok st' ->
  exists extra, Composition.argv st' = Composition.argv st ++ extra.
Proof.
  unfold Composition.input_step.
  destruct (Foreground.getFFmpegInputs _ _ _ _ _ _ _) as [[[a u] k]|];
    [|discriminate].
  cbn [mbind result_bind rbind]. intros [= <-]. by exists a.
Qed.

Lemma input_loop_argv (comp : Composition) (layers : list LayerDict) :
  forall i st st',
    Composition.input_loop W comp i layers st = Ok st' ->
    exists extra, Composition.argv st' = Composition.argv st ++ extra.
Proof.
  induction layers as [|l rest IH]; intros i st st'; simpl.
  - intros [= <-]. exists []. by rewrite app_nil_r.
  - destruct (Composition.input_step W comp i l st) as [st1|m] eqn:E1;
      [|discriminate].
    cbn [mbind result_bind rbind]. intros E2.
    destruct (input_step_argv _ _ _ _ _ E1) as [x1 H1].
    destruct (IH _ _ _ E2) as [x2 H2].
    exists (x1 ++ x2). by rewrite H2, H1, app_assoc.
Qed.

Lemma filters_ok (f : Foreground) (label : string) (m : gmap string nat)
    (alpha : bool) :
  Notions.wirable f = true ->
  exists ff, Foreground.getFFmpegFilters f label m alpha = Ok ff.
Proof.
  unfold Notions.wirable, Foreground.getFFmpegFilters.
  destruct (format f); intros Hw; try discriminate; by eexists.
Qed.

Lemma format_output_ok (f : Foreground) (originalIndex : nat)
    (m : gmap string nat) (alpha : bool) (ff : list string) :
  Notions.wirable f = true ->
  exists lo, Composition.format_output f originalIndex m alpha ff = Ok lo.
Proof.
  unfold Notions.wirable, Composition.format_output,
    Foreground.getCurrentInputLabel.
  destruct (bool_decide _); [|by eexists].
  destruct (format f); intros Hw; try discriminate;
    try destruct alpha; by eexists.
Qed.

(** The label that the overlay statement of the entry at position
    [layerIdx] of [count] writes. *)
Definition overlay_label (count layerIdx : nat) : string :=
  if bool_decide (layerIdx = count - 1) then "[out]"
  else "[tmp" +:+ Str.of_nat layerIdx +:+ "]".

Lemma overlay_step_shape (m : gmap string nat) (cw ch : num)
    (count layerIdx : nat) (entry : LayerDict * nat)
    (st : Composition.Chain) :
  Notions.wirable (fg entry.1) = true ->
  exists pre lay pos,
    Composition.overlay_step m cw ch count layerIdx entry st
    = Ok (st.1 ++ pre
            ++ [Composition.overlay_filter st.2 lay pos
                  (overlay_label count layerIdx)],
          if bool_decide (layerIdx = count - 1) then st.2
          else overlay_label count layerIdx).
Proof.
  destruct entry as [layer oi]. simpl. intros Hw.
  destruct (filters_ok (fg layer) ("layer_" +:+ Str.of_nat oi) m
              (alpha_enabled layer) Hw) as [ff Hff].
  destruct (format_output_ok (fg layer) oi m (alpha_enabled layer) ff Hw)
    as [lo Hlo].
  unfold Composition.overlay_step, overlay_label.
  rewrite Hff. cbn [mbind result_bind rbind].
  rewrite Hlo. cbn [mbind result_bind rbind].
  cbv zeta.
  exists (ff ++ Composition._getLayerTransformationFilters layer oi lo cw ch),
    (if bool_decide
          (0 < length (Composition._getLayerTransformationFilters
                         layer oi lo cw ch))
     then "[layer_" +:+ Str.of_nat oi +:+ "_final]" else lo),
    (Composition._calculateOverlayPosition layer cw ch).
  destruct (bool_decide (layerIdx = count - 1));
    by rewrite <- !app_assoc.
Qed.

Lemma overlay_loop_shape (m : gmap string nat) (cw ch : num) (count : nat)
    (entries : list (LayerDict * nat)) :
  Forall (fun e : LayerDict * nat => Notions.wirable (fg e.1) = true)
         entries ->
  forall layerIdx st,
    entries <> [] ->
    count = layerIdx + length entries ->
    exists st' pre cur lay pos,
      Composition.overlay_loop m cw ch count layerIdx entries st = Ok st'
      /\ st'.1 = st.1 ++ pre
                   ++ [Composition.overlay_filter cur lay pos "[out]"].
Proof.
  induction 1 as [|e rest He Hrest IH]; intros layerIdx st Hne Hc; [done|].
  destruct (overlay_step_shape m cw ch count layerIdx e st He)
    as (pre & lay & pos & Hstep).
  cbn [Composition.overlay_loop]. rewrite Hstep.
  cbn [mbind result_bind rbind].
  destruct rest as [|e' rest'].
  - unfold overlay_label. simpl in Hc.
    rewrite bool_decide_eq_true_2 by lia.
    cbn [Composition.overlay_loop].
    eexists _, pre, st.2, lay, pos. split; reflexivity.
  - match goal with
    | |- context [Composition.overlay_loop m cw ch count (S layerIdx)
                    (e' :: rest') ?s] =>
        destruct (IH (S layerIdx) s) as (st' & pre' & cur & lay' & pos'
                                         & Hl & Hs);
          [done | simpl in *; lia |]
    end.
    exists st', (pre ++ [Composition.overlay_filter st.2 lay pos
                           (overlay_label count layerIdx)] ++ pre'),
      cur, lay', pos'.
    split; [exact Hl|]. rewrite Hs. cbn [fst].
    by rewrite <- !app_assoc.
Qed.

Lemma sorted_wirable (comp : Composition) :
  forallb (fun l : LayerDict => Notions.wirable (fg l)) (_layers comp)
  = true ->
  Forall (fun e : LayerDict * nat => Notions.wirable (fg e.1) = true)
         (Composition.sortedLayers comp).
Proof.
  intros Hall. unfold Composition.sortedLayers.
  rewrite (OrderFacts.sort_by_z_perm _).
  apply Forall_forall. intros e He.
  unfold Composition.with_original_index in He.
  apply elem_of_lookup_imap_1 in He as (i & l & -> & Hl). simpl.
  rewrite forallb_forall in Hall. apply Hall.
  apply list_elem_of_In. by apply list_elem_of_lookup_2 with i.
Qed.

Lemma sorted_length (comp : Composition) :
  length (Composition.sortedLayers comp) = length (_layers comp).
Proof.
  unfold Composition.sortedLayers.
  rewrite (OrderFacts.sort_by_z_perm _).
  unfold Composition.with_original_index. apply length_imap.
Qed.

Lemma video_parts_shape (comp : Composition) (m : gmap string nat)
    (cw ch : num) :
  forallb (fun l : LayerDict => Notions.wirable (fg l)) (_layers comp)
  = true ->
  exists parts,
    Composition.video_filter_parts comp m cw ch = Ok parts
    /\ (_layers comp = [] -> parts = [])
    /\ (_layers comp <> [] ->
        exists pre cur lay pos,
          parts = pre ++ [Composition.overlay_filter cur lay pos "[out]"]).
Proof.
  intros Hall. unfold Composition.video_filter_parts.
  pose proof (sorted_wirable comp Hall) as Hs.
  pose proof (sorted_length comp) as Hlen.
  destruct (Composition.sortedLayers comp) as [|e rest] eqn:Es.
  - cbn [Composition.overlay_loop mbind result_bind rbind fst].
    eexists. split; [reflexivity|]. split; [done|].
    intros Hne. destruct (_layers comp); [done|discriminate].
  - match goal with
    | |- context [Composition.overlay_loop m cw ch ?c 0 (e :: rest) ?s] =>
        destruct (overlay_loop_shape m cw ch c (e :: rest) Hs 0 s)
          as (st' & pre & cur & lay & pos & Hl & Hp); [done|done|]
    end.
    rewrite Hl. cbn [mbind result_bind rbind].
    eexists. split; [reflexivity|]. split.
    + intros E. rewrite E in Hlen. discriminate.
    + intros _. exists pre, cur, lay, pos. by rewrite Hp.
Qed.

Lemma encoder_args_split (e : EncoderProfile) (outPath : string) :
  exists a, EncoderProfile.args e outPath = a ++ [outPath]
            /\ EncoderProfile.args e "TEMP_OUTPUT" = a ++ ["TEMP_OUTPUT"].
Proof. unfold EncoderProfile.args. by eexists. Qed.

Lemma take_all_but_last {A} (a : list A) (x : A) :
  take (length (a ++ [x]) - 1) (a ++ [x]) = a.
Proof.
  rewrite length_app. simpl.
  replace (length a + 1 - 1) with (length a) by lia.
  by rewrite take_app_length.
Qed.

Lemma after_duration_ends_in_path (e : EncoderProfile) (outPath : string)
    (toPipe : bool) (sf : option string) :
  outPath <> "" ->
  exists pre,
    Composition.argv_after_duration e outPath toPipe sf = pre ++ [outPath].
Proof.
  intros Hne. unfold Composition.argv_after_duration.
  destruct (encoder_args_split e outPath) as (a & -> & _).
  rewrite take_all_but_last, last_snoc. simpl.
  destruct outPath; [done|].
  eexists. by rewrite app_assoc.
Qed.

End Facts.

(** X7.  Which builds succeed.  [_buildFFmpegArgv], and with it
    [dryRun], returns exactly when the canvas can be determined and every
    layer has a format that can be wired; otherwise it throws. *)
Theorem build_succeeds_exactly_when `{JSNumber} (W : World)
    (comp : Composition) (outPath : string) (encoder : EncoderProfile)
    (toPipe : bool) (streamFormat : option string) :
  is_ok (Composition._buildFFmpegArgv W comp outPath encoder toPipe
                                      streamFormat)
  = is_ok (Composition._getCanvasSize comp)
    && forallb (fun l : LayerDict => Notions.wirable (fg l)) (_layers comp)
  /\ is_ok (Composition.dryRun W comp)
     = is_ok (Composition._getCanvasSize comp)
       && forallb (fun l : LayerDict => Notions.wirable (fg l))
                  (_layers comp).
Proof.
  assert (Hb : forall o e p sf,
    is_ok (Composition._buildFFmpegArgv W comp o e p sf)
    = is_ok (Composition._getCanvasSize comp)
      && forallb (fun l : LayerDict => Notions.wirable (fg l))
                 (_layers comp)).
  { intros. unfold Composition._buildFFmpegArgv,
      Composition.argv_before_duration.
    destruct (Composition._getCanvasSize comp) as [[[cw ch] cf]|msg];
      [|done].
    cbn [mbind result_bind rbind is_ok andb].
    match goal with
    | |- context [Composition.input_loop W comp 0 (_layers comp) ?s] =>
        pose proof (input_loop_ok W comp (_layers comp) 0 s) as Hl;
        destruct (Composition.input_loop W comp 0 (_layers comp) s)
          as [st|msg]
    end; simpl in Hl; rewrite <- Hl; [|done].
    cbn [mbind result_bind rbind].
    destruct (video_parts_shape comp (Composition.inputMap st) cw ch
                (eq_sym Hl)) as (parts & -> & _).
    cbn [mbind result_bind rbind].
    by destruct (Composition.audio_filters comp _). }
  split; [apply Hb|]. unfold Composition.dryRun.
  rewrite <- (Hb "OUT.mp4" (EncoderProfile.h264 None None) false None).
  by destruct (Composition._buildFFmpegArgv W comp "OUT.mp4" _ false None).
Qed.

(** X8.  The video statements of the filter graph.  When every layer can
    be wired, the statements are built; there is none for a composition
    without layers, and otherwise the last one is the overlay statement
    that writes [[out]], the label that the video mapping names. *)
Theorem video_graph_ends_in_out `{JSNumber} (comp : Composition)
    (inputMap : gmap string nat) (canvasWidth canvasHeight : num) :
  forallb (fun l : LayerDict => Notions.wirable (fg l)) (_layers comp)
  = true ->
  exists parts,
    Composition.video_filter_parts comp inputMap canvasWidth canvasHeight
    = Ok parts
    /\ (_layers comp = [] -> parts = [])
    /\ (_layers comp <> [] ->
        exists pre cur lay pos,
          parts = pre ++ [Composition.overlay_filter cur lay pos "[out]"]).
Proof. apply video_parts_shape. Qed.

(** X9.  The ends of the argument vector.  When the canvas is determined
    and every layer can be wired, the vector that [_buildFFmpegArgv]
    returns starts with the ffmpeg binary of the context and [-y], and,
    for an output path that is not empty, ends with that path. *)
Theorem argv_starts_with_binary_and_ends_with_path `{JSNumber} (W : World)
    (comp : Composition) (outPath : string) (encoder : EncoderProfile)
    (toPipe : bool) (streamFormat : option string) :
  is_ok (Composition._getCanvasSize comp) = true ->
  forallb (fun l : LayerDict => Notions.wirable (fg l)) (_layers comp)
  = true ->
  outPath <> "" ->
  exists middle,
    Composition._buildFFmpegArgv W comp outPath encoder toPipe streamFormat
    = Ok ([ffmpeg (ctx comp); "-y"] ++ middle ++ [outPath]).
Proof.
  intros Hc Hall Hne.
  unfold Composition._buildFFmpegArgv, Composition.argv_before_duration.
  destruct (Composition._getCanvasSize comp) as [[[cw ch] cf]|msg];
    [|discriminate].
  cbn [mbind result_bind rbind].
  match goal with
  | |- context [Composition.input_loop W comp 0 (_layers comp) ?s] =>
      pose proof (input_loop_ok W comp (_layers comp) 0 s) as Hl;
      pose proof (input_loop_argv W comp (_layers comp) 0 s) as Ha;
      destruct (Composition.input_loop W comp 0 (_layers comp) s)
        as [st|msg]
  end; rewrite Hall in Hl; [|discriminate].
  destruct (Ha st eq_refl) as [extra Hargv]. clear Ha Hl.
  cbn [mbind result_bind rbind].
  destruct (video_parts_shape comp (Composition.inputMap st) cw ch Hall)
    as (parts & -> & _).
  cbn [mbind result_bind rbind].
  destruct (Composition.audio_filters comp _) as [afp ama].
  destruct (after_duration_ends_in_path encoder outPath toPipe streamFormat
              Hne) as [pre ->].
  cbn [mbind result_bind rbind fst]. rewrite Hargv. cbn [Composition.argv].
  match goal with
  | |- exists middle,
         Ok ((((?h ++ ?a) ++ ?b) ++ ?c) ++ ?d ++ ?e ++ [?o]) = _ =>
      exists (a ++ b ++ c ++ d ++ e)
  end.
  f_equal. by rewrite <- !app_assoc.
Qed.

Import Rational Samples.

Lemma video_graph_ends_in_out_witness :
  exists parts,
    Composition.video_filter_parts (two_layers red_background)
      {[ "background" := 0 ]} (dec "1920") (dec "1080")
    = Ok parts
    /\ (_layers (two_layers red_background) = [] -> parts = [])
    /\ (_layers (two_layers red_background) <> [] ->
        exists pre cur lay pos,
          parts = pre ++ [Composition.overlay_filter cur lay pos "[out]"]).
Proof.
  apply (video_graph_ends_in_out (two_layers red_background)).
  reflexivity.
Defined.

Lemma argv_starts_with_binary_and_ends_with_path_witness :
  exists middle,
    Composition._buildFFmpegArgv world (two_layers red_background)
      "result.mp4" (EncoderProfile.h264 None None) false None
    = Ok (["ffmpeg"; "-y"] ++ middle ++ ["result.mp4"]).
Proof.
  apply (argv_starts_with_binary_and_ends_with_path world
           (two_layers red_background) "result.mp4"
           (EncoderProfile.h264 None None) false None).
  - reflexivity.
  - reflexivity.
  - discriminate.
Defined.

End BuildFacts.

(* ===================================================================== *)
(** * The audio branches *)
(* ===================================================================== *)

Module MixFacts.
Section Facts.
Context `{JSNumber} (W : World).

Lemma input_step_audio_off (comp : Composition) (i : nat)
    (layer : LayerDict) (st st' : Composition.InputState) :
  audio_enabled layer = false ->
  Composition.input_step W comp i layer st = Ok st' ->
  Composition.audioInputs st' = Composition.audioInputs st.
Proof.
  intros Hoff. unfold Composition.input_step.
  destruct (Foreground.getFFmpegInputs _ _ _ _ _ _ _) as [[[a u] k]|];
    [|discriminate].
  cbn [mbind result_bind rbind]. intros [= <-].
  cbn [Composition.audioInputs]. rewrite Hoff.
  destruct k; simpl; by rewrite app_nil_r.
Qed.

Lemma input_loop_audio_off (comp : Composition) (layers : list LayerDict) :
  forallb (fun l : LayerDict => negb (audio_enabled l)) layers = true ->
  forall i st st',
    Composition.input_loop W comp i layers st = Ok st' ->
    Composition.audioInputs st' = Composition.audioInputs st.
Proof.
  induction layers as [|l rest IH]; simpl; intros Hall i st st'.
  - by intros [= <-].
  - apply andb_true_iff in Hall as [Hl Hrest].
    apply negb_true_iff in Hl.
    destruct (Composition.input_step W comp i l st) as [st1|m] eqn:E1;
      [|discriminate].
    cbn [mbind result_bind rbind]. intros E2.
    rewrite (IH Hrest _ _ _ E2).
    exact (input_step_audio_off comp i l st st1 Hl E1).
Qed.


End Facts.

(** X10.  A composition without sound.  When no layer has its audio
    enabled and the background supplies no audio source, no audio source
    is collected and the arguments pushed before the duration block end
    with [-an]. *)
Theorem silent_composition_disables_audio `{JSNumber} (W : World)
    (comp : Composition) :
  is_ok (Composition._getCanvasSize comp) = true ->
  forallb (fun l : LayerDict => Notions.wirable (fg l)) (_layers comp)
  = true ->
  forallb (fun l : LayerDict => negb (audio_enabled l)) (_layers comp)
  = true ->
  Notions.silent_background comp ->
  exists pre,
    Composition.argv_before_duration W comp = Ok (pre ++ ["-an"], []).
Proof.
  intros Hc Hall Hoff Hbg.
  unfold Composition.argv_before_duration.
  destruct (Composition._getCanvasSize comp) as [[[cw ch] cf]|msg];
    [|discriminate].
  cbn [mbind result_bind rbind].
  match goal with
  | |- context [Composition.input_loop W comp 0 (_layers comp) ?s] =>
      pose proof (BuildFacts.input_loop_ok W comp (_layers comp) 0 s) as Hl;
      pose proof (input_loop_audio_off W comp (_layers comp) Hoff 0 s)
        as Ha;
      destruct (Composition.input_loop W comp 0 (_layers comp) s)
        as [st|msg]
  end; rewrite Hall in Hl; [|discriminate].
  specialize (Ha st eq_refl). cbn [Composition.audioInputs] in Ha.
  cbn [mbind result_bind rbind].
  destruct (BuildFacts.video_parts_shape comp (Composition.inputMap st)
              cw ch Hall) as (parts & -> & _).
  cbn [mbind result_bind rbind].
  assert (Hb : Composition.background_audio comp (Composition.inputMap st)
               = []).
  { unfold Composition.background_audio.
    destruct (_background comp) as [bg|] eqn:Eb; [|done].
    by rewrite (Hbg bg Eb). }
  rewrite Ha, Hb. cbn [app Composition.audio_filters].
  match goal with
  | |- exists pre, Ok (?a ++ ?b ++ ?c ++ ["-an"], []) = _ =>
      exists (a ++ b ++ c)
  end.
  by rewrite <- !app_assoc.
Qed.

(** X11.  In the branch for a single audio source, a background source
    is never delayed: its statement is the volume change when its volume
    is not 1, and it is mapped directly otherwise, whatever the start
    times of the layers are. *)
Theorem lone_background_source_is_not_delayed `{JSNumber}
    (comp : Composition) (a : AudioInput) :
  type a = type_background ->
  Composition.audio_filters comp [a]
  = if JS.neqb (volume a) JS.one
    then ([("[" +:+ input a +:+ "]")
             +:+ ("volume=" +:+ num_toString (volume a))
             +:+ "[audio_out]"],
          ["-map"; "[audio_out]"])
    else ([], ["-map"; input a +:+ "?"]).
Proof.
  intros Ht. cbn [Composition.audio_filters].
  unfold Composition.single_audio. rewrite Ht.
  assert (Hz : JS.gtb JS.zero JS.zero = false)
    by apply num_ltb_irrefl.
  rewrite Hz. cbn [orb].
  by destruct (JS.neqb (volume a) JS.one).
Qed.


Import Rational Samples.

(** Both layers of the sample with their audio switched off. *)
Definition muted : Composition :=
  LayerHandle.apply 1 (LayerHandle.audio false (dec "1"))
    (LayerHandle.apply 0 (LayerHandle.audio false (dec "1"))
       (two_layers red_background)).

Lemma silent_composition_disables_audio_witness :
  exists pre,
    Composition.argv_before_duration world muted = Ok (pre ++ ["-an"], []).
Proof.
  apply (silent_composition_disables_audio world muted).
  - reflexivity.
  - reflexivity.
  - reflexivity.
  - intros bg [= <-]. reflexivity.
Defined.

Lemma lone_background_source_is_not_delayed_witness :
  (Composition.audio_filters delayed_mix
     [ {| input := "0:a"; volume := dec "1"; type := type_background;
          layerIndex := None |} ]).2
  = ["-map"; "0:a?"].
Proof.
  rewrite (lone_background_source_is_not_delayed delayed_mix
             {| input := "0:a"; volume := dec "1"; type := type_background;
                layerIndex := None |} eq_refl).
  reflexivity.
Defined.


End MixFacts.

(* ===================================================================== *)
(** * Probing *)
(* ===================================================================== *)

Module ProbeFacts.

(** X13.  A failed probe does not fail the factory.  When ffprobe cannot
    be run or its output cannot be parsed, [Foreground.fromWebmVp9],
    called with a context, still returns a foreground with the given
    path; it holds the fallback info, so it reports no duration and no
    audio stream, and asks for no decoder. *)
Theorem failed_probe_degrades `{JSNumber} (W : World) (path : string)
    (c c' : MediaContext) :
  run_ffprobe W c path = None ->
  exists f : Foreground,
    Foreground.fromWebmVp9 W path (Some c) = Ok f
    /\ primaryPath f = path
    /\ _videoInfo f = Some (VideoSource._fallbackInfo path)
    /\ Foreground.getDuration f = None
    /\ VideoSource.hasAudioStreams (_videoInfo f) = false
    /\ VideoSource.getDecoderArgs (_videoInfo f) c' = [].
Proof.
  intros Hp.
  exists (Foreground.probeAndStore W (Foreground.new webm_vp9 path None None
                                                     None) path c).
  split; [reflexivity|].
  set (f := Foreground.probeAndStore W _ path c).
  assert (Hi : _videoInfo f = Some (VideoSource._fallbackInfo path)).
  { unfold f, Foreground.probeAndStore,
      VideoSource.probeAndStore, VideoSource._probeVideoInfo.
    simpl. by rewrite Hp. }
  split; [reflexivity|]. split; [exact Hi|].
  unfold Foreground.getDuration. rewrite Hi. by repeat split.
Qed.

(** X14.  The duration that [getDuration] reports is never [NaN]: a
    stored duration that does not parse as a number is reported as
    absent. *)
Theorem reported_duration_is_a_number `{JSNumber}
    (info : option VideoInfo) (d : num) :
  VideoSource.getDuration info = Some d -> num_isNaN d = false.
Proof.
  unfold VideoSource.getDuration.
  destruct info as [vi|]; [|discriminate].
  destruct (truthy_duration (duration vi)); [|discriminate].
  destruct (duration vi) as [[s|n]|]; [| |discriminate].
  - destruct (num_isNaN (num_parseFloat s)) eqn:E; [discriminate|].
    by intros [= <-].
  - destruct (num_isNaN n) eqn:E; [discriminate|]. by intros [= <-].
Qed.

Import Rational Samples.

Lemma failed_probe_degrades_witness :
  exists f : Foreground,
    Foreground.fromWebmVp9 world "a.webm" (Some context) = Ok f
    /\ Foreground.getDuration f = None.
Proof.
  destruct (failed_probe_degrades world "a.webm" context context eq_refl)
    as (f & Hf & _ & _ & Hd & _).
  by exists f.
Defined.

Lemma reported_duration_is_a_number_witness :
  num_isNaN (dec "12.5") = false.
Proof.
  apply (reported_duration_is_a_number
           (Some (probed "color.mp4" "12.5" true)) (dec "12.5")).
  reflexivity.
Defined.

End ProbeFacts.

(* ===================================================================== *)
(** * Copies of a background *)
(* ===================================================================== *)

Module BackgroundFacts.

(** X15.  The copy that [audio()] returns never supplies audio.  For a
    video background the copy is built without the probed info, so it
    reports no audio stream and no duration; the other backgrounds have
    neither.  A composition over the copy therefore collects no
    background audio and takes no duration from its background, whatever
    [enabled] and [volume] are. *)
Theorem audio_copy_supplies_no_audio `{JSNumber} (bg : BaseBackground)
    (enabled : bool) (volume : num) (comp : Composition)
    (inputMap : gmap string nat) :
  _background comp = Some (Background.audio bg enabled volume) ->
  Background.hasAudio (Background.audio bg enabled volume) = false
  /\ Composition.background_audio comp inputMap = []
  /\ Composition.background_duration comp = None
  /\ (forall source trim info,
        variant bg = VideoBackground source trim info ->
        variant (Background.audio bg enabled volume)
        = VideoBackground source trim None).
Proof.
  intros Hc.
  assert (Hh : Background.hasAudio (Background.audio bg enabled volume)
               = false).
  { unfold Background.hasAudio, Background.audio.
    by destruct (variant bg). }
  split; [exact Hh|].
  unfold Composition.background_audio, Composition.background_duration.
  rewrite Hc, Hh, andb_false_r.
  split; [reflexivity|]. split.
  - unfold Background.controlsDuration, Background.getDuration,
      Background.audio.
    by destruct (variant bg).
  - intros source trim info Hv. unfold Background.audio. by rewrite Hv.
Qed.

(** X16.  [subclip] on a video background keeps the probed info, so the
    copy still reports the duration and the audio streams of the whole
    source, and its input arguments are the decoder's followed by [-ss],
    the start, [-t], the end less the start, [-i] and the source. *)
Theorem background_subclip_keeps_probe `{JSNumber} (bg : BaseBackground)
    (source : string) (trim : option (num * option num))
    (info : option VideoInfo) (start end_ cw ch cf : num)
    (c : MediaContext) :
  variant bg = VideoBackground source trim info ->
  Background.getDuration (Background.subclip bg start (Some end_))
  = Background.getDuration bg
  /\ Background.hasAudio (Background.subclip bg start (Some end_))
     = Background.hasAudio bg
  /\ Background.getFFmpegInputArgs
       (Background.subclip bg start (Some end_)) cw ch cf c
     = VideoSource.getDecoderArgs info c
         ++ ["-ss"; num_toString start; "-t";
             num_toString (num_sub end_ start)]
         ++ ["-i"; source].
Proof.
  intros Hv.
  unfold Background.getDuration, Background.hasAudio,
    Background.getFFmpegInputArgs, Background.subclip.
  rewrite Hv. by repeat split.
Qed.

Import Rational Samples.

Lemma audio_copy_supplies_no_audio_witness :
  Background.hasAudio video_background = true
  /\ Background.hasAudio (Background.audio video_background true (dec "1"))
     = false.
Proof.
  split; [reflexivity|].
  apply (audio_copy_supplies_no_audio video_background true (dec "1")
           (Composition.construct
              (Some (Background.audio video_background true (dec "1")))
              context)
           ∅ eq_refl).
Defined.

Lemma background_subclip_keeps_probe_witness :
  Background.getDuration
    (Background.subclip video_background (dec "2") (Some (dec "5")))
  = Background.getDuration video_background.
Proof.
  apply (background_subclip_keeps_probe video_background "bg.mp4" None
           (Some (probed "bg.mp4" "20" true)) (dec "2") (dec "5")
           (dec "1920") (dec "1080") (dec "30") context eq_refl).
Defined.

End BackgroundFacts.

(* ===================================================================== *)
(** * Encoders *)
(* ===================================================================== *)

Module EncoderFacts.

(** X17.  [toFFmpegArgs] is [args] without the output path: for every
    profile and path, [args(outPath)] is [toFFmpegArgs()] followed by the
    path. *)
Theorem args_is_toFFmpegArgs_and_path `{JSNumber} (e : EncoderProfile)
    (outPath : string) :
  EncoderProfile.args e outPath = Encoders.toFFmpegArgs e ++ [outPath].
Proof.
  unfold Encoders.toFFmpegArgs.
  destruct (BuildFacts.encoder_args_split e outPath) as (a & -> & ->).
  by rewrite BuildFacts.take_all_but_last.
Qed.

(** X18.  A quality of 0 cannot be requested: [crf] is read with [||], so
    the profiles built with a [crf] of 0 print the default of their
    codec, as the profiles built without a [crf] do. *)
Theorem crf_zero_prints_the_default `{JSNumber} (preset : option string)
    (outPath : string) :
  EncoderProfile.args (EncoderProfile.h264 (Some JS.zero) preset) outPath
  = EncoderProfile.args (EncoderProfile.h264 None preset) outPath
  /\ EncoderProfile.args (Encoders.vp9 (Some JS.zero)) outPath
     = EncoderProfile.args (Encoders.vp9 None) outPath
  /\ EncoderProfile.args (Encoders.transparentWebm (Some JS.zero)) outPath
     = EncoderProfile.args (Encoders.transparentWebm None) outPath.
Proof.
  pose proof DurationFacts.zero_falsy as Hz.
  unfold EncoderProfile.args, EncoderProfile.crf_or, EncoderProfile.h264,
    Encoders.vp9, Encoders.transparentWebm.
  simpl. rewrite Hz.
  repeat split; repeat f_equal;
    match goal with
    | |- context [JS.truthy ?x] => by destruct (JS.truthy x)
    end.
Qed.

End EncoderFacts.

(* ===================================================================== *)
(** * More about foregrounds *)
(* ===================================================================== *)

Module SourceFacts.
Section Facts.
Context `{JSNumber} (W : World).

Lemma lower_ascii_dot (a : ascii) :
  Str.lower_ascii a = "."%char -> a = "."%char.
Proof.
  destruct a as [[] [] [] [] [] [] [] []]; vm_compute; congruence.
Qed.

Lemma no_dot_no_extension (s t : string) :
  Spec.dot_free s = true -> Str.lower s <> String "." t.
Proof.
  destruct s as [|a r]; simpl; [discriminate|].
  intros Hd [= Ha _]. apply lower_ascii_dot in Ha. subst a.
  by vm_compute in Hd.
Qed.

Lemma startsWith_app (p s : string) : Str.startsWith p (p +:+ s) = true.
Proof.
  unfold Str.startsWith. induction p as [|a p IH].
  - by destruct s.
  - rewrite StrFacts.app_cons. simpl.
    by destruct (ascii_dec a a).
Qed.

(** [fromFile] with the extension [ext] of its path, and the factory it
    calls with the context it took. *)
Lemma fromFile_of_extension (path : string) (c : option MediaContext) :
  Foreground.fromFile W path c
  = (context ← ctx_or_default W c;
     let extension := Foreground._getFileExtension W path in
     if String.eqb extension ".webm" then
       Foreground.fromWebmVp9 W path (Some context)
     else if String.eqb extension ".mov" then
       Foreground.fromMovProres W path (Some context)
     else if String.eqb extension ".zip" then
       Foreground.fromProBundleZip W path
     else if String.eqb extension ".mp4" then
       Foreground.fromStackedVideo W path (Some context)
     else
       Throw (Foreground.unknown_format_message path extension)).
Proof. reflexivity. Qed.

End Facts.

(** X19.  The foreground that [subclip] returns has no probed info, so it
    reports no duration, and a composition whose only layer it is has no
    foreground duration; the input loop trims it with [-ss] and the
    start and, when the end is given, [-t] and the end less the start.
    The composition is the one the constructor builds for any background
    and context. *)
Theorem subclip_forgets_probed_duration `{JSNumber}
    (f : Foreground) (start end_ : num) (bg : option BaseBackground)
    (context : MediaContext) (given : option string) :
  Foreground.getDuration (Foreground.subclip f start (Some end_)) = None
  /\ Composition._getLongestForegroundDuration
       (Composition.add (Composition.construct bg context)
          (Foreground.subclip f start (Some end_)) given).1
     = None
  /\ Composition.getSourceTrimArgs (Foreground.subclip f start (Some end_))
     = ["-ss"; num_toString start; "-t"; num_toString (num_sub end_ start)]
  /\ Composition.getSourceTrimArgs (Foreground.subclip f start None)
     = ["-ss"; num_toString start].
Proof.
  split; [reflexivity|]. split; [|by split].
  unfold Composition._getLongestForegroundDuration. simpl.
  unfold Composition.longest_step. simpl.
  assert (Hz : JS.gtb JS.zero JS.zero = false) by apply num_ltb_irrefl.
  by rewrite Hz.
Qed.

(** X20.  [fromFile] ignores the case of the extension.  For a path that
    is not a URL and ends in a dot and a suffix without a dot, the
    factory is chosen by the suffix in lower case: when [.suffix] in
    lower case is [.webm], [.mov] or [.mp4], the call is the call of
    [fromWebmVp9], [fromMovProres] or [fromStackedVideo] with the same
    path and context argument, the error of a default context that
    cannot be created included.  For a suffix of ASCII characters the
    lower case is that of the letters A to Z. *)
Theorem fromFile_ignores_case_of_extension `{JSNumber} (W : World)
    (stem e : string) (c : option MediaContext) :
  Spec.is_url (stem +:+ "." +:+ e) = false ->
  Spec.dot_free e = true ->
  let path := stem +:+ "." +:+ e in
  (toLowerCase W ("." +:+ e) = ".webm" ->
   Foreground.fromFile W path c = Foreground.fromWebmVp9 W path c)
  /\ (toLowerCase W ("." +:+ e) = ".mov" ->
      Foreground.fromFile W path c = Foreground.fromMovProres W path c)
  /\ (toLowerCase W ("." +:+ e) = ".mp4" ->
      Foreground.fromFile W path c = Foreground.fromStackedVideo W path c)
  /\ (Str.is_ascii e = true ->
      toLowerCase W ("." +:+ e) = "." +:+ Str.lower e).
Proof.
  intros Hu He path.
  pose proof (ForegroundFacts.getFileExtension_of_file W stem e Hu He)
    as Hext.
  subst path.
  repeat split; intros Hl.
  - rewrite fromFile_of_extension, Hext, Hl.
    unfold Foreground.fromWebmVp9. by destruct (ctx_or_default W c).
  - rewrite fromFile_of_extension, Hext, Hl.
    unfold Foreground.fromMovProres. by destruct (ctx_or_default W c).
  - rewrite fromFile_of_extension, Hext, Hl.
    unfold Foreground.fromStackedVideo. by destruct (ctx_or_default W c).
  - by rewrite ForegroundFacts.toLowerCase_ascii.
Qed.

(** X21.  A path of ASCII characters without a dot that is not a URL has
    no supported extension: once [fromFile] has its context it throws
    the unknown-format error, in which the detected extension is the
    whole path in lower case; without a context to take it throws the
    error of [defaultContext()]. *)
Theorem fromFile_rejects_path_without_dot `{JSNumber} (W : World)
    (path : string) (c : option MediaContext) :
  Spec.is_url path = false ->
  Spec.dot_free path = true ->
  Str.is_ascii path = true ->
  Foreground.fromFile W path c
  = (context ← ctx_or_default W c;
     Throw (Foreground.unknown_format_message path (Str.lower path))).
Proof.
  intros Hu Hd Ha.
  assert (Hext : Foreground._getFileExtension W path = Str.lower path).
  { unfold Foreground._getFileExtension, Foreground.from_last_dot,
      Str.startsWith.
    unfold Spec.is_url in Hu.
    rewrite Hu, (ForegroundFacts.dot_free_lastIndexOf path Hd).
    by apply ForegroundFacts.toLowerCase_ascii. }
  rewrite fromFile_of_extension. cbv zeta. rewrite Hext.
  assert (Hne : forall t, String.eqb (Str.lower path) (String "." t)
                          = false).
  { intros t. apply String.eqb_neq. by apply no_dot_no_extension. }
  by rewrite !Hne.
Qed.

(** X22.  The bundle archive.  [_handleZipBundle] returns exactly when
    the archive can be extracted, the extracted directory holds
    [color.mp4] and [alpha.mp4], and the default context can be created
    (the method calls [fromVideoAndMask] without a context); the
    foreground it returns is the RGB+mask pair of these two files,
    probed with the default context, with [audio.m4a] as its audio when
    that file exists and with no audio otherwise.  Every error it throws
    starts with [Failed to extract pro bundle ZIP: ]: the archive cannot
    be extracted, or one of the two files is missing, or both are there
    and the error is that of [defaultContext()], rethrown with the
    prefix. *)
Theorem zip_bundle_needs_color_and_alpha `{JSNumber} (W : World)
    (c : MediaContext) (zipPath : string) :
  match Foreground._handleZipBundle W c zipPath with
  | Ok f =>
      exists dir context,
        extract_zip W c zipPath = Ok dir
        /\ existsSync W (path_join W dir "color.mp4") = true
        /\ existsSync W (path_join W dir "alpha.mp4") = true
        /\ defaultContext W = Ok context
        /\ format f = pro_bundle
        /\ primaryPath f = path_join W dir "color.mp4"
        /\ maskPath f = Some (path_join W dir "alpha.mp4")
        /\ audioPath f
           = (if existsSync W (path_join W dir "audio.m4a")
              then Some (path_join W dir "audio.m4a") else None)
        /\ _videoInfo f
           = Some (VideoSource.probeAndStore W
                     (path_join W dir "color.mp4") context)
  | Throw msg =>
      Str.startsWith "Failed to extract pro bundle ZIP: " msg = true
      /\ (is_ok (extract_zip W c zipPath) = false
          \/ exists dir,
               extract_zip W c zipPath = Ok dir
               /\ (existsSync W (path_join W dir "color.mp4") = false
                   \/ existsSync W (path_join W dir "alpha.mp4") = false
                   \/ existsSync W (path_join W dir "color.mp4") = true
                      /\ existsSync W (path_join W dir "alpha.mp4") = true
                      /\ exists e,
                           defaultContext W = Throw e
                           /\ msg = "Failed to extract pro bundle ZIP: "
                                      +:+ "Error: " +:+ e))
  end.
Proof.
  unfold Foreground._handleZipBundle.
  destruct (extract_zip W c zipPath) as [dir|e].
  - destruct (existsSync W (path_join W dir "color.mp4")) eqn:Ec; simpl.
    + destruct (existsSync W (path_join W dir "alpha.mp4")) eqn:Ea; simpl.
      * unfold Foreground.fromVideoAndMask, ctx_or_default.
        destruct (defaultContext W) as [context|e] eqn:Ed;
          cbn [mbind result_bind rbind].
        -- destruct (existsSync W (path_join W dir "audio.m4a")) eqn:Eau;
             exists dir, context; rewrite ?Ec, ?Ea, ?Eau; by repeat split.
        -- assert (Hm : Str.startsWith "Failed to extract pro bundle ZIP: "
                          ("Failed to extract pro bundle ZIP: "
                             +:+ "Error: " +:+ e) = true)
             by apply startsWith_app.
           destruct (existsSync W (path_join W dir "audio.m4a"));
             (split; [exact Hm|]); right; exists dir; (split; [done|]);
             right; right; rewrite ?Ec, ?Ea; repeat split; by exists e.
      * split; [first [reflexivity | apply startsWith_app]|].
        right. exists dir. split; [done|by right; left].
    + split; [first [reflexivity | apply startsWith_app]|].
      right. exists dir. split; [done|by left].
  - split; [first [reflexivity | apply startsWith_app]|]. by left.
Qed.

Import Rational Samples.

Lemma fromFile_ignores_case_of_extension_witness :
  Foreground.fromFile world "Clip.WebM" None
  = Foreground.fromWebmVp9 world "Clip.WebM" None
  /\ Foreground.fromFile world_without_ffmpeg "Clip.WebM" None
     = Foreground.fromWebmVp9 world_without_ffmpeg "Clip.WebM" None.
Proof.
  split.
  - destruct (fromFile_ignores_case_of_extension world "Clip" "WebM" None
                eq_refl eq_refl) as (Hwebm & _).
    exact (Hwebm eq_refl).
  - destruct (fromFile_ignores_case_of_extension world_without_ffmpeg
                "Clip" "WebM" None eq_refl eq_refl) as (Hwebm & _).
    exact (Hwebm eq_refl).
Defined.

Lemma fromFile_rejects_path_without_dot_witness :
  Foreground.fromFile world "Makefile" None
  = Throw (Foreground.unknown_format_message "Makefile" "makefile").
Proof.
  apply (fromFile_rejects_path_without_dot world "Makefile" None);
    reflexivity.
Defined.

End SourceFacts.

(* ===================================================================== *)
(** * Position expressions *)
(* ===================================================================== *)

Module PositionFacts.

(** X23.  Custom position expressions.  After [xy(xExpr, yExpr)] with two
    expressions that are not empty, the overlay position is made of the
    two expressions alone, whatever the anchor, the offsets and the size
    of the layer are.  When one of them is empty, and the layer had no
    expressions before, the position is the one of the layer before the
    call. *)
Theorem xy_overrides_anchor `{JSNumber} (layer : LayerDict)
    (xExpr yExpr : string) (canvasWidth canvasHeight : num) :
  (xExpr <> "" -> yExpr <> "" ->
   Composition._calculateOverlayPosition (LayerHandle.xy xExpr yExpr layer)
                                         canvasWidth canvasHeight
   = "x='" +:+ xExpr +:+ "':y='" +:+ yExpr +:+ "'")
  /\ (xExpr = "" \/ yExpr = "" ->
      x_expr layer = None ->
      Composition._calculateOverlayPosition
        (LayerHandle.xy xExpr yExpr layer) canvasWidth canvasHeight
      = Composition._calculateOverlayPosition layer canvasWidth
                                              canvasHeight).
Proof.
  split.
  - intros Hx Hy. unfold Composition._calculateOverlayPosition.
    destruct xExpr; [done|]. destruct yExpr; [done|]. reflexivity.
  - intros Hxy Hn. unfold Composition._calculateOverlayPosition.
    rewrite Hn. cbn [JS.truthy_str andb].
    assert (Ht : JS.truthy_str (x_expr (LayerHandle.xy xExpr yExpr layer))
                 && JS.truthy_str
                      (y_expr (LayerHandle.xy xExpr yExpr layer))
                 = false).
    { destruct Hxy as [-> | ->]; [reflexivity|].
      simpl. by rewrite andb_false_r. }
    rewrite Ht. reflexivity.
Qed.

Import Rational Samples.

Lemma xy_overrides_anchor_witness :
  Composition._calculateOverlayPosition
    (LayerHandle.xy "W-w-10" "10"
       (LayerHandle.at_ BOTTOM_RIGHT (dec "5") (dec "5")
          (Composition.default_layer 0 clip None)))
    (dec "1920") (dec "1080")
  = "x='W-w-10':y='10'".
Proof.
  apply (xy_overrides_anchor
           (LayerHandle.at_ BOTTOM_RIGHT (dec "5") (dec "5")
              (Composition.default_layer 0 clip None))
           "W-w-10" "10" (dec "1920") (dec "1080")); discriminate.
Defined.

End PositionFacts.

(* ===================================================================== *)
(** * Labels of the normalisation filters *)
(* ===================================================================== *)

Module LabelFacts.
Section Facts.
Context `{JSNumber}.

Lemma digit_is_not_underscore (a : ascii) :
  (48 <=? nat_of_ascii a)%nat && (nat_of_ascii a <=? 57)%nat = true ->
  Ascii.eqb a "_" = false.
Proof.
  intros Hd. destruct (Ascii.eqb_spec a "_") as [->|]; [|done].
  discriminate.
Qed.

Lemma split_digits (s : string) :
  Notions.all_digits s = true -> Str.split "_" s = [s].
Proof.
  induction s as [|a r IH]; simpl; [done|].
  intros Hd. apply andb_true_iff in Hd as [Ha Hr].
  by rewrite (digit_is_not_underscore a Ha), (IH Hr).
Qed.

Lemma pretty_N_char_digit (y : N) :
  Notions.all_digits (String (pretty_N_char y) EmptyString) = true.
Proof.
  destruct y as [|p]; [reflexivity|].
  do 4 (destruct p as [p|p|]; try reflexivity).
Qed.

Lemma pretty_N_go_digits (x : N) :
  forall s, Notions.all_digits s = true ->
            Notions.all_digits (pretty_N_go x s) = true.
Proof.
  induction (N.lt_wf_0 x) as [x _ IH]. intros s Hs.
  destruct (decide (x = 0)%N) as [->|Hx].
  - by rewrite pretty_N_go_0.
  - rewrite pretty_N_go_step by lia.
    apply IH; [apply N.div_lt; lia|].
    pose proof (pretty_N_char_digit (x `mod` 10)) as Hc.
    simpl in *. rewrite andb_true_r in Hc. by rewrite Hc, Hs.
Qed.

Lemma of_nat_digits (n : nat) : Notions.all_digits (Str.of_nat n) = true.
Proof.
  unfold Str.of_nat, pretty, pretty_nat, pretty, pretty_N.
  destruct (decide (N.of_nat n = 0)%N); [reflexivity|].
  by apply pretty_N_go_digits.
Qed.

Lemma input_key_of_layer_key (i : nat) :
  Foreground.input_key_of_label (Foreground.layer_key i)
  = Foreground.layer_key i.
Proof.
  unfold Foreground.input_key_of_label, Foreground.layer_key.
  assert (Hs : Str.split "_" ("layer_" +:+ Str.of_nat i)
               = ["layer"; Str.of_nat i]).
  { change ("layer_" +:+ Str.of_nat i)
      with (String "l" (String "a" (String "y" (String "e" (String "r"
             (String "_" (Str.of_nat i))))))).
    cbn [Str.split Ascii.eqb Bool.eqb].
    by rewrite (split_digits _ (of_nat_digits i)). }
  by rewrite Hs.
Qed.

End Facts.

(** X24.  The format filters and the label agree.  When the format
    filters of a foreground are not empty, their last statement writes
    the label that [getCurrentInputLabel] returns, which is where the
    transformation chain of the layer starts. *)
Theorem format_filters_end_in_current_label `{JSNumber} (f : Foreground)
    (layerLabel : string) (inputMap : gmap string nat) (alphaEnabled : bool)
    (formatFilters : list string) :
  Foreground.getFFmpegFilters f layerLabel inputMap alphaEnabled
  = Ok formatFilters ->
  formatFilters <> [] ->
  exists body cur,
    Foreground.getCurrentInputLabel f layerLabel alphaEnabled = Ok cur
    /\ cur = "[" +:+ layerLabel +:+ "_merged]"
    /\ last formatFilters = Some (body +:+ cur).
Proof.
  unfold Foreground.getFFmpegFilters, Foreground.getCurrentInputLabel,
    Foreground._getWebmFilters, Foreground._getMovFilters,
    Foreground._getBundleFilters, Foreground._getStackedFilters.
  destruct (format f); [| |discriminate| |];
    destruct alphaEnabled; cbn [negb]; intros [= <-] Hne; try done.
  - exists ("[" +:+ Str.of_lookup inputMap
                      (Foreground.input_key_of_label layerLabel)
                +:+ ":v]format=rgb24"), ("[" +:+ layerLabel +:+ "_merged]").
    repeat split. cbn [last]. f_equal.
    by rewrite !StrFacts.app_assoc.
  - exists ("[" +:+ Str.of_lookup inputMap
                      (Foreground.input_key_of_label layerLabel)
                +:+ ":v]format=rgb24"), ("[" +:+ layerLabel +:+ "_merged]").
    repeat split. cbn [last]. f_equal.
    by rewrite !StrFacts.app_assoc.
  - exists ("[" +:+ layerLabel +:+ "_rgba][" +:+ layerLabel
                +:+ "_binary_mask]alphamerge"),
      ("[" +:+ layerLabel +:+ "_merged]").
    repeat split. cbn [last]. f_equal.
    by rewrite !StrFacts.app_assoc.
  - exists ("[" +:+ Str.of_lookup inputMap (layerLabel +:+ "_rgb")
                +:+ ":v]" +:+ "format=rgb24"),
      ("[" +:+ layerLabel +:+ "_merged]").
    repeat split. cbn [last]. f_equal.
    by rewrite !StrFacts.app_assoc.
  - exists ("[" +:+ layerLabel +:+ "_top_rgba][" +:+ layerLabel
                +:+ "_binary_mask]alphamerge"),
      ("[" +:+ layerLabel +:+ "_merged]").
    repeat split. cbn [last]. f_equal.
    by rewrite !StrFacts.app_assoc.
  - exists ("[" +:+ layerLabel +:+ "_top]format=rgb24"),
      ("[" +:+ layerLabel +:+ "_merged]").
    repeat split. cbn [last]. f_equal.
    by rewrite !StrFacts.app_assoc.
Qed.

(** X25.  With the alpha channel switched off, the filter of a WebM or
    MOV layer reads the input that [getFFmpegInputs] registered for that
    layer: the key recovered from the layer label is the key of the
    layer, for every layer index. *)
Theorem alpha_off_filter_reads_the_layer_input `{JSNumber} (i n : nat)
    (inputMap : gmap string nat) :
  Foreground.input_key_of_label (Foreground.layer_key i)
  = Foreground.layer_key i
  /\ Foreground._getWebmFilters (Foreground.layer_key i)
       (<[ Foreground.layer_key i := n ]> inputMap) false
     = ["[" +:+ Str.of_nat n +:+ ":v]format=rgb24["
            +:+ Foreground.layer_key i +:+ "_merged]"]
  /\ Foreground._getMovFilters (Foreground.layer_key i)
       (<[ Foreground.layer_key i := n ]> inputMap) false
     = ["[" +:+ Str.of_nat n +:+ ":v]format=rgb24["
            +:+ Foreground.layer_key i +:+ "_merged]"].
Proof.
  split; [apply input_key_of_layer_key|].
  unfold Foreground._getWebmFilters, Foreground._getMovFilters.
  cbn [negb]. rewrite input_key_of_layer_key.
  unfold Str.of_lookup. by rewrite lookup_insert_eq.
Qed.

Import Rational Samples.

Lemma format_filters_end_in_current_label_witness :
  exists body cur,
    Foreground.getCurrentInputLabel clip "layer_0" true = Ok cur
    /\ cur = "[layer_0_merged]"
    /\ last [ "[1:v]format=rgba[layer_0_rgba]";
              "[2:v]format=gray[layer_0_mask_gray]";
              "[layer_0_mask_gray]geq='if(gte(lum(X,Y),128),255,0)'[layer_0_binary_mask]";
              "[layer_0_rgba][layer_0_binary_mask]alphamerge[layer_0_merged]" ]
       = Some (body +:+ cur).
Proof.
  apply (format_filters_end_in_current_label clip "layer_0"
           (<[ "layer_0_mask" := 2 ]> {[ "layer_0_rgb" := 1 ]}) true).
  - reflexivity.
  - discriminate.
Defined.

End LabelFacts.

(* ===================================================================== *)
(** * What a handle changes *)
(* ===================================================================== *)

Module FrameFacts.
Section Facts.
Context `{JSNumber}.

(** A write to an object that an array does not hold is not seen
    through the array. *)
Lemma layers_of_alter_other (objects : list LayerDict) (a : nat)
    (m : LayerDict -> LayerDict) (addresses : list nat) :
  a ∉ addresses ->
  Heap.layers_of (alter m a objects) addresses
  = Heap.layers_of objects addresses.
Proof.
  induction addresses as [|b rest IH]; intros Hnot; [reflexivity|].
  apply not_elem_of_cons in Hnot as [Hne Hrest]. simpl.
  rewrite list_lookup_alter_ne by done. by rewrite IH.
Qed.

(** A write to the object at position [j] of an array without
    repetitions is the update of the layer of index [j]. *)
Lemma layers_of_alter_at (objects : list LayerDict) (a : nat)
    (m : LayerDict -> LayerDict) (addresses : list nat) :
  NoDup addresses ->
  forall j, addresses !! j = Some a ->
    Heap.layers_of (alter m a objects) addresses
    = alter m j <$> Heap.layers_of objects addresses.
Proof.
  induction addresses as [|b rest IH]; intros Hnd j Hj; [done|].
  apply NoDup_cons in Hnd as [Hb Hnd].
  destruct j as [|j]; simpl in Hj |- *.
  - injection Hj as ->.
    rewrite list_lookup_alter_eq, layers_of_alter_other by done.
    destruct (objects !! a); [|reflexivity]. simpl.
    by destruct (Heap.layers_of objects rest).
  - assert (Hne : a <> b).
    { intros ->. apply Hb. by eapply list_elem_of_lookup_2. }
    rewrite list_lookup_alter_ne by done.
    rewrite (IH Hnd j Hj).
    destruct (objects !! b); [|by destruct (Heap.layers_of objects rest)].
    by destruct (Heap.layers_of objects rest).
Qed.

(** The layers of an array of allocated addresses are all there. *)
Lemma layers_of_allocated (objects : list LayerDict) (addresses : list nat) :
  Forall (fun a => a < length objects) addresses ->
  exists layers, Heap.layers_of objects addresses = Some layers
                 /\ length layers = length addresses.
Proof.
  induction 1 as [|a rest Ha _ (layers & IH & Hlen)]; [by exists []|].
  destruct (lookup_lt_is_Some_2 objects a Ha) as [layer Hl].
  exists (layer :: layers). simpl. rewrite Hl, IH. split; [done|].
  simpl. by rewrite Hlen.
Qed.

Lemma layers_of_app (objects extra : list LayerDict) (addresses : list nat) :
  Forall (fun a => a < length objects) addresses ->
  Heap.layers_of (objects ++ extra) addresses
  = Heap.layers_of objects addresses.
Proof.
  induction 1 as [|a rest Ha _ IH]; [reflexivity|]. simpl.
  by rewrite lookup_app_l, IH.
Qed.

Lemma layers_of_snoc (objects : list LayerDict) (addresses : list nat)
    (a : nat) :
  Heap.layers_of objects (addresses ++ [a])
  = match Heap.layers_of objects addresses, objects !! a with
    | Some layers, Some layer => Some (layers ++ [layer])
    | _, _ => None
    end.
Proof.
  induction addresses as [|b rest IH]; simpl.
  - by destruct (objects !! a).
  - rewrite IH. destruct (objects !! b); [|reflexivity].
    destruct (Heap.layers_of objects rest); [|reflexivity].
    by destruct (objects !! a).
Qed.

(** ** The operations keep the store well formed *)

Lemma wf_empty : Heap.wf Heap.empty.
Proof. constructor. Qed.

Lemma wf_construct (s : Heap.Store) (bg : option BaseBackground)
    (context : MediaContext) :
  Heap.wf s -> Heap.wf (Heap.construct s bg context).1.
Proof.
  intros Hwf. unfold Heap.wf, Heap.construct. simpl.
  apply Forall_app. split; [exact Hwf|].
  repeat constructor.
Qed.

Lemma wf_setDuration (s s' : Heap.Store) (this copy : nat) (d : num) :
  Heap.wf s -> Heap.setDuration s this d = Some (s', copy) -> Heap.wf s'.
Proof.
  intros Hwf. unfold Heap.setDuration.
  destruct (Heap.compositions s !! this) as [o|] eqn:Ho; [|discriminate].
  intros [= <- _]. unfold Heap.wf. simpl.
  apply Forall_app. split; [exact Hwf|].
  constructor; [|constructor]. simpl.
  exact (proj1 (Forall_lookup _ _) Hwf _ _ Ho).
Qed.

Lemma wf_setCanvas (s s' : Heap.Store) (this copy : nat) (w h f : num) :
  Heap.wf s -> Heap.setCanvas s this w h f = Some (s', copy) -> Heap.wf s'.
Proof.
  intros Hwf. unfold Heap.setCanvas.
  destruct (Heap.compositions s !! this) as [o|] eqn:Ho; [|discriminate].
  intros [= <- _]. unfold Heap.wf. simpl.
  apply Forall_app. split; [exact Hwf|].
  constructor; [|constructor]. simpl.
  exact (proj1 (Forall_lookup _ _) Hwf _ _ Ho).
Qed.

Lemma wf_add (s s' : Heap.Store) (this : nat) (f : Foreground)
    (name : option string) (handle : nat * nat) :
  Heap.wf s -> Heap.add s this f name = Some (s', handle) -> Heap.wf s'.
Proof.
  intros Hwf. unfold Heap.add.
  destruct (Heap.compositions s !! this) as [o|] eqn:Ho; [|discriminate].
  intros [= <- _]. unfold Heap.wf. simpl.
  assert (Hgrow : Forall (fun o' =>
            NoDup (Heap.o_layers o')
            /\ Forall (fun a => a < length (Heap.layer_objects s ++
                         [Composition.default_layer
                            (length (Heap.o_layers o)) f name]))
                      (Heap.o_layers o'))
            (Heap.compositions s)).
  { eapply Forall_impl; [exact Hwf|]. intros o' [Hnd Hall].
    split; [exact Hnd|]. eapply Forall_impl; [exact Hall|].
    intros a Ha. rewrite length_app. simpl in *. lia. }
  apply Forall_insert; [exact Hgrow|]. simpl.
  destruct (proj1 (Forall_lookup _ _) Hwf _ _ Ho) as [Hnd Hall].
  split.
  - apply NoDup_app. split; [exact Hnd|]. split; [|apply NoDup_singleton].
    intros a Ha Hin. apply list_elem_of_singleton in Hin. subst a.
    pose proof (proj1 (Forall_forall _ _) Hall _ Ha). simpl in *. lia.
  - apply Forall_app. split.
    + eapply Forall_impl; [exact Hall|].
      intros a Ha. rewrite length_app. simpl in *. lia.
    + constructor; [|constructor]. rewrite length_app. simpl. lia.
Qed.

Lemma wf_write (s : Heap.Store) (handle : nat * nat)
    (m : LayerDict -> LayerDict) :
  Heap.wf s -> Heap.wf (Heap.write s handle m).
Proof.
  intros Hwf. unfold Heap.write.
  destruct (Heap.compositions s !! handle.1) as [o|]; [|exact Hwf].
  destruct (Heap.o_layers o !! handle.2) as [a|]; [|exact Hwf].
  unfold Heap.wf. simpl. eapply Forall_impl; [exact Hwf|].
  intros o' [Hnd Hall]. split; [exact Hnd|].
  by rewrite length_alter.
Qed.

(** ** The functions on values are the view of one composition *)

Lemma read_allocated (s : Heap.Store) (c : nat)
    (o : Heap.CompositionObject) :
  Heap.wf s -> Heap.compositions s !! c = Some o ->
  exists comp, Heap.read s c = Some comp
               /\ length (_layers comp) = length (Heap.o_layers o).
Proof.
  intros Hwf Ho. unfold Heap.read. rewrite Ho.
  destruct (proj1 (Forall_lookup _ _) Hwf _ _ Ho) as [_ Hall].
  destruct (layers_of_allocated _ _ Hall) as (layers & -> & Hlen).
  by eexists.
Qed.

Lemma read_setDuration (s : Heap.Store) (this : nat) (d : num)
    (o : Heap.CompositionObject) :
  Heap.compositions s !! this = Some o ->
  exists s' copy,
    Heap.setDuration s this d = Some (s', copy)
    /\ copy = length (Heap.compositions s)
    /\ Heap.layer_objects s' = Heap.layer_objects s
    /\ Heap.compositions s' !! copy
       = Some {| Heap.o_ctx := Heap.o_ctx o;
                 Heap.o_background := Heap.o_background o;
                 Heap.o_layers := Heap.o_layers o;
                 Heap.o_canvasHint := Heap.o_canvasHint o;
                 Heap.o_explicitDuration := Some d |}
    /\ (forall c' o', Heap.compositions s !! c' = Some o' ->
                      Heap.compositions s' !! c' = Some o')
    /\ Heap.read s' copy
       = (fun comp => Composition.setDuration comp d) <$> Heap.read s this.
Proof.
  intros Ho. unfold Heap.setDuration. rewrite Ho.
  do 2 eexists. split; [reflexivity|]. split; [reflexivity|].
  split; [reflexivity|]. simpl.
  assert (Hc : forall x : Heap.CompositionObject,
            (Heap.compositions s ++ [x]) !! length (Heap.compositions s)
            = Some x).
  { intros x. rewrite lookup_app_r by lia. by rewrite Nat.sub_diag. }
  split; [apply Hc|]. split.
  - intros c' o' Hc'. by apply lookup_app_l_Some.
  - unfold Heap.read. simpl. rewrite Hc, Ho. simpl.
    by destruct (Heap.layers_of (Heap.layer_objects s) (Heap.o_layers o)).
Qed.

Lemma read_setCanvas (s : Heap.Store) (this : nat) (w h f : num)
    (o : Heap.CompositionObject) :
  Heap.compositions s !! this = Some o ->
  exists s' copy,
    Heap.setCanvas s this w h f = Some (s', copy)
    /\ copy = length (Heap.compositions s)
    /\ Heap.layer_objects s' = Heap.layer_objects s
    /\ Heap.compositions s' !! copy
       = Some {| Heap.o_ctx := Heap.o_ctx o;
                 Heap.o_background := Heap.o_background o;
                 Heap.o_layers := Heap.o_layers o;
                 Heap.o_canvasHint := Some (w, h, f);
                 Heap.o_explicitDuration := Heap.o_explicitDuration o |}
    /\ (forall c' o', Heap.compositions s !! c' = Some o' ->
                      Heap.compositions s' !! c' = Some o')
    /\ Heap.read s' copy
       = (fun comp => Composition.setCanvas comp w h f) <$> Heap.read s this.
Proof.
  intros Ho. unfold Heap.setCanvas. rewrite Ho.
  do 2 eexists. split; [reflexivity|]. split; [reflexivity|].
  split; [reflexivity|]. simpl.
  assert (Hc : forall x : Heap.CompositionObject,
            (Heap.compositions s ++ [x]) !! length (Heap.compositions s)
            = Some x).
  { intros x. rewrite lookup_app_r by lia. by rewrite Nat.sub_diag. }
  split; [apply Hc|]. split.
  - intros c' o' Hc'. by apply lookup_app_l_Some.
  - unfold Heap.read. simpl. rewrite Hc, Ho. simpl.
    by destruct (Heap.layers_of (Heap.layer_objects s) (Heap.o_layers o)).
Qed.

(** [add] on the store is [Composition.add] on the value of the
    receiver, and the handle holds the index that [Composition.add]
    returns. *)
Lemma read_add (s : Heap.Store) (this : nat) (f : Foreground)
    (name : option string) (o : Heap.CompositionObject)
    (comp : Composition) :
  Heap.wf s -> Heap.compositions s !! this = Some o ->
  Heap.read s this = Some comp ->
  exists s',
    Heap.add s this f name
    = Some (s', (this, (Composition.add comp f name).2))
    /\ Heap.read s' this = Some (Composition.add comp f name).1.
Proof.
  intros Hwf Ho Hread.
  destruct (proj1 (Forall_lookup _ _) Hwf _ _ Ho) as [_ Hall].
  destruct (layers_of_allocated _ _ Hall) as (layers & Hl & Hlen).
  unfold Heap.read in Hread. rewrite Ho, Hl in Hread.
  injection Hread as <-.
  unfold Heap.add. rewrite Ho. eexists. split.
  - unfold Composition.add. simpl. rewrite !length_app, Hlen. reflexivity.
  - unfold Heap.read. simpl.
    rewrite list_lookup_insert_eq by (by eapply lookup_lt_Some).
    simpl. rewrite layers_of_snoc, layers_of_app by done. rewrite Hl.
    rewrite lookup_app_r by lia. rewrite Nat.sub_diag. simpl.
    unfold Composition.add. simpl. by rewrite Hlen.
Qed.

(** A write through the handle [(c, idx)], whose layer is the object
    [a], as every composition sees it. *)
Lemma write_seen (s : Heap.Store) (c idx a : nat)
    (o : Heap.CompositionObject) (m : LayerDict -> LayerDict) :
  Heap.wf s ->
  Heap.compositions s !! c = Some o ->
  Heap.o_layers o !! idx = Some a ->
  forall c' o', Heap.compositions s !! c' = Some o' ->
    (forall j, Heap.o_layers o' !! j = Some a ->
       Heap.read (Heap.write s (c, idx) m) c'
       = LayerHandle.apply j m <$> Heap.read s c')
    /\ (a ∉ Heap.o_layers o' ->
        Heap.read (Heap.write s (c, idx) m) c' = Heap.read s c').
Proof.
  intros Hwf Ho Ha c' o' Ho'.
  unfold Heap.write, Heap.read. simpl. rewrite Ho, Ha. simpl. rewrite Ho'.
  destruct (proj1 (Forall_lookup _ _) Hwf _ _ Ho') as [Hnd _].
  split.
  - intros j Hj. rewrite (layers_of_alter_at _ _ _ _ Hnd j Hj).
    by destruct (Heap.layers_of _ _).
  - intros Hnot. by rewrite layers_of_alter_other.
Qed.

End Facts.

(** X26.  A method called through a handle writes to one layer object,
    the one at the index of the handle in the array of its composition.
    In that composition the layer of the handle is updated and nothing
    else: every other layer, the number of layers, the background, the
    context, the canvas hint and the explicit duration are as before.
    The layer objects are shared: a composition whose array holds the
    object at an index sees the same update at that index, so the copies
    that [setDuration] and [setCanvas] made of the composition change
    with it; a composition that does not hold the object is as before.
    No array changes. *)
Theorem handle_changes_only_its_layer `{JSNumber} (s : Heap.Store)
    (c idx a : nat) (o : Heap.CompositionObject)
    (m : LayerDict -> LayerDict) :
  Heap.wf s ->
  Heap.compositions s !! c = Some o ->
  Heap.o_layers o !! idx = Some a ->
  (exists comp,
     Heap.read s c = Some comp
     /\ Heap.read (Heap.write s (c, idx) m) c
        = Some (LayerHandle.apply idx m comp)
     /\ (forall j,
           _layers (LayerHandle.apply idx m comp) !! j
           = if decide (j = idx) then m <$> (_layers comp !! j)
             else _layers comp !! j)
     /\ is_Some (_layers comp !! idx)
     /\ length (_layers (LayerHandle.apply idx m comp))
        = length (_layers comp)
     /\ _background (LayerHandle.apply idx m comp) = _background comp
     /\ ctx (LayerHandle.apply idx m comp) = ctx comp
     /\ _canvasHint (LayerHandle.apply idx m comp) = _canvasHint comp
     /\ _explicitDuration (LayerHandle.apply idx m comp)
        = _explicitDuration comp)
  /\ Heap.compositions (Heap.write s (c, idx) m) = Heap.compositions s
  /\ Heap.wf (Heap.write s (c, idx) m)
  /\ (forall c' o', Heap.compositions s !! c' = Some o' ->
        (forall j, Heap.o_layers o' !! j = Some a ->
           Heap.read (Heap.write s (c, idx) m) c'
           = LayerHandle.apply j m <$> Heap.read s c')
        /\ (a ∉ Heap.o_layers o' ->
            Heap.read (Heap.write s (c, idx) m) c' = Heap.read s c'))
  /\ (forall d, exists s1 copy comp1,
        Heap.setDuration s c d = Some (s1, copy)
        /\ copy <> c
        /\ Heap.read s1 copy = Some comp1
        /\ Heap.read s1 copy
           = (fun comp => Composition.setDuration comp d) <$> Heap.read s c
        /\ Heap.read (Heap.write s1 (c, idx) m) copy
           = Some (LayerHandle.apply idx m comp1))
  /\ (forall w h f, exists s1 copy comp1,
        Heap.setCanvas s c w h f = Some (s1, copy)
        /\ copy <> c
        /\ Heap.read s1 copy = Some comp1
        /\ Heap.read s1 copy
           = (fun comp => Composition.setCanvas comp w h f) <$> Heap.read s c
        /\ Heap.read (Heap.write s1 (c, idx) m) copy
           = Some (LayerHandle.apply idx m comp1)).
Proof.
  intros Hwf Ho Ha.
  pose proof (lookup_lt_Some _ _ _ Ho) as Hc.
  split; [|split; [|split; [|split; [|split]]]].
  - destruct (read_allocated s c o Hwf Ho) as (comp & Hread & Hlen).
    exists comp. split; [exact Hread|].
    destruct (write_seen s c idx a o m Hwf Ho Ha c o Ho) as [Hseen _].
    split; [by rewrite (Hseen idx Ha), Hread|].
    split.
    { intros j. unfold LayerHandle.apply. cbn [_layers].
      destruct (decide (j = idx)) as [->|Hne].
      - apply list_lookup_alter_eq.
      - by apply list_lookup_alter_ne. }
    split.
    { apply lookup_lt_is_Some_2. rewrite Hlen. by eapply lookup_lt_Some. }
    split; [apply length_alter|by repeat split].
  - unfold Heap.write. simpl. by rewrite Ho, Ha.
  - by apply wf_write.
  - by apply write_seen with o.
  - intros d.
    destruct (read_setDuration s c d o Ho)
      as (s1 & copy & Hset & -> & Hobj & Hcopy & Hkeep & Hview).
    pose proof (wf_setDuration s s1 c _ d Hwf Hset) as Hwf1.
    destruct (read_allocated s1 _ _ Hwf1 Hcopy) as (comp1 & Hread1 & _).
    exists s1, (length (Heap.compositions s)), comp1.
    split; [exact Hset|]. split; [lia|]. split; [exact Hread1|].
    split; [exact Hview|].
    destruct (write_seen s1 c idx a o m Hwf1 (Hkeep _ _ Ho) Ha _ _ Hcopy)
      as [Hseen _].
    by rewrite (Hseen idx Ha), Hread1.
  - intros w h f.
    destruct (read_setCanvas s c w h f o Ho)
      as (s1 & copy & Hset & -> & Hobj & Hcopy & Hkeep & Hview).
    pose proof (wf_setCanvas s s1 c _ w h f Hwf Hset) as Hwf1.
    destruct (read_allocated s1 _ _ Hwf1 Hcopy) as (comp1 & Hread1 & _).
    exists s1, (length (Heap.compositions s)), comp1.
    split; [exact Hset|]. split; [lia|]. split; [exact Hread1|].
    split; [exact Hview|].
    destruct (write_seen s1 c idx a o m Hwf1 (Hkeep _ _ Ho) Ha _ _ Hcopy)
      as [Hseen _].
    by rewrite (Hseen idx Ha), Hread1.
Qed.

Import Rational Samples.

Lemma shared_built :
  (s1 ← Heap.add (Heap.construct Heap.empty (Some red_background)
                                 context).1 0 (webm "a.webm" "3") None;
   s2 ← Heap.add s1.1 0 (webm "b.webm" "5") None;
   Heap.setDuration s2.1 0 (dec "7"))
  = Some (shared, 1).
Proof. reflexivity. Qed.

Lemma handle_changes_only_its_layer_witness :
  Heap.read shared 0 = Some (two_layers red_background)
  /\ Heap.read shared 1
     = Some (Composition.setDuration (two_layers red_background) (dec "7"))
  /\ Heap.read (Heap.write shared (0, 1) (LayerHandle.start (dec "5"))) 1
     = Some (LayerHandle.apply 1 (LayerHandle.start (dec "5"))
               (Composition.setDuration (two_layers red_background)
                                        (dec "7"))).
Proof.
  split; [reflexivity|]. split; [reflexivity|].
  assert (Hwf : Heap.wf shared).
  { repeat constructor; simpl; try lia;
      by apply (bool_decide_unpack _). }
  destruct (handle_changes_only_its_layer shared 0 1 1
              {| Heap.o_ctx := context;
                 Heap.o_background := Some red_background;
                 Heap.o_layers := [0; 1];
                 Heap.o_canvasHint := None;
                 Heap.o_explicitDuration := None |}
              (LayerHandle.start (dec "5")) Hwf eq_refl eq_refl)
    as (_ & _ & _ & Hseen & _).
  destruct (Hseen 1 _ eq_refl) as [Hat _].
  exact (Hat 1 eq_refl).
Defined.

End FrameFacts.

(* ===================================================================== *)
(** * The trim recorded in a layer *)
(* ===================================================================== *)

Module TrimFacts.
Section Facts.
Context `{JSNumber} (W : World).

(** The layer without the trim that [LayerHandle.subclip] records. *)
Definition forget_trim (l : LayerDict) : LayerDict :=
  {| name := name l; fg := fg l; anchor := anchor l; dx := dx l;
     dy := dy l; x_expr := x_expr l; y_expr := y_expr l; size := size l;
     opacity := opacity l; rotate := rotate l; crop := crop l;
     comp_start := comp_start l; comp_end := comp_end l;
     comp_duration := comp_duration l; source_trim := None;
     audio_enabled := audio_enabled l; audio_volume := audio_volume l;
     alpha_enabled := alpha_enabled l; z := z l |}.

Definition forget (comp : Composition) : Composition :=
  {| ctx := ctx comp; _background := _background comp;
     _layers := forget_trim <$> _layers comp;
     _canvasHint := _canvasHint comp;
     _explicitDuration := _explicitDuration comp |}.

Definition forget_entry (e : LayerDict * nat) : LayerDict * nat :=
  (forget_trim e.1, e.2).

Lemma input_loop_forget (comp : Composition) (layers : list LayerDict) :
  forall i st,
    Composition.input_loop W (forget comp) i (forget_trim <$> layers) st
    = Composition.input_loop W comp i layers st.
Proof.
  induction layers as [|l rest IH]; intros i st; [reflexivity|].
  rewrite fmap_cons. cbn [Composition.input_loop].
  change (Composition.input_step W (forget comp) i (forget_trim l) st)
    with (Composition.input_step W comp i l st).
  destruct (Composition.input_step W comp i l st) as [st'|m];
    [|reflexivity].
  cbn [mbind result_bind rbind]. apply IH.
Qed.

Lemma insert_forget (a : LayerDict * nat) (l : list (LayerDict * nat)) :
  Composition.insert_by_z (forget_entry a) (forget_entry <$> l)
  = forget_entry <$> Composition.insert_by_z a l.
Proof.
  induction l as [|b r IH]; [reflexivity|].
  rewrite fmap_cons. cbn [Composition.insert_by_z].
  change (z (forget_entry a).1) with (z a.1).
  change (z (forget_entry b).1) with (z b.1).
  destruct (z a.1 <=? z b.1)%Z; [reflexivity|].
  by rewrite IH.
Qed.

Lemma sort_forget (l : list (LayerDict * nat)) :
  Composition.sort_by_z (forget_entry <$> l)
  = forget_entry <$> Composition.sort_by_z l.
Proof.
  induction l as [|a r IH]; [reflexivity|].
  rewrite fmap_cons. cbn [Composition.sort_by_z].
  by rewrite IH, insert_forget.
Qed.

Lemma sortedLayers_forget (comp : Composition) :
  Composition.sortedLayers (forget comp)
  = forget_entry <$> Composition.sortedLayers comp.
Proof.
  unfold Composition.sortedLayers. rewrite <- sort_forget. f_equal.
  unfold Composition.with_original_index, forget. cbn [_layers].
  by rewrite imap_fmap, fmap_imap.
Qed.

Lemma overlay_loop_forget (m : gmap string nat) (cw ch : num) (count : nat)
    (entries : list (LayerDict * nat)) :
  forall layerIdx st,
    Composition.overlay_loop m cw ch count layerIdx
                             (forget_entry <$> entries) st
    = Composition.overlay_loop m cw ch count layerIdx entries st.
Proof.
  induction entries as [|e rest IH]; intros layerIdx st; [reflexivity|].
  rewrite fmap_cons. cbn [Composition.overlay_loop].
  assert (Hs : Composition.overlay_step m cw ch count layerIdx
                 (forget_entry e) st
               = Composition.overlay_step m cw ch count layerIdx e st)
    by (by destruct e).
  rewrite Hs.
  destruct (Composition.overlay_step m cw ch count layerIdx e st);
    [|reflexivity].
  cbn [mbind result_bind rbind]. apply IH.
Qed.

Lemma video_filter_parts_forget (comp : Composition) (m : gmap string nat)
    (cw ch : num) :
  Composition.video_filter_parts (forget comp) m cw ch
  = Composition.video_filter_parts comp m cw ch.
Proof.
  unfold Composition.video_filter_parts. cbv zeta.
  by rewrite sortedLayers_forget, length_fmap, overlay_loop_forget.
Qed.

Lemma comp_start_of_forget (comp : Composition) (layerIdx : nat) :
  Composition.comp_start_of (forget comp) layerIdx
  = Composition.comp_start_of comp layerIdx.
Proof.
  unfold Composition.comp_start_of, forget. cbn [_layers].
  rewrite list_lookup_fmap.
  by destruct (_layers comp !! layerIdx).
Qed.

Lemma multi_audio_loop_forget (comp : Composition)
    (inputs : list AudioInput) :
  forall i,
    Composition.multi_audio_loop (forget comp) i inputs
    = Composition.multi_audio_loop comp i inputs.
Proof.
  induction inputs as [|a rest IH]; intros i; [reflexivity|].
  cbn [Composition.multi_audio_loop]. rewrite IH.
  unfold Composition.multi_audio_step.
  by rewrite comp_start_of_forget.
Qed.

Lemma audio_filters_forget (comp : Composition) (inputs : list AudioInput) :
  Composition.audio_filters (forget comp) inputs
  = Composition.audio_filters comp inputs.
Proof.
  destruct inputs as [|a [|b rest]]; [reflexivity| |].
  - cbn [Composition.audio_filters]. unfold Composition.single_audio.
    destruct (type a), (layerIndex a);
      by rewrite ?comp_start_of_forget.
  - cbn [Composition.audio_filters]. unfold Composition.multi_audio.
    by rewrite multi_audio_loop_forget.
Qed.

Lemma longest_fold_forget (layers : list LayerDict) :
  forall acc,
    fold_left Composition.longest_step (forget_trim <$> layers) acc
    = fold_left Composition.longest_step layers acc.
Proof.
  induction layers as [|l rest IH]; intros acc; [reflexivity|].
  rewrite fmap_cons. cbn [fold_left]. apply IH.
Qed.

Lemma duration_args_forget (comp : Composition) :
  Composition.duration_args (forget comp) = Composition.duration_args comp.
Proof.
  unfold Composition.duration_args, Composition._getCompositionDuration,
    Composition._getLongestForegroundDuration.
  change (_explicitDuration (forget comp)) with (_explicitDuration comp).
  change (Composition.background_duration (forget comp))
    with (Composition.background_duration comp).
  change (_layers (forget comp)) with (forget_trim <$> _layers comp).
  by rewrite longest_fold_forget.
Qed.

Lemma argv_before_duration_forget (comp : Composition) :
  Composition.argv_before_duration W (forget comp)
  = Composition.argv_before_duration W comp.
Proof.
  unfold Composition.argv_before_duration.
  change (Composition._getCanvasSize (forget comp))
    with (Composition._getCanvasSize comp).
  destruct (Composition._getCanvasSize comp) as [[[cw ch] cf]|msg];
    [|reflexivity].
  cbn [mbind result_bind rbind].
  change (ctx (forget comp)) with (ctx comp).
  change (Composition.background_input_args (forget comp) cw ch cf)
    with (Composition.background_input_args comp cw ch cf).
  change (_layers (forget comp)) with (forget_trim <$> _layers comp).
  rewrite input_loop_forget.
  destruct (Composition.input_loop W comp 0 (_layers comp) _) as [st|msg];
    [|reflexivity].
  cbn [mbind result_bind rbind].
  rewrite video_filter_parts_forget.
  destruct (Composition.video_filter_parts comp _ cw ch) as [parts|msg];
    [|reflexivity].
  cbn [mbind result_bind rbind].
  change (Composition.background_audio (forget comp)
            (Composition.inputMap st))
    with (Composition.background_audio comp (Composition.inputMap st)).
  by rewrite audio_filters_forget.
Qed.

Lemma build_forget (comp : Composition) (outPath : string)
    (encoder : EncoderProfile) (toPipe : bool)
    (streamFormat : option string) :
  Composition._buildFFmpegArgv W (forget comp) outPath encoder toPipe
                               streamFormat
  = Composition._buildFFmpegArgv W comp outPath encoder toPipe streamFormat.
Proof.
  unfold Composition._buildFFmpegArgv.
  by rewrite argv_before_duration_forget, duration_args_forget.
Qed.

Lemma forget_subclip (comp : Composition) (idx : nat) (start : num)
    (end_ : option num) :
  forget (LayerHandle.apply idx (LayerHandle.subclip start end_) comp)
  = forget comp.
Proof.
  unfold forget, LayerHandle.apply. cbn [_layers ctx _background
    _canvasHint _explicitDuration]. f_equal.
  generalize (_layers comp). intros layers. revert idx.
  induction layers as [|l rest IH]; intros idx; [reflexivity|].
  destruct idx as [|idx]; simpl; [reflexivity|].
  f_equal. apply IH.
Qed.

End Facts.

(** X27.  [LayerHandle.subclip] does not reach the command.  The method
    records the trim in the layer, and nothing that builds the arguments
    reads it: the argument vector and the dry run of a composition are
    the same after the call as before it.  (The trim of the input comes
    from the foreground, as set by [Foreground.subclip].) *)
Theorem layer_subclip_does_not_change_the_command `{JSNumber} (W : World)
    (comp : Composition) (idx : nat) (start : num) (end_ : option num)
    (outPath : string) (encoder : EncoderProfile) (toPipe : bool)
    (streamFormat : option string) :
  Composition._buildFFmpegArgv W
    (LayerHandle.apply idx (LayerHandle.subclip start end_) comp)
    outPath encoder toPipe streamFormat
  = Composition._buildFFmpegArgv W comp outPath encoder toPipe streamFormat
  /\ Composition.dryRun W
       (LayerHandle.apply idx (LayerHandle.subclip start end_) comp)
     = Composition.dryRun W comp.
Proof.
  assert (Hb : forall o e p sf,
    Composition._buildFFmpegArgv W
      (LayerHandle.apply idx (LayerHandle.subclip start end_) comp) o e p sf
    = Composition._buildFFmpegArgv W comp o e p sf).
  { intros.
    rewrite <- (build_forget W (LayerHandle.apply idx _ comp)),
      <- (build_forget W comp).
    by rewrite forget_subclip. }
  split; [apply Hb|]. unfold Composition.dryRun. by rewrite Hb.
Qed.

End TrimFacts.

(* ===================================================================== *)
(** * The tail of the argument vector, and starting over *)
(* ===================================================================== *)

Module TailFacts.

(** X28.  Without a pipe the stream format is ignored: built with
    [toPipe] false, the argument vector is the same for every
    [streamFormat]. *)
Theorem stream_format_needs_pipe `{JSNumber} (W : World)
    (comp : Composition) (outPath : string) (encoder : EncoderProfile)
    (streamFormat : option string) :
  Composition._buildFFmpegArgv W comp outPath encoder false streamFormat
  = Composition._buildFFmpegArgv W comp outPath encoder false None.
Proof.
  unfold Composition._buildFFmpegArgv, Composition.argv_after_duration.
  assert (Hs : Composition.stream_format_args false streamFormat = [])
    by (by destruct streamFormat).
  by rewrite Hs.
Qed.

(** X29.  What follows the duration block is, in this order, the
    encoder's arguments as [toFFmpegArgs] gives them, the arguments of
    the stream format, and the output path unless it is empty. *)
Theorem tail_is_encoder_then_format_then_path `{JSNumber}
    (encoder : EncoderProfile) (outPath : string) (toPipe : bool)
    (streamFormat : option string) :
  Composition.argv_after_duration encoder outPath toPipe streamFormat
  = Encoders.toFFmpegArgs encoder
      ++ Composition.stream_format_args toPipe streamFormat
      ++ (if String.eqb outPath "" then [] else [outPath]).
Proof.
  unfold Composition.argv_after_duration, Encoders.toFFmpegArgs.
  destruct (BuildFacts.encoder_args_split encoder outPath)
    as (a & -> & ->).
  rewrite !BuildFacts.take_all_but_last, last_snoc.
  by destruct outPath.
Qed.

(** X30.  [background(bg)] starts over.  The composition it returns has
    the context of the receiver and none of its layers, canvas hint or
    explicit duration; over a background with truthy dimensions that
    supplies no audio, what is built before the duration block is the
    binary, [-y], the input of the background, and the mapping of its
    video with [-an]. *)
Theorem background_starts_over `{JSNumber} (W : World) (comp : Composition)
    (bg : BaseBackground) :
  JS.truthy (width bg) = true -> JS.truthy (height bg) = true ->
  JS.truthy (fps bg) = true ->
  audioEnabled bg && Background.hasAudio bg = false ->
  _layers (Composition.background comp bg) = []
  /\ _canvasHint (Composition.background comp bg) = None
  /\ _explicitDuration (Composition.background comp bg) = None
  /\ Composition.argv_before_duration W (Composition.background comp bg)
     = Ok ([ffmpeg (ctx comp); "-y"]
             ++ Background.getFFmpegInputArgs bg (width bg) (height bg)
                                              (fps bg) (ctx comp)
             ++ ["-map"; "0:v"; "-an"],
           []).
Proof.
  intros Hw Hh Hf Ha. repeat split.
  unfold Composition.argv_before_duration, Composition._getCanvasSize,
    Composition.background, Composition.construct.
  cbn [_background _layers ctx]. rewrite Hw, Hh, Hf.
  cbn [andb mbind result_bind rbind Composition.input_loop].
  unfold Composition.video_filter_parts, Composition.sortedLayers,
    Composition.with_original_index, Composition.background_audio,
    Composition.background_input_args.
  cbn [_background _layers ctx imap Composition.sort_by_z
       Composition.overlay_loop mbind result_bind rbind fst length
       Composition.inputMap Composition.audioInputs Composition.argv app].
  rewrite Ha.
  cbn [Composition.audio_filters app length].
  assert (Hk : Str.of_lookup ({[ "background" := 0 ]} : gmap string nat)
                             "background" = "0").
  { unfold Str.of_lookup. by rewrite lookup_singleton_eq. }
  rewrite Hk.
  rewrite bool_decide_eq_false_2 by (simpl; lia).
  reflexivity.
Qed.

Import Rational Samples.

Lemma background_starts_over_witness :
  _layers (Composition.background (two_layers video_background)
                                  red_background)
  = [].
Proof.
  apply (background_starts_over world (two_layers video_background)
           red_background); reflexivity.
Defined.

End TailFacts.
